(** * Training-loop orchestration of train.py: a shallow embedding

    The script [train.py] is one linear program: it numbers its run
    directory, picks a network and an optimizer, assembles three data sets
    and their loaders, and then runs the epoch loop (training batches,
    checkpoint, validation and test passes).

    The embedding keeps the script's control flow and its integer
    bookkeeping exactly.  Tensors are not modelled: a batch is the list of its
    samples, and the numbers that come out of the network (losses, IoU sums)
    are supplied by oracles.  Python floats that the script only adds and
    divides for the log are rationals ([Q]); the one float that decides
    control flow, the product truncated at line 225, is rounded as binary64
    does; learning rates are real numbers ([R]).
    Side effects (log sink, files, optimizer calls) are recorded as a
    chronological list of events, which is kept up to the point of a raised
    exception. *)

From Stdlib Require Import Ascii String ZArith QArith Qround List Bool Lia.
From Stdlib Require Import Permutation Reals Sorted.
From Stdlib Require DecimalString DecimalZ OrderedTypeEx.
Import ListNotations.

Local Open Scope string_scope.
Local Open Scope list_scope.
Local Open Scope Z_scope.

(** ** Python primitives *)

Inductive PyError : Type :=
| NotImplementedError
| NameError (name : string)
| ZeroDivisionError
| ValueError
| AssertionError
| IndexError
| TypeError
| FileNotFoundError.

Inductive Result (A : Type) : Type :=
| Ok (a : A)
| Raise (e : PyError).
Arguments Ok {A} a.
Arguments Raise {A} e.

(** [a % b] and [a // b] on Python ints: floor semantics (the sign follows
    the divisor), which is what [Z.modulo] and [Z.div] compute; a zero
    divisor raises. *)
Definition py_mod (a b : Z) : Result Z :=
  if b =? 0 then Raise ZeroDivisionError else Ok (a mod b).

Definition py_floordiv (a b : Z) : Result Z :=
  if b =? 0 then Raise ZeroDivisionError else Ok (a / b).

(** [x / n] for a Python float [x] and an int [n]. *)
Definition py_truediv (x : Q) (n : Z) : Result Q :=
  if n =? 0 then Raise ZeroDivisionError else Ok (x / inject_Z n)%Q.

(** [int(x)]: truncation toward zero. *)
Definition py_int (x : Q) : Z := Z.quot (Qnum x) (Zpos (Qden x)).

(** Binary64 arithmetic, for the float the script truncates to an int.
    [round_div n d] is the integer nearest to n/d, ties to even;
    [binade n d] is floor(log2(n/d)); [round_b64 q] is the binary64 number
    nearest to [q], ties to the even significand, with subnormals below
    2^-1022.  The exponent is not bounded above: an overflow takes a
    magnitude of 2^1024. *)
Definition round_div (n d : Z) : Z :=
  let fl := n / d in
  match 2 * (n mod d) ?= d with
  | Lt => fl
  | Gt => fl + 1
  | Eq => if Z.even fl then fl else fl + 1
  end.

Definition binade (n d : Z) : Z :=
  let e := Z.log2 n - Z.log2 d in
  if 0 <=? e then (if d * 2 ^ e <=? n then e else e - 1)
  else (if d <=? n * 2 ^ (- e) then e else e - 1).

Definition round_pos (n d : Z) : Q :=
  let e := Z.max (binade n d - 52) (-1074) in
  if 0 <=? e then inject_Z (round_div n (d * 2 ^ e) * 2 ^ e)
  else Qmake (round_div (n * 2 ^ (- e)) d) (Z.to_pos (2 ^ (- e))).

Definition round_b64 (q : Q) : Q :=
  let q := Qred q in
  match Qnum q with
  | Z0 => 0%Q
  | Zpos n => round_pos (Zpos n) (Zpos (Qden q))
  | Zneg n => (- round_pos (Zpos n) (Zpos (Qden q)))%Q
  end.

(** [x * y] on two floats. *)
Definition float_mul (x y : Q) : Q := round_b64 (x * y).

(** [int(f * n)] for the float written as [f] in the configuration file and
    an int [n] (line 225): the literal becomes a float when the file is
    read, the int is converted for the product, and the product is rounded
    before it is truncated.  (A fraction written without a decimal point is
    an int and multiplies exactly; the two agree while the product stays
    below 2^53.) *)
Definition train_size (f : Q) (n : Z) : Z :=
  py_int (float_mul (round_b64 f) (round_b64 (inject_Z n))).

(** [range(n)] and [range(a, b)]. *)
Definition py_range (n : Z) : list Z := map Z.of_nat (seq 0 (Z.to_nat n)).
Definition py_range2 (a b : Z) : list Z := map (fun i => a + i) (py_range (b - a)).

(** [l[i]] on a Python list, for a non-negative index. *)
Definition py_getitem {A : Type} (l : list A) (i : Z) : Result A :=
  if i <? 0 then Raise IndexError
  else match nth_error l (Z.to_nat i) with
       | Some x => Ok x
       | None => Raise IndexError
       end.

(** ** Effects

    Everything the script does to the outside world, in program order. *)

Inductive Interpolation : Type := Nearest | Linear | Cubic | Area.

(** The [interpolation] argument of [iaa.Resize]: an OpenCV integer code or
    a name. *)
Inductive InterpArg : Type :=
| InterpCode (code : Z)
| InterpName (name : string).

Inductive Augmenter : Type :=
| Resize (size : Z * Z) (interpolation : InterpArg).

(** How imgaug reads the argument: OpenCV codes 0 to 3 and the four names. *)
Definition resolve_interpolation (a : InterpArg) : option Interpolation :=
  match a with
  | InterpCode 0 => Some Nearest
  | InterpCode 1 => Some Linear
  | InterpCode 2 => Some Cubic
  | InterpCode 3 => Some Area
  | InterpCode _ => None
  | InterpName n =>
      if (n =? "nearest")%string then Some Nearest
      else if (n =? "linear")%string then Some Linear
      else if (n =? "cubic")%string then Some Cubic
      else if (n =? "area")%string then Some Area
      else None
  end.

(** [iaa.Sequential([...])] *)
Definition Sequential : Type := list Augmenter.

(** The interpolation each step of a pipeline resizes with. *)
Definition pipeline_interpolations (t : Sequential) : list (option Interpolation) :=
  map (fun a => match a with Resize _ i => resolve_interpolation i end) t.

Inductive Net : Type :=
| DeepLabXception (nInputChannels n_classes os : Z) (pretrained : bool)
| DeepLabResnet (nInputChannels n_classes os : Z) (pretrained : bool)
| Unet (num_classes : Z).

Inductive OptimKind : Type :=
| SGD (momentum : R)
| Adam.

(** An optimizer instance.  [opt_steps] stands for the per-parameter state
    the instance has built up (for SGD the momentum buffers): it counts the
    [step()] calls absorbed so far, and is 0 for a freshly constructed
    instance, whose state is empty. *)
Record Optimizer : Type := mkOptimizer {
  opt_kind : OptimKind;
  opt_lr : R;
  opt_weight_decay : R;
  opt_steps : nat
}.

Inductive Event : Type :=
| BuildNet (net : Net)
| NewOptimizer (o : Optimizer)
| OpenDataset (input_dir : string) (label_dir : option string) (transform : Sequential)
| MakeLoader (name : string) (batch_size : Z) (shuffle drop_last : bool)
| AddScalar (tag : string) (value : Q) (step : Z)
| AddImage (tag : string) (items : Z) (step : Z)
| PrintNumImages (split : string) (epoch : Z) (numImages : Z)
| SchedulerStep
| Backward
| OptimizerStep
| ZeroGrad
| SaveTestImg (ii : Z)
| SaveModel (epoch : Z)
| LoadModel (epoch : Z)
| CloseWriter.

(** The script's computations: a log of events and a value or an exception. *)
Definition M (A : Type) : Type := (list Event * Result A)%type.

Definition ret {A : Type} (a : A) : M A := ([], Ok a).

Definition bind {A B : Type} (m : M A) (f : A -> M B) : M B :=
  match m with
  | (l, Ok a) => let (l', r) := f a in (l ++ l', r)
  | (l, Raise e) => (l, Raise e)
  end.

Definition tell (l : list Event) : M unit := (l, Ok tt).

Definition raise {A : Type} (e : PyError) : M A := ([], Raise e).

Definition lift {A : Type} (r : Result A) : M A := ([], r).

Declare Scope py_scope.
Delimit Scope py_scope with py.
Notation "x <- m ;; k" := (bind m (fun x => k))
  (at level 61, m at next level, right associativity) : py_scope.
Notation "m ;; k" := (bind m (fun _ => k))
  (at level 61, right associativity) : py_scope.
Local Open Scope py_scope.

(** [for i, x in enumerate(l): s = body(i, x, s)], counting from [i]. *)
Fixpoint for_enum {A S : Type} (body : Z -> A -> S -> M S)
         (i : Z) (l : list A) (s : S) : M S :=
  match l with
  | [] => ret s
  | x :: l' => s' <- body i x s ;; for_enum body (i + 1) l' s'
  end.

(** [for x in l: s = body(x, s)]. *)
Fixpoint for_each {A S : Type} (body : A -> S -> M S) (l : list A) (s : S) : M S :=
  match l with
  | [] => ret s
  | x :: l' => s' <- body x s ;; for_each body l' s'
  end.

(** ** Parameters (train.py, lines 51-74)

    The constants at the top of the script and the entries of the report
    dictionary [p]. *)

Record Params : Type := mkParams {
  nEpochs : Z;
  resume_epoch : Z;
  trainBatchSize : Z;
  testBatchSize : Z;
  useTest : bool;
  nTestInterval : Z;
  snapshot : Z;
  nAveGrad : Z;
  lr : R;
  wd : R;
  momentum : R;
  epoch_size : Z;
  Model : string;
  backbone : string;
  num_of_classes : Z;
  imsize : Z;
  output_stride : Z;
  numInputChannels : Z
}.

(** The values the script sets; the batch size comes from the config file. *)
Definition script_params (batchSize : Z) : Params := {|
  nEpochs := 100;
  resume_epoch := 0;
  trainBatchSize := batchSize;
  testBatchSize := 1;
  useTest := true;
  nTestInterval := 1;
  snapshot := 2;
  nAveGrad := 1;
  lr := (1 / 1000000)%R;
  wd := (5 / 100)%R;
  momentum := (9 / 10)%R;
  epoch_size := 1;
  Model := "deeplab";
  backbone := "xception";
  num_of_classes := 2;
  imsize := 512;
  output_stride := 8;
  numInputChannels := 3
|}.

(** ** Network definition (lines 122-150) *)

Inductive Criterion : Type :=
| cross_entropy2d
| CrossEntropyLoss (size_average reduce : bool).

(** [torch.optim.lr_scheduler.StepLR]. *)
Record StepLR : Type := mkStepLR {
  sched_base_lr : R;
  step_size : Z;
  gamma : R;
  last_epoch : Z
}.

Record Network : Type := mkNetwork {
  net : Net;
  modelName : string;
  optimizer : Optimizer;
  exp_lr_scheduler : option StepLR;
  criterion : Criterion
}.

Definition new_SGD (rate mom decay : R) : Optimizer :=
  {| opt_kind := SGD mom; opt_lr := rate; opt_weight_decay := decay; opt_steps := 0 |}.

Definition new_Adam (rate decay : R) : Optimizer :=
  {| opt_kind := Adam; opt_lr := rate; opt_weight_decay := decay; opt_steps := 0 |}.

Definition network_definition (p : Params) : M Network :=
  if (Model p =? "deeplab")%string then
    n <- (if (backbone p =? "xception")%string then
            let n := DeepLabXception (numInputChannels p) (num_of_classes p) (output_stride p) true in
            tell [BuildNet n] ;; ret n
          else if (backbone p =? "resnet")%string then
            let n := DeepLabResnet (numInputChannels p) (num_of_classes p) (output_stride p) true in
            tell [BuildNet n] ;; ret n
          else raise NotImplementedError) ;;
    let o := new_SGD (lr p) (momentum p) (wd p) in
    tell [NewOptimizer o] ;;
    ret {| net := n; modelName := String.append "deeplabv3plus-" (backbone p); optimizer := o;
           exp_lr_scheduler := None; criterion := cross_entropy2d |}
  else if (Model p =? "unet")%string then
    let n := Unet (num_of_classes p) in
    tell [BuildNet n] ;;
    let o := new_Adam (1 / 10000)%R (1 / 10000)%R in
    tell [NewOptimizer o] ;;
    ret {| net := n; modelName := "unet"; optimizer := o;
           exp_lr_scheduler :=
             Some {| sched_base_lr := (1 / 10000)%R; step_size := 7;
                     gamma := (1 / 10)%R; last_epoch := 0 |};
           criterion := CrossEntropyLoss false true |}
  else raise NotImplementedError.

(** ** Configuration (config/config.yaml)

    [config.train.batchSize] is copied into [p] at line 57 and is read from
    there ever after, so it lives in [Params]. *)

Record DatasetEntry : Type := mkEntry {
  images : string;
  labels : string
}.

Record Config : Type := mkConfig {
  train_datasets : list DatasetEntry;
  percentageDataForTraining : Q;
  datasetsSynthetic : list DatasetEntry;
  datasetsReal : list DatasetEntry
}.

(** ** Data sets and loaders *)

(** One item of a data set: the image file it was read from, the label
    directory (if any) and the augmentation pipeline applied to it. *)
Record Sample : Type := mkSample {
  sample_filename : string;
  sample_label_dir : option string;
  sample_transform : Sequential
}.

Record AlphaPilotSegmentation : Type := mkAlphaPilot {
  input_dir : string;
  label_dir : option string;
  transform : Sequential;
  input_only : option (list string)
}.

(** [torch.utils.data.Subset(dataset, indices)] *)
Record Subset : Type := mkSubset {
  subset_dataset : AlphaPilotSegmentation;
  subset_indices : list Z
}.

(** What a loader can wrap in this script: one folder data set, or the
    concatenation of the truncated training sources. *)
Inductive Dataset : Type :=
| Folder (d : AlphaPilotSegmentation)
| ConcatDataset (datasets : list Subset).

Record DataLoader : Type := mkDataLoader {
  dl_dataset : Dataset;
  batch_size : Z;
  shuffle : bool;
  num_workers : Z;
  drop_last : bool
}.

(** [for x in l: ys.append(f(x))], stopping at the first exception. *)
Fixpoint collect {A B : Type} (f : A -> Result B) (l : list A) : Result (list B) :=
  match l with
  | [] => Ok []
  | x :: l' =>
      match f x with
      | Raise e => Raise e
      | Ok y => match collect f l' with
                | Raise e => Raise e
                | Ok ys => Ok (y :: ys)
                end
      end
  end.

(** The batch sampler of [torch.utils.data]: indices are appended to the
    current batch, a batch is yielded when it is full, and what is left at
    the end is yielded only if [drop_last] is off. *)
Fixpoint batch_sampler {A : Type} (batch_size : Z) (drop_last : bool)
         (batch : list A) (sampler : list A) : list (list A) :=
  match sampler with
  | [] => if negb drop_last && (0 <? Z.of_nat (length batch)) then [batch] else []
  | idx :: rest =>
      let batch := batch ++ [idx] in
      if Z.of_nat (length batch) =? batch_size
      then batch :: batch_sampler batch_size drop_last [] rest
      else batch_sampler batch_size drop_last batch rest
  end.

(** ** Reading the event log *)

Definition is_step (e : Event) : bool :=
  match e with OptimizerStep => true | _ => false end.

Definition is_train_image (e : Event) : bool :=
  match e with AddImage tag _ _ => (tag =? "Train")%string | _ => false end.

Definition is_backward (e : Event) : bool :=
  match e with Backward => true | _ => false end.

(** Number of [loss.backward()] calls in a log: one per processed training
    batch. *)
Definition count_backward (log : list Event) : Z :=
  Z.of_nat (length (filter is_backward log)).

(** A log without any backward pass or optimizer step. *)
Definition quiet (log : list Event) : bool :=
  forallb (fun e => negb (is_step e || is_backward e)) log.

(** Number of [optimizer.step()] calls in a log. *)
Definition count_steps (log : list Event) : Z :=
  Z.of_nat (length (filter is_step log)).

(** Number of grids sent to the log sink under the tag 'Train'. *)
Definition count_train_images (log : list Event) : Z :=
  Z.of_nat (length (filter is_train_image log)).

(** Every [optimizer.step()] is directly followed by [optimizer.zero_grad()]. *)
Fixpoint steps_zeroed (log : list Event) : bool :=
  match log with
  | [] => true
  | OptimizerStep :: rest =>
      match rest with
      | ZeroGrad :: _ => steps_zeroed rest
      | _ => false
      end
  | _ :: rest => steps_zeroed rest
  end.

(** The values logged under a scalar tag, in order. *)
Fixpoint scalars (tag : string) (log : list Event) : list Q :=
  match log with
  | [] => []
  | AddScalar t v _ :: rest =>
      if (t =? tag)%string then v :: scalars tag rest else scalars tag rest
  | _ :: rest => scalars tag rest
  end.

(** A computation keeps the accumulation discipline for window [W] from
    counter value [a]: in its log every step is directly followed by
    zero_grad and the steps number (a + batches) div W, and if it returns,
    the counter ([proj] of the result) is (a + batches) mod W. *)
Definition tracks {A : Type} (W : Z) (proj : A -> Z) (a : Z) (m : M A) : Prop :=
  steps_zeroed (fst m) = true /\
  count_steps (fst m) = (a + count_backward (fst m)) / W /\
  forall x, snd m = Ok x -> proj x = (a + count_backward (fst m)) mod W.

(** A computation whose log holds only events accepted by [ok] and whose
    result, when there is one, satisfies [R]. *)
Definition keeps {A : Type} (ok : Event -> bool) (R : A -> Prop) (m : M A) : Prop :=
  forallb ok (fst m) = true /\ forall x, snd m = Ok x -> R x.

(** Number of events of a kind in a log. *)
Definition count (w : Event -> bool) (log : list Event) : Z :=
  Z.of_nat (length (filter w log)).

(** A computation that, when it returns, has moved the quantity [proj] from
    [a] by the number of [w]-events it logged. *)
Definition advances {A : Type} (w : Event -> bool) (proj : A -> Z) (a : Z) (m : M A) : Prop :=
  forall x, snd m = Ok x -> proj x = a + count w (fst m).

(** The events by which the script changes the model, the optimizer or the
    checkpoints. *)
Definition is_training_event (e : Event) : bool :=
  match e with
  | Backward | OptimizerStep | ZeroGrad | NewOptimizer _ | SchedulerStep | SaveModel _ => true
  | _ => false
  end.

(** The batch indices for which [save_test_img] was called, in order. *)
Fixpoint saved_test_images (log : list Event) : list Z :=
  match log with
  | [] => []
  | SaveTestImg ii :: rest => ii :: saved_test_images rest
  | _ :: rest => saved_test_images rest
  end.

(** The epochs whose weights were written to a checkpoint, in order. *)
Fixpoint saved_models (log : list Event) : list Z :=
  match log with
  | [] => []
  | SaveModel e :: rest => e :: saved_models rest
  | _ :: rest => saved_models rest
  end.

(** The grids sent under an image tag: the number of batch items in each. *)
Fixpoint grids (tag : string) (log : list Event) : list Z :=
  match log with
  | [] => []
  | AddImage t n _ :: rest =>
      if (t =? tag)%string then n :: grids tag rest else grids tag rest
  | _ :: rest => grids tag rest
  end.

(** ** The run directory (train.py, lines 108-119)

    The script numbers its runs.  It lists the directories [run/run_*]
    under its own directory, sorts the paths as strings, reads the number
    after the last underscore of the last path and, unless it resumes, adds
    one; the directory of the run is [run/run_NN].  Paths are byte strings:
    Python orders [str] by code point, which on UTF-8 bytes is the byte-wise
    order of [String.compare]. *)

(** [posixpath.join(a, *p)]. *)
Definition starts_with_sep (s : string) : bool :=
  match s with
  | String c _ => Ascii.eqb c "/"%char
  | EmptyString => false
  end.

Fixpoint ends_with_sep (s : string) : bool :=
  match s with
  | EmptyString => false
  | String c r =>
      match r with
      | EmptyString => Ascii.eqb c "/"%char
      | String _ _ => ends_with_sep r
      end
  end.

Definition os_path_join (a : string) (p : list string) : string :=
  fold_left (fun path b =>
               if starts_with_sep b then b
               else if (path =? "")%string || ends_with_sep path then (path ++ b)%string
               else (path ++ "/" ++ b)%string)
            p a.

(** [sorted(l)] on a list of strings. *)
Fixpoint insert_sorted (x : string) (l : list string) : list string :=
  match l with
  | [] => [x]
  | y :: r => if String.leb x y then x :: l else y :: insert_sorted x r
  end.

Definition py_sorted (l : list string) : list string := fold_right insert_sorted [] l.

(** [l[-1]]. *)
Fixpoint py_last {A : Type} (l : list A) : Result A :=
  match l with
  | [] => Raise IndexError
  | x :: r => match r with [] => Ok x | _ :: _ => py_last r end
  end.

(** [s.split(sep)] for a separator of one character. *)
Fixpoint py_split (sep : Ascii.ascii) (s : string) : list string :=
  match s with
  | EmptyString => [EmptyString]
  | String c r =>
      if Ascii.eqb c sep then EmptyString :: py_split sep r
      else match py_split sep r with
           | h :: t => String c h :: t
           | [] => [String c EmptyString]
           end
  end.

(** [int(s)] on an ASCII string: white space around the number is dropped,
    one sign may precede the digits, and there must be a digit.  (Grouping
    underscores do not occur: the argument comes out of [split('_')].) *)
Definition is_py_space (c : Ascii.ascii) : bool :=
  let n := Z.of_N (Ascii.N_of_ascii c) in
  (9 <=? n) && (n <=? 13) || (n =? 32).

Fixpoint lstrip (s : string) : string :=
  match s with
  | EmptyString => EmptyString
  | String c r => if is_py_space c then lstrip r else s
  end.

Fixpoint rstrip (s : string) : string :=
  match s with
  | EmptyString => EmptyString
  | String c r =>
      match rstrip r with
      | EmptyString => if is_py_space c then EmptyString else String c EmptyString
      | String _ _ as r' => String c r'
      end
  end.

Definition digit_of (c : Ascii.ascii) : option Z :=
  let n := Z.of_N (Ascii.N_of_ascii c) in
  if (48 <=? n) && (n <=? 57) then Some (n - 48) else None.

Fixpoint digits_value (acc : Z) (s : string) : option Z :=
  match s with
  | EmptyString => Some acc
  | String c r =>
      match digit_of c with
      | Some d => digits_value (10 * acc + d) r
      | None => None
      end
  end.

Definition unsigned_value (s : string) : Result Z :=
  match s with
  | EmptyString => Raise ValueError
  | String _ _ =>
      match digits_value 0 s with
      | Some v => Ok v
      | None => Raise ValueError
      end
  end.

Definition py_int_str (s : string) : Result Z :=
  match rstrip (lstrip s) with
  | String c r as t =>
      if Ascii.eqb c "+"%char then unsigned_value r
      else if Ascii.eqb c "-"%char then
             match unsigned_value r with
             | Ok v => Ok (- v)
             | Raise e => Raise e
             end
      else unsigned_value t
  | EmptyString => Raise ValueError
  end.

(** ['{:02d}'.format(n)]: the decimal numeral, filled with a zero on the
    left up to two characters, the sign included. *)
Definition py_str (n : Z) : string := DecimalString.NilZero.string_of_int (Z.to_int n).

Definition format_02d (n : Z) : string :=
  let t := py_str n in
  if (Z.of_nat (String.length t) <? 2) then String "0"%char t else t.

(** [int(runs[-1].split('_')[-1])] (lines 113 and 116). *)
Definition latest_run_number (runs : list string) : M Z :=
  latest <- lift (py_last runs) ;;
  suffix <- lift (py_last (py_split "_"%char latest)) ;;
  lift (py_int_str suffix).

(** Lines 111-116; [glob] is [glob.glob]. *)
Definition run_id (glob : string -> list string) (save_dir_root : string)
           (resume_epoch : Z) : M Z :=
  if negb (resume_epoch =? 0) then
    let runs := py_sorted (glob (os_path_join save_dir_root ["run"; "run_*"])) in
    match runs with
    | _ :: _ => latest_run_number runs
    | [] => ret 0
    end
  else
    let runs := py_sorted (glob (os_path_join save_dir_root ["run"; "run_*"])) in
    match runs with
    | _ :: _ => n <- latest_run_number runs ;; ret (n + 1)
    | [] => ret 0
    end.

(** Line 119, for a given run number. *)
Definition save_dir_of (save_dir_root : string) (id : Z) : string :=
  os_path_join save_dir_root ["run"; String.append "run_" (format_02d id)].

Definition save_dir (glob : string -> list string) (save_dir_root : string)
           (resume_epoch : Z) : M string :=
  id <- run_id glob save_dir_root resume_epoch ;;
  ret (save_dir_of save_dir_root id).

Section Script.

(** *** Collaborators

    [listdir d]: the image files the data set class finds in directory [d],
    in the order of its index.  [permute e l]: the order in which the
    random sampler of the training loader visits [l] in epoch [e]. *)
Variable listdir : string -> list string.
Variable permute : Z -> list Sample -> list Sample.
Hypothesis permute_perm : forall e l, Permutation l (permute e l).

(** Modelled from the spec: the data set class [AlphaPilotSegmentation] of
    dataloaders/alphapilot.py, which train.py only imports: "a source of
    labeled-image batches", one sample per image file, immutable once
    produced.  Its length and its indexing are those of the list of items. *)
Definition alphapilot_items (d : AlphaPilotSegmentation) : list Sample :=
  map (fun f => mkSample f (label_dir d) (transform d)) (listdir (input_dir d)).

Definition alphapilot_len (d : AlphaPilotSegmentation) : Z :=
  Z.of_nat (length (alphapilot_items d)).

Definition alphapilot_getitem (d : AlphaPilotSegmentation) (i : Z) : Result Sample :=
  py_getitem (alphapilot_items d) i.

Definition subset_len (s : Subset) : Z := Z.of_nat (length (subset_indices s)).

Definition subset_items (s : Subset) : Result (list Sample) :=
  collect (alphapilot_getitem (subset_dataset s)) (subset_indices s).

Definition dataset_len (d : Dataset) : Z :=
  match d with
  | Folder a => alphapilot_len a
  | ConcatDataset l => fold_right (fun s n => subset_len s + n) 0 l
  end.

(** The items of a data set in index order; fetching an index the source
    does not have raises. *)
Definition dataset_items (d : Dataset) : Result (list Sample) :=
  match d with
  | Folder a => Ok (alphapilot_items a)
  | ConcatDataset l =>
      match collect subset_items l with
      | Ok ls => Ok (concat ls)
      | Raise e => Raise e
      end
  end.

(** [DataLoader(dataset, batch_size=..., shuffle=..., num_workers=4,
    drop_last=...)].  A data set without items is accepted with either
    sampler; library versions whose random sampler refuses it raise here. *)
Definition make_loader (name : string) (d : Dataset) (bs : Z) (sh dl : bool) : M DataLoader :=
  if bs <=? 0 then raise ValueError
  else
    tell [MakeLoader name bs sh dl] ;;
    ret {| dl_dataset := d; batch_size := bs; shuffle := sh; num_workers := 4;
           drop_last := dl |}.

(** [len(loader)] *)
Definition loader_len (l : DataLoader) : Z :=
  if drop_last l then dataset_len (dl_dataset l) / batch_size l
  else (dataset_len (dl_dataset l) + batch_size l - 1) / batch_size l.

(** The batches of one pass over the loader in epoch [e].  The items are
    fetched before the first batch, so an index its source does not have is
    reported at the start of the pass, not at the batch that holds it. *)
Definition loader_batches (e : Z) (l : DataLoader) : Result (list (list Sample)) :=
  match dataset_items (dl_dataset l) with
  | Raise err => Raise err
  | Ok items =>
      let order := if shuffle l then permute e items else items in
      Ok (batch_sampler (batch_size l) (drop_last l) [] order)
  end.

(** *** Assembly (lines 185-257) *)

Record Setup : Type := mkSetup {
  augs_train : Sequential;
  augs_test : Sequential;
  db_train : Dataset;
  db_validation : AlphaPilotSegmentation;
  db_test : AlphaPilotSegmentation;
  db_test_list : list AlphaPilotSegmentation;
  trainloader : DataLoader;
  validationloader : DataLoader;
  testloader : DataLoader;
  num_img_tr : Z;
  num_img_val : Z;
  num_img_ts : Z
}.

Definition open_dataset (dir : string) (lbl : option string) (t : Sequential)
  : M AlphaPilotSegmentation :=
  tell [OpenDataset dir lbl t] ;;
  ret {| input_dir := dir; label_dir := lbl; transform := t; input_only := None |}.

(** Line 223 (and 232): one labelled source. *)
Definition train_source (augs : Sequential) (dataset : DatasetEntry) : AlphaPilotSegmentation :=
  {| input_dir := images dataset; label_dir := Some (labels dataset);
     transform := augs; input_only := None |}.

(** Lines 223-227: one training source, truncated to its leading
    [int(fraction * len(db))] indices. *)
Definition add_train_source (cfg : Config) (augs : Sequential)
           (dataset : DatasetEntry) (db_train_list : list Subset) : M (list Subset) :=
  db <- open_dataset (images dataset) (Some (labels dataset)) augs ;;
  let train_size := train_size (percentageDataForTraining cfg) (alphapilot_len db) in
  let db := {| subset_dataset := db; subset_indices := py_range train_size |} in
  ret (db_train_list ++ [db]).

(** Lines 221-229.  [ConcatDataset] asserts that it is given at least one
    data set. *)
Definition assemble_train (cfg : Config) (augs : Sequential) : M Dataset :=
  db_train_list <- for_each (add_train_source cfg augs) (train_datasets cfg) [] ;;
  match db_train_list with
  | [] => raise AssertionError
  | _ => ret (ConcatDataset db_train_list)
  end.

(** Lines 231-236: the variable [db_validation] is rebound on every
    iteration. *)
Definition bind_validation (augs : Sequential) (dataset : DatasetEntry)
           (db_validation : option AlphaPilotSegmentation)
  : M (option AlphaPilotSegmentation) :=
  db <- open_dataset (images dataset) (Some (labels dataset)) augs ;;
  ret (Some db).

Definition assemble_validation (cfg : Config) (augs : Sequential)
  : M (option AlphaPilotSegmentation) :=
  for_each (bind_validation augs) (datasetsSynthetic cfg) None.

(** Line 239: one test source; no label directory is passed. *)
Definition test_source (augs : Sequential) (dataset : DatasetEntry) : AlphaPilotSegmentation :=
  {| input_dir := images dataset; label_dir := None; transform := augs; input_only := None |}.

(** Lines 237-240: [db_test] is rebound on every iteration and also
    appended to [db_test_list]. *)
Definition add_test_source (augs : Sequential) (dataset : DatasetEntry)
           (st : option AlphaPilotSegmentation * list AlphaPilotSegmentation)
  : M (option AlphaPilotSegmentation * list AlphaPilotSegmentation) :=
  db <- open_dataset (images dataset) None augs ;;
  ret (Some db, snd st ++ [db]).

Definition assemble_test (cfg : Config) (augs : Sequential)
  : M (option AlphaPilotSegmentation * list AlphaPilotSegmentation) :=
  for_each (add_test_source augs) (datasetsReal cfg) (None, []).

(** Reading a variable that may not have been bound. *)
Definition lookup {A : Type} (name : string) (v : option A) : M A :=
  match v with
  | Some a => ret a
  | None => raise (NameError name)
  end.

Definition assemble (p : Params) (cfg : Config) : M Setup :=
  let augs_train := [Resize (imsize p, imsize p) (InterpCode 0)] in
  let augs_test := [Resize (imsize p, imsize p) (InterpName "cubic")] in
  db_train <- assemble_train cfg augs_train ;;
  v <- assemble_validation cfg augs_train ;;
  t <- assemble_test cfg augs_test ;;
  db_validation <- lookup "db_validation" v ;;
  trainloader <- make_loader "train" db_train (trainBatchSize p) true true ;;
  validationloader <- make_loader "validation" (Folder db_validation) (trainBatchSize p) false true ;;
  db_test <- lookup "db_test" (fst t) ;;
  testloader <- make_loader "test" (Folder db_test) (trainBatchSize p) false true ;;
  ret {| augs_train := augs_train; augs_test := augs_test;
         db_train := db_train; db_validation := db_validation;
         db_test := db_test; db_test_list := snd t;
         trainloader := trainloader; validationloader := validationloader;
         testloader := testloader;
         num_img_tr := loader_len trainloader;
         num_img_val := loader_len validationloader;
         num_img_ts := loader_len testloader |}.

(** ** The epoch loop (lines 260-438) *)

(** The network as a black box: the loss of the forward pass on a batch in
    training mode and in evaluation mode, and the IoU total [utils.get_iou]
    returns for it, each depending on how many parameter updates the weights
    have received. *)
Variable loss_train : nat -> list Sample -> Q.
Variable loss_eval : nat -> list Sample -> Q.
Variable get_iou : nat -> list Sample -> Q.

(** Modelled from the spec: [utils.lr_poly] of dataloaders/utils.py, which
    train.py only imports: "rate = base_rate x (1 - epoch/total_epochs)^0.9",
    with the power passed by the caller.  The epochs of the loop lie below
    [nEpochs], so the base is positive and the power is [Rpower]. *)
Definition lr_poly (base_lr : R) (iter_ max_iter : Z) (power : R) : R :=
  (base_lr * Rpower (1 - IZR iter_ / IZR max_iter) power)%R.

(** The variables the loops share.  [optim] is the script's [optimizer]
    and [sched] its [exp_lr_scheduler], both rebound or updated by the epoch
    loop; [updates] counts the parameter updates the weights of [net] have
    received. *)
Record Globals : Type := mkGlobals {
  optim : Optimizer;
  sched : option StepLR;
  running_loss_tr : Q;
  running_loss_val : Q;
  running_loss_ts : Q;
  aveGrad : Z;
  global_step : Z;
  updates : nat
}.

Definition set_optim (o : Optimizer) (g : Globals) : Globals :=
  mkGlobals o (sched g) (running_loss_tr g) (running_loss_val g) (running_loss_ts g)
            (aveGrad g) (global_step g) (updates g).
Definition set_sched (s : option StepLR) (g : Globals) : Globals :=
  mkGlobals (optim g) s (running_loss_tr g) (running_loss_val g) (running_loss_ts g)
            (aveGrad g) (global_step g) (updates g).
Definition set_running_loss_tr (x : Q) (g : Globals) : Globals :=
  mkGlobals (optim g) (sched g) x (running_loss_val g) (running_loss_ts g)
            (aveGrad g) (global_step g) (updates g).
Definition set_running_loss_val (x : Q) (g : Globals) : Globals :=
  mkGlobals (optim g) (sched g) (running_loss_tr g) x (running_loss_ts g)
            (aveGrad g) (global_step g) (updates g).
Definition set_running_loss_ts (x : Q) (g : Globals) : Globals :=
  mkGlobals (optim g) (sched g) (running_loss_tr g) (running_loss_val g) x
            (aveGrad g) (global_step g) (updates g).
Definition set_aveGrad (n : Z) (g : Globals) : Globals :=
  mkGlobals (optim g) (sched g) (running_loss_tr g) (running_loss_val g) (running_loss_ts g)
            n (global_step g) (updates g).
Definition set_global_step (n : Z) (g : Globals) : Globals :=
  mkGlobals (optim g) (sched g) (running_loss_tr g) (running_loss_val g) (running_loss_ts g)
            (aveGrad g) n (updates g).

(** [optimizer.step()]: the weights move and the instance's state grows. *)
Definition optimizer_step (g : Globals) : Globals :=
  let o := optim g in
  mkGlobals (mkOptimizer (opt_kind o) (opt_lr o) (opt_weight_decay o) (S (opt_steps o)))
            (sched g) (running_loss_tr g) (running_loss_val g) (running_loss_ts g)
            (aveGrad g) (global_step g) (S (updates g)).

(** [exp_lr_scheduler.step()]: the rate of the existing optimizer becomes
    base * gamma ^ (last_epoch // step_size). *)
Definition scheduler_step (s : StepLR) (g : Globals) : Globals :=
  let e := last_epoch s + 1 in
  let o := optim g in
  let rate := (sched_base_lr s * gamma s ^ Z.to_nat (e / step_size s))%R in
  set_sched (Some (mkStepLR (sched_base_lr s) (step_size s) (gamma s) e))
            (set_optim (mkOptimizer (opt_kind o) rate (opt_weight_decay o) (opt_steps o)) g).

(** Lines 265-271. *)
Definition adjust_learning_rate (p : Params) (epoch : Z) (g : Globals) : M Globals :=
  if (Model p =? "unet")%string then
    s <- lookup "exp_lr_scheduler" (sched g) ;;
    tell [SchedulerStep] ;;
    ret (scheduler_step s g)
  else
    r <- lift (py_mod epoch (epoch_size p)) ;;
    if r =? epoch_size p - 1 then
      let lr_ := lr_poly (lr p) epoch (nEpochs p) (9 / 10)%R in
      let o := new_SGD lr_ (momentum p) (wd p) in
      tell [NewOptimizer o] ;;
      ret (set_optim o g)
    else ret g.

(** Lines 276-333: one training batch.  The criterion is called with
    [size_average] and [batch_average] (line 289): [utils.cross_entropy2d]
    takes them, the [nn.CrossEntropyLoss] instance of the unet family (line
    146) does not and raises.  For the grid, [torch.squeeze(..., 0)] drops
    the batch axis of a one-item batch, and [writer.add_image] refuses what
    [make_grid] then returns.  A batch of the loader is never empty. *)
Definition train_batch (p : Params) (num_img_tr : Z) (epoch : Z)
           (ii : Z) (sample_batched : list Sample) (g : Globals) : M Globals :=
  let shape0 := Z.of_nat (length sample_batched) in
  let g := set_global_step (global_step g + 1) g in
  tell [AddScalar "Epoch Num" (inject_Z epoch) (global_step g)] ;;
  (if (Model p =? "unet")%string then raise TypeError else ret tt) ;;
  let loss := loss_train (updates g) sample_batched in
  let g := set_running_loss_tr (running_loss_tr g + loss)%Q g in
  (* Print stuff *)
  r <- lift (py_mod ii num_img_tr) ;;
  g <- (if r =? num_img_tr - 1 then
          avg <- lift (py_truediv (running_loss_tr g) num_img_tr) ;;
          tell [AddScalar "data/total_loss_epoch" avg (global_step g);
                PrintNumImages "Train" epoch (ii * trainBatchSize p + shape0)] ;;
          ret (set_running_loss_tr 0%Q g)
        else ret g) ;;
  (* Backward the averaged gradient; with a zero window the quotient is never
     logged, the modulo below raises first *)
  let loss := (loss / inject_Z (nAveGrad p))%Q in
  tell [Backward] ;;
  let g := set_aveGrad (aveGrad g + 1) g in
  (* Update the weights once in p['nAveGrad'] forward passes *)
  r <- lift (py_mod (aveGrad g) (nAveGrad p)) ;;
  g <- (if r =? 0 then
          tell [AddScalar "data/total_loss_iter" loss (global_step g);
                OptimizerStep; ZeroGrad] ;;
          ret (set_aveGrad 0 (optimizer_step g))
        else ret g) ;;
  (* Show 10 * 3 images results each epoch *)
  let plot_per_iter := if num_img_tr <? 10 then num_img_tr else 10 in
  q <- lift (py_floordiv num_img_tr plot_per_iter) ;;
  r <- lift (py_mod ii q) ;;
  (if r =? 0 then
     (* inputs[:3], outputs[:3], labels[:3] *)
     if shape0 =? 1 then raise TypeError
     else tell [AddImage "Train" (Z.min 3 shape0) (global_step g)]
   else ret tt) ;;
  ret g.

(** Lines 275-333: the batches of one epoch, in the sampler's order. *)
Definition train_epoch (p : Params) (s : Setup) (epoch : Z) (g : Globals) : M Globals :=
  batches <- lift (loader_batches epoch (trainloader s)) ;;
  for_enum (train_batch p (num_img_tr s) epoch) 0 batches g.

(** *** Evaluation (lines 343-438) *)

Inductive Split : Type := Validation | Test.

(** The locals of one evaluation: the IoU total of the current pass, the
    number of items collected in [images_list], and the globals. *)
Record EvalState : Type := mkEvalState {
  total_iou : Q;
  images_list : Z;
  globals : Globals
}.

(** The image count under the reporting [if]: the denominator of the mean
    IoU (lines 381 and 417) and the count printed for the training and
    validation passes (lines 297 and 385). *)
Definition miou_denominator (p : Params) (ii shape0 : Z) : Z :=
  ii * trainBatchSize p + shape0.

(** The count printed for the test pass (line 421). *)
Definition test_printed_numImages (p : Params) (ii shape0 : Z) : Z :=
  ii * testBatchSize p + shape0.

(** Lines 373-404. *)
Definition validation_batch (p : Params) (s : Setup) (epoch : Z)
           (ii : Z) (shape0 : Z) (loss iou : Q) (st : EvalState) : M EvalState :=
  let g := globals st in
  let g := set_running_loss_val (running_loss_val g + loss)%Q g in
  let total := (total_iou st + iou)%Q in
  r <- lift (py_mod ii (num_img_val s)) ;;
  if r =? num_img_val s - 1 then
    miou <- lift (py_truediv total (miou_denominator p ii shape0)) ;;
    avg <- lift (py_truediv (running_loss_val g) (num_img_val s)) ;;
    tell [PrintNumImages "Validation" epoch (ii * trainBatchSize p + shape0);
          AddScalar "data/val_loss_epoch" avg (global_step g);
          AddScalar "data/val_miour" miou (global_step g)] ;;
    let g := set_running_loss_val 0%Q g in
    (* inputs[:2] is indexed at 0 and at 1 *)
    if shape0 <? 2 then raise IndexError
    else
      tell [AddImage "Validation" 2 (global_step g)] ;;
      ret (mkEvalState total 2 g)
  else ret (mkEvalState total (images_list st) g).

(** Lines 407-438. *)
Definition test_batch (p : Params) (s : Setup) (epoch : Z)
           (ii : Z) (shape0 : Z) (loss iou : Q) (st : EvalState) : M EvalState :=
  let g := globals st in
  let g := set_running_loss_ts (running_loss_ts g + loss)%Q g in
  let total := (total_iou st + iou)%Q in
  (* save_test_img reads inputs[0] *)
  (if shape0 <? 1 then raise IndexError else tell [SaveTestImg ii]) ;;
  r <- lift (py_mod ii (num_img_ts s)) ;;
  if r =? num_img_ts s - 1 then
    miou <- lift (py_truediv total (miou_denominator p ii shape0)) ;;
    avg <- lift (py_truediv (running_loss_ts g) (num_img_ts s)) ;;
    tell [PrintNumImages "Test" epoch (test_printed_numImages p ii shape0);
          AddScalar "data/test_loss_epoch" avg (global_step g);
          AddScalar "data/test_miour" miou (global_step g)] ;;
    let g := set_running_loss_ts 0%Q g in
    let imgs := images_list st + 1 in
    tell [AddImage "Test" imgs (global_step g)] ;;
    ret (mkEvalState total imgs g)
  else ret (mkEvalState total (images_list st) g).

(** Lines 356-438: one batch of an evaluation pass. *)
Definition eval_batch (p : Params) (s : Setup) (epoch : Z) (split : Split)
           (ii : Z) (sample_batched : list Sample) (st : EvalState) : M EvalState :=
  let shape0 := Z.of_nat (length sample_batched) in
  let loss := loss_eval (updates (globals st)) sample_batched in
  let iou := get_iou (updates (globals st)) sample_batched in
  match split with
  | Validation => validation_batch p s epoch ii shape0 loss iou st
  | Test => test_batch p s epoch ii shape0 loss iou st
  end.

Definition miou_tag (split : Split) : string :=
  match split with
  | Validation => "data/val_miour"
  | Test => "data/test_miour"
  end.

Definition num_img (s : Setup) (split : Split) : Z :=
  match split with
  | Validation => num_img_val s
  | Test => num_img_ts s
  end.

Definition source_of (s : Setup) (split : Split) : AlphaPilotSegmentation :=
  match split with
  | Validation => db_validation s
  | Test => db_test s
  end.

Definition loader_of (s : Setup) (split : Split) : DataLoader :=
  match split with
  | Validation => validationloader s
  | Test => testloader s
  end.

(** Lines 348-438: one pass; [total_iou] starts at zero. *)
Definition eval_pass (p : Params) (s : Setup) (epoch : Z) (split : Split)
           (st : EvalState) : M EvalState :=
  let st := mkEvalState 0%Q (images_list st) (globals st) in
  batches <- lift (loader_batches epoch (loader_of s split)) ;;
  for_enum (eval_batch p s epoch split) 0 batches st.

(** Lines 345-438. *)
Definition evaluate (p : Params) (s : Setup) (epoch : Z) (g : Globals) : M Globals :=
  st <- for_each (eval_pass p s epoch) [Validation; Test] (mkEvalState 0%Q 0 g) ;;
  ret (globals st).

(** Lines 261-438: one epoch. *)
Definition run_epoch (p : Params) (s : Setup) (epoch : Z) (g : Globals) : M Globals :=
  g <- adjust_learning_rate p epoch g ;;
  g <- train_epoch p s epoch g ;;
  (* Save the model *)
  r <- lift (py_mod epoch (snapshot p)) ;;
  (if r =? snapshot p - 1 then tell [SaveModel epoch] else ret tt) ;;
  (* One testing epoch *)
  if useTest p then
    r <- lift (py_mod epoch (nTestInterval p)) ;;
    if r =? nTestInterval p - 1 then evaluate p s epoch g else ret g
  else ret g.

Section Resume.

(** [checkpoint_exists e]: whether the checkpoint file of epoch [e],
    [<save_dir>/models/<modelName>_epoch-<e>.pth], is there to be loaded. *)
Variable checkpoint_exists : Z -> bool.

(** Lines 166-173: resuming loads the checkpoint of the epoch before;
    [torch.load] raises when the file is missing. *)
Definition load_checkpoint (p : Params) : M unit :=
  if resume_epoch p =? 0 then ret tt
  else if checkpoint_exists (resume_epoch p - 1)
       then tell [LoadModel (resume_epoch p - 1)]
       else raise FileNotFoundError.

(** The script from the network definition to [writer.close()].  The
    assembly block is skipped when [resume_epoch = nEpochs]; the names it
    binds are then unbound.  Console output, the parameter report and device
    placement are left out. *)
Definition main (p : Params) (cfg : Config) : M Globals :=
  nw <- network_definition p ;;
  load_checkpoint p ;;
  s <- (if negb (resume_epoch p =? nEpochs p)
        then s <- assemble p cfg ;; ret (Some s)
        else ret None) ;;
  let g := {| optim := optimizer nw; sched := exp_lr_scheduler nw;
              running_loss_tr := 0; running_loss_val := 0; running_loss_ts := 0;
              aveGrad := 0; global_step := 0; updates := 0 |} in
  g <- for_each (fun epoch g => s <- lookup "trainloader" s ;; run_epoch p s epoch g)
                (py_range2 (resume_epoch p) (nEpochs p)) g ;;
  _ <- lookup "writer" s ;;
  tell [CloseWriter] ;;
  ret g.

End Resume.

(** The record [assemble] builds when it succeeds, given the entries that
    were bound last to [db_validation] and to [db_test]. *)
Definition train_subset (cfg : Config) (augs : Sequential) (dataset : DatasetEntry) : Subset :=
  {| subset_dataset := train_source augs dataset;
     subset_indices :=
       py_range (train_size (percentageDataForTraining cfg)
                            (alphapilot_len (train_source augs dataset))) |}.

Definition assembled (p : Params) (cfg : Config) (ev et : DatasetEntry) : Setup :=
  let augs_train := [Resize (imsize p, imsize p) (InterpCode 0)] in
  let augs_test := [Resize (imsize p, imsize p) (InterpName "cubic")] in
  let db_train := ConcatDataset (map (train_subset cfg augs_train) (train_datasets cfg)) in
  let trainloader := mkDataLoader db_train (trainBatchSize p) true 4 true in
  let validationloader :=
    mkDataLoader (Folder (train_source augs_train ev)) (trainBatchSize p) false 4 true in
  let testloader :=
    mkDataLoader (Folder (test_source augs_test et)) (trainBatchSize p) false 4 true in
  {| augs_train := augs_train; augs_test := augs_test;
     db_train := db_train;
     db_validation := train_source augs_train ev;
     db_test := test_source augs_test et;
     db_test_list := map (test_source augs_test) (datasetsReal cfg);
     trainloader := trainloader; validationloader := validationloader;
     testloader := testloader;
     num_img_tr := loader_len trainloader;
     num_img_val := loader_len validationloader;
     num_img_ts := loader_len testloader |}.

(** The events of a successful assembly. *)
Definition assembly_events (p : Params) (cfg : Config) : list Event :=
  let augs_train := [Resize (imsize p, imsize p) (InterpCode 0)] in
  let augs_test := [Resize (imsize p, imsize p) (InterpName "cubic")] in
  map (fun d => OpenDataset (images d) (Some (labels d)) augs_train) (train_datasets cfg) ++
  map (fun d => OpenDataset (images d) (Some (labels d)) augs_train) (datasetsSynthetic cfg) ++
  map (fun d => OpenDataset (images d) None augs_test) (datasetsReal cfg) ++
  [MakeLoader "train" (trainBatchSize p) true true;
   MakeLoader "validation" (trainBatchSize p) false true;
   MakeLoader "test" (trainBatchSize p) false true].

(** Two states that agree on everything training changes: the optimizer and
    its scheduler, the weights, the accumulation counter, the step counter
    and the running training loss. *)
Definition same_training_state (g g' : Globals) : Prop :=
  optim g' = optim g /\ sched g' = sched g /\ updates g' = updates g /\
  aveGrad g' = aveGrad g /\ global_step g' = global_step g /\
  running_loss_tr g' = running_loss_tr g.

(** The running loss of a pass with one more batch loss added (lines 375
    and 409), and with the accumulator cleared (lines 390 and 426). *)
Definition add_eval_loss (split : Split) (x : Q) (g : Globals) : Globals :=
  match split with
  | Validation => set_running_loss_val (running_loss_val g + x)%Q g
  | Test => set_running_loss_ts (running_loss_ts g + x)%Q g
  end.

Definition clear_eval_loss (split : Split) (g : Globals) : Globals :=
  match split with
  | Validation => set_running_loss_val 0%Q g
  | Test => set_running_loss_ts 0%Q g
  end.

Definition eval_loss (split : Split) (g : Globals) : Q :=
  match split with
  | Validation => running_loss_val g
  | Test => running_loss_ts g
  end.

Definition grid_tag (split : Split) : string :=
  match split with
  | Validation => "Validation"
  | Test => "Test"
  end.

(** The losses of the batches of a training run, each computed with the
    weights of its moment: the counter [a] and the number of updates [u]
    move as in the loop body (lines 306-313). *)
Fixpoint batch_losses (W : Z) (a : Z) (u : nat) (bs : list (list Sample)) : list Q :=
  match bs with
  | [] => []
  | b :: rest =>
      loss_train u b ::
      (if (a + 1) mod W =? 0 then batch_losses W 0 (S u) rest
       else batch_losses W (a + 1) u rest)
  end.

(** ** An example installation

    A directory listing, a configuration and stand-ins for the
    collaborators, on which the statements below are exercised. *)

Definition example_files (prefix : string) (n : nat) : list string :=
  map (fun i => String.append prefix (String (Ascii.ascii_of_nat (97 + i)) ".png"))
      (seq 0 n).

Definition example_listdir (dir : string) : list string :=
  if (dir =? "train/images")%string then example_files "t" 10
  else if (dir =? "syn_a/images")%string then example_files "a" 3
  else if (dir =? "syn_b/images")%string then example_files "b" 4
  else if (dir =? "real_a/images")%string then example_files "q" 2
  else if (dir =? "real_b/images")%string then example_files "r" 5
  else if (dir =? "big/images")%string then example_files "g" 30
  else [].

Definition example_config : Config := {|
  train_datasets := [mkEntry "train/images" "train/labels"];
  percentageDataForTraining := 1 # 2;
  datasetsSynthetic := [mkEntry "syn_a/images" "syn_a/labels";
                        mkEntry "syn_b/images" "syn_b/labels"];
  datasetsReal := [mkEntry "real_a/images" ""; mkEntry "real_b/images" ""]
|}.

Definition example_big_config : Config := {|
  train_datasets := [mkEntry "big/images" "big/labels"];
  percentageDataForTraining := 1;
  datasetsSynthetic := [mkEntry "syn_b/images" "syn_b/labels"];
  datasetsReal := [mkEntry "real_a/images" ""]
|}.

Definition example_permute (e : Z) (l : list Sample) : list Sample := rev l.

Definition example_loss (k : nat) (b : list Sample) : Q := 1 # 2.

Definition example_iou (k : nat) (b : list Sample) : Q :=
  (3 # 4) * inject_Z (Z.of_nat (length b)).

(** The script's parameters with another accumulation window. *)
Definition example_params (batchSize window : Z) : Params :=
  let p := script_params batchSize in
  mkParams (nEpochs p) (resume_epoch p) (trainBatchSize p) (testBatchSize p) (useTest p)
           (nTestInterval p) (snapshot p) window (lr p) (wd p) (momentum p)
           (epoch_size p) (Model p) (backbone p) (num_of_classes p) (imsize p)
           (output_stride p) (numInputChannels p).

(** The script's parameters with other selectors. *)
Definition example_selection (family feature_extractor : string) : Params :=
  let p := script_params 2 in
  mkParams (nEpochs p) (resume_epoch p) (trainBatchSize p) (testBatchSize p) (useTest p)
           (nTestInterval p) (snapshot p) (nAveGrad p) (lr p) (wd p) (momentum p)
           (epoch_size p) family feature_extractor (num_of_classes p) (imsize p)
           (output_stride p) (numInputChannels p).

(** The script's parameters with another first epoch and number of epochs. *)
Definition example_run (first epochs batchSize : Z) : Params :=
  let p := script_params batchSize in
  mkParams epochs first (trainBatchSize p) (testBatchSize p) (useTest p)
           (nTestInterval p) (snapshot p) (nAveGrad p) (lr p) (wd p) (momentum p)
           (epoch_size p) (Model p) (backbone p) (num_of_classes p) (imsize p)
           (output_stride p) (numInputChannels p).

(** Run directories found on disk: three runs of the script, and the runs
    98 to 100. *)
Definition example_glob (pattern : string) : list string :=
  if (pattern =? "/home/repo/run/run_*")%string
  then ["/home/repo/run/run_01"; "/home/repo/run/run_00"; "/home/repo/run/run_02"]
  else if (pattern =? "/srv/repo/run/run_*")%string
  then ["/srv/repo/run/run_100"; "/srv/repo/run/run_98"; "/srv/repo/run/run_99"]
  else [].

(** Checkpoints on disk: those a run with snapshot = 2 has written. *)
Definition example_checkpoint_exists (e : Z) : bool := e mod 2 =? 1.

(** A source of 100 images, and a configuration that keeps 29 hundredths
    of it. *)
Definition example_listdir_100 (dir : string) : list string :=
  map (fun i => String.append "img" (format_02d (Z.of_nat i))) (seq 0 100).

Definition example_config_29 : Config := {|
  train_datasets := [mkEntry "hundred/images" "hundred/labels"];
  percentageDataForTraining := 29 # 100;
  datasetsSynthetic := [mkEntry "syn_a/images" "syn_a/labels"];
  datasetsReal := [mkEntry "real_a/images" ""]
|}.

Definition example_globals : Globals := {|
  optim := new_SGD (1 / 1000000)%R (9 / 10)%R (5 / 100)%R;
  sched := None;
  running_loss_tr := 0; running_loss_val := 0; running_loss_ts := 0;
  aveGrad := 0; global_step := 0; updates := 0
|}.

Definition example_batch (n : nat) : list Sample :=
  map (fun f => mkSample f None []) (example_files "x" n).

(** * Properties *)

(** ** The effect monad *)

Lemma bind_ok {A B : Type} (m : M A) (f : A -> M B) l a :
  m = (l, Ok a) -> bind m f = (l ++ fst (f a), snd (f a)).
Proof. intros ->. unfold bind. destruct (f a); reflexivity. Qed.

Lemma bind_raise {A B : Type} (m : M A) (f : A -> M B) l e :
  m = (l, Raise e) -> bind m f = (l, Raise e).
Proof. intros ->. reflexivity. Qed.

Lemma bind_inv_ok {A B : Type} (m : M A) (f : A -> M B) l b :
  bind m f = (l, Ok b) ->
  exists l1 a l2, m = (l1, Ok a) /\ f a = (l2, Ok b) /\ l = l1 ++ l2.
Proof.
  destruct m as [l1 [a | e]]; simpl; [| discriminate].
  destruct (f a) as [l2 r] eqn:E. intros H. inversion H; subst.
  exists l1, a, l2. auto.
Qed.

Lemma fst_bind {A B : Type} (m : M A) (f : A -> M B) :
  fst (bind m f) =
  fst m ++ match snd m with Ok a => fst (f a) | Raise _ => [] end.
Proof.
  destruct m as [l [a | e]]; simpl.
  - destruct (f a); reflexivity.
  - rewrite app_nil_r. reflexivity.
Qed.

Lemma lookup_inv_ok {A : Type} name (v : option A) l a :
  lookup name v = (l, Ok a) -> v = Some a /\ l = [].
Proof. destruct v; simpl; intros H; inversion H; auto. Qed.

(** ** Assembly *)

Lemma add_train_sources cfg augs l acc :
  for_each (add_train_source cfg augs) l acc =
  (map (fun d => OpenDataset (images d) (Some (labels d)) augs) l,
   Ok (acc ++ map (train_subset cfg augs) l)).
Proof.
  revert acc. induction l as [| d l IH]; intros acc; simpl.
  - rewrite app_nil_r. reflexivity.
  - rewrite IH. simpl. rewrite <- app_assoc. reflexivity.
Qed.

Lemma bind_validations augs l v :
  for_each (bind_validation augs) l v =
  (map (fun d => OpenDataset (images d) (Some (labels d)) augs) l,
   Ok (fold_left (fun _ d => Some (train_source augs d)) l v)).
Proof.
  revert v. induction l as [| d l IH]; intros v; simpl; [reflexivity |].
  rewrite IH. reflexivity.
Qed.

Lemma add_test_sources augs l st :
  for_each (add_test_source augs) l st =
  (map (fun d => OpenDataset (images d) None augs) l,
   Ok (fold_left (fun _ d => Some (test_source augs d)) l (fst st),
       snd st ++ map (test_source augs) l)).
Proof.
  revert st. induction l as [| d l IH]; intros [v acc]; simpl.
  - rewrite app_nil_r. reflexivity.
  - rewrite IH. simpl. rewrite <- app_assoc. reflexivity.
Qed.

Lemma rebind_last {A B : Type} (f : A -> B) (l : list A) (x : A) v :
  fold_left (fun _ d => Some (f d)) (l ++ [x]) v = Some (f x).
Proof. rewrite fold_left_app. reflexivity. Qed.

Lemma rebind_bound {A B : Type} (f : A -> B) (l : list A) b :
  fold_left (fun _ d => Some (f d)) l None = Some b ->
  exists front x, l = front ++ [x] /\ b = f x.
Proof.
  destruct l as [| x l _] using rev_ind; simpl; [discriminate |].
  rewrite rebind_last. intros H. inversion H. eauto.
Qed.

Lemma assemble_inv p cfg log s :
  assemble p cfg = (log, Ok s) ->
  exists frontv ev frontt et,
    0 < trainBatchSize p /\
    train_datasets cfg <> [] /\
    datasetsSynthetic cfg = frontv ++ [ev] /\
    datasetsReal cfg = frontt ++ [et] /\
    s = assembled p cfg ev et /\
    log = assembly_events p cfg.
Proof.
  unfold assemble, assemble_train, assemble_validation, assemble_test.
  rewrite (bind_ok _ _ _ _ (add_train_sources _ _ _ _)).
  destruct (train_datasets cfg) as [| d0 ds] eqn:Etr; [discriminate |].
  cbn [app map fst snd bind ret].
  rewrite (bind_ok _ _ _ _ (bind_validations _ _ _)). cbn [fst snd].
  rewrite (bind_ok _ _ _ _ (add_test_sources _ _ _)). cbn [fst snd app].
  destruct (fold_left _ (datasetsSynthetic cfg) None) as [dbv |] eqn:Ev;
    [| simpl; intros H; inversion H].
  destruct (rebind_bound _ _ _ Ev) as (frontv & ev & Hv & ->).
  unfold make_loader.
  destruct (trainBatchSize p <=? 0) eqn:EB; [simpl; intros H; inversion H |].
  destruct (fold_left _ (datasetsReal cfg) None) as [dbt |] eqn:Et;
    [| simpl; intros H; inversion H].
  destruct (rebind_bound _ _ _ Et) as (frontt & et & Ht & ->).
  simpl. intros H. inversion H; subst.
  exists frontv, ev, frontt, et.
  split; [lia |]. split; [discriminate |]. split; [assumption |]. split; [assumption |].
  split.
  - unfold assembled. rewrite Etr. reflexivity.
  - unfold assembly_events. rewrite Etr. cbn [map app].
    rewrite app_nil_r. reflexivity.
Qed.

Lemma assemble_ok p cfg frontv ev frontt et :
  0 < trainBatchSize p ->
  train_datasets cfg <> [] ->
  datasetsSynthetic cfg = frontv ++ [ev] ->
  datasetsReal cfg = frontt ++ [et] ->
  exists log, assemble p cfg = (log, Ok (assembled p cfg ev et)).
Proof.
  intros HB Htr Hv Ht.
  unfold assemble, assemble_train, assemble_validation, assemble_test.
  rewrite (bind_ok _ _ _ _ (add_train_sources _ _ _ _)).
  destruct (train_datasets cfg) as [| d0 ds] eqn:Etr; [congruence |].
  cbn [app map fst snd bind ret].
  rewrite (bind_ok _ _ _ _ (bind_validations _ _ _)). cbn [fst snd].
  rewrite (bind_ok _ _ _ _ (add_test_sources _ _ _)). cbn [fst snd app].
  rewrite Hv, Ht, !rebind_last.
  unfold make_loader.
  replace (trainBatchSize p <=? 0) with false by (symmetry; apply Z.leb_gt; lia).
  simpl. unfold assembled. rewrite Etr, Ht. eexists. reflexivity.
Qed.

(** ** Batching *)

Lemma batch_sampler_length {A : Type} (B : Z) (l cur : list A) :
  0 < B -> Z.of_nat (length cur) < B ->
  Z.of_nat (length (batch_sampler B true cur l)) =
  (Z.of_nat (length cur) + Z.of_nat (length l)) / B.
Proof.
  intros HB. revert cur. induction l as [| x l IH]; intros cur Hcur.
  - simpl. rewrite Z.add_0_r, Z.div_small; lia.
  - cbn [batch_sampler]. rewrite length_app. cbn [length].
    destruct (Z.of_nat (length cur + 1) =? B) eqn:E.
    + apply Z.eqb_eq in E. cbn [length]. rewrite Nat2Z.inj_succ, IH by (simpl; lia).
      simpl length at 1.
      replace (Z.of_nat (length cur) + Z.of_nat (S (length l)))
        with (1 * B + (Z.of_nat 0 + Z.of_nat (length l))) by lia.
      rewrite Z.div_add_l by lia. lia.
    + apply Z.eqb_neq in E. rewrite IH by (rewrite length_app; simpl; lia).
      rewrite length_app. f_equal. simpl. lia.
Qed.

Lemma batch_sampler_full {A : Type} (B : Z) (l cur : list A) :
  Z.of_nat (length cur) < B ->
  forall b, In b (batch_sampler B true cur l) -> Z.of_nat (length b) = B.
Proof.
  revert cur. induction l as [| x l IH]; intros cur Hcur b; [intros [] |].
  cbn [batch_sampler].
  destruct (Z.of_nat (length (cur ++ [x])) =? B) eqn:E.
  - apply Z.eqb_eq in E. intros [<- | Hin]; [assumption |].
    apply (IH []); [simpl; lia | assumption].
  - apply Z.eqb_neq in E. apply IH.
    rewrite length_app in *. simpl in *. lia.
Qed.

Lemma batch_sampler_In {A : Type} (B : Z) (dl : bool) (l cur : list A) :
  forall b, In b (batch_sampler B dl cur l) -> forall x, In x b -> In x (cur ++ l).
Proof.
  revert cur. induction l as [| y l IH]; intros cur b.
  - simpl. destruct (negb dl && (0 <? Z.of_nat (length cur))); [| intros []].
    intros [<- | []] x Hx. rewrite app_nil_r. assumption.
  - cbn [batch_sampler].
    destruct (Z.of_nat (length (cur ++ [y])) =? B).
    + intros [<- | Hin] x Hx.
      * rewrite in_app_iff in *. simpl in *. tauto.
      * apply in_or_app. right. right. apply (IH [] b Hin x Hx).
    + intros Hin x Hx. specialize (IH _ _ Hin x Hx).
      rewrite <- app_assoc in IH. exact IH.
Qed.

Lemma full_batches_total {A : Type} (B : Z) (bs : list (list A)) :
  (forall b, In b bs -> Z.of_nat (length b) = B) ->
  Z.of_nat (length (concat bs)) = B * Z.of_nat (length bs).
Proof.
  induction bs as [| b bs IH]; intros H; simpl; [lia |].
  rewrite length_app, Nat2Z.inj_add, IH by (intros; apply H; simpl; auto).
  rewrite (H b) by (simpl; auto). lia.
Qed.

(** ** Data sets *)

Lemma collect_length {A B : Type} (f : A -> Result B) l ys :
  collect f l = Ok ys -> length ys = length l.
Proof.
  revert ys. induction l as [| x l IH]; intros ys; simpl.
  - intros H. inversion H. reflexivity.
  - destruct (f x); [| discriminate]. destruct (collect f l); [| discriminate].
    intros H. inversion H. simpl. f_equal. auto.
Qed.

Lemma collect_prefix {A : Type} (l : list A) (n a : nat) :
  (a + n <= length l)%nat ->
  collect (py_getitem l) (map Z.of_nat (seq a n)) = Ok (firstn n (skipn a l)).
Proof.
  revert a. induction n as [| n IH]; intros a Hn; simpl.
  - reflexivity.
  - unfold py_getitem at 1.
    replace (Z.of_nat a <? 0) with false by (symmetry; apply Z.ltb_ge; lia).
    rewrite Nat2Z.id.
    destruct (nth_error l a) as [x |] eqn:Ex;
      [| apply nth_error_None in Ex; lia].
    rewrite IH by lia.
    assert (Hs : skipn a l = x :: skipn (S a) l).
    { clear - Ex. revert a Ex. induction l as [| y l IHl]; intros [| a]; simpl;
        try discriminate.
      - intros H. inversion H. reflexivity.
      - intros H. rewrite (IHl _ H). reflexivity. }
    rewrite Hs. reflexivity.
Qed.

Lemma dataset_items_length d items :
  dataset_items d = Ok items -> dataset_len d = Z.of_nat (length items).
Proof.
  destruct d as [a | l]; simpl.
  - intros H. inversion H. reflexivity.
  - destruct (collect subset_items l) as [ls |] eqn:E; [| discriminate].
    intros H. inversion H. subst items. clear H.
    revert ls E. induction l as [| s l IH]; intros ls; simpl.
    + intros H. inversion H. reflexivity.
    + destruct (subset_items s) as [xs |] eqn:Es; [| discriminate].
      destruct (collect subset_items l) as [ls' |]; [| discriminate].
      intros H. inversion H. simpl.
      rewrite length_app, Nat2Z.inj_add, (IH ls' eq_refl).
      unfold subset_len. unfold subset_items in Es.
      rewrite (collect_length _ _ _ Es). reflexivity.
Qed.

(** *** The rounded product of line 225 *)

Lemma round_div_between n d A B :
  0 < d -> A * d <= n <= B * d -> A <= round_div n d <= B.
Proof.
  intros Hd [HA HB]. unfold round_div.
  pose proof (Z.div_mod n d ltac:(lia)) as E.
  pose proof (Z.mod_pos_bound n d Hd) as Hr.
  assert (HflA : A <= n / d) by (apply Z.div_le_lower_bound; lia).
  assert (HflB : n / d <= B) by (apply Z.div_le_upper_bound; lia).
  destruct (2 * (n mod d) ?= d) eqn:C.
  - apply Z.compare_eq in C. destruct (Z.even (n / d)); nia.
  - lia.
  - apply Z.compare_gt_iff in C. nia.
Qed.

Lemma binade_large n d :
  0 < n -> 0 < d -> 53 <= binade n d -> d * 2 ^ 53 <= n.
Proof.
  intros Hn Hd. unfold binade.
  pose proof (Z.log2_spec n Hn) as [Hn1 Hn2].
  pose proof (Z.log2_spec d Hd) as [Hd1 Hd2].
  pose proof (Z.log2_nonneg n) as Ln. pose proof (Z.log2_nonneg d) as Ld.
  set (e := Z.log2 n - Z.log2 d) in *.
  destruct (0 <=? e) eqn:E0.
  - apply Z.leb_le in E0. destruct (d * 2 ^ e <=? n) eqn:T; intros Hb.
    + apply Z.leb_le in T.
      assert (2 ^ 53 <= 2 ^ e) by (apply Z.pow_le_mono_r; lia). nia.
    + assert (Hp : 2 ^ Z.log2 n = 2 ^ (Z.log2 d + 1) * 2 ^ (e - 1)).
      { rewrite <- Z.pow_add_r by lia. f_equal. unfold e. lia. }
      assert (2 ^ 53 <= 2 ^ (e - 1)) by (apply Z.pow_le_mono_r; lia).
      assert (0 < 2 ^ (e - 1)) by (apply Z.pow_pos_nonneg; lia).
      nia.
  - apply Z.leb_gt in E0. destruct (d <=? n * 2 ^ (- e)); lia.
Qed.

Lemma round_pos_between n d A B :
  0 < n -> 0 < d -> B < 2 ^ 53 ->
  A * d <= n <= B * d ->
  (inject_Z A <= round_pos n d <= inject_Z B)%Q.
Proof.
  intros Hn Hd HB H. unfold round_pos.
  assert (Hb : binade n d <= 52).
  { destruct (Z_le_gt_dec 53 (binade n d)) as [Hl | Hg]; [| lia].
    pose proof (binade_large n d Hn Hd Hl). nia. }
  set (e := Z.max (binade n d - 52) (-1074)).
  assert (He : e <= 0) by (unfold e; lia).
  destruct (0 <=? e) eqn:E0.
  - apply Z.leb_le in E0. replace e with 0 by lia.
    change (2 ^ 0) with 1. rewrite !Z.mul_1_r.
    destruct (round_div_between n d A B Hd H) as [H1 H2].
    split; rewrite <- Zle_Qle; assumption.
  - apply Z.leb_gt in E0.
    assert (Hk : 0 < 2 ^ (- e)) by (apply Z.pow_pos_nonneg; lia).
    destruct (round_div_between (n * 2 ^ (- e)) d (A * 2 ^ (- e)) (B * 2 ^ (- e)) Hd
                                ltac:(nia)) as [H1 H2].
    unfold Qle. cbn [Qnum Qden inject_Z]. rewrite Z2Pos.id by exact Hk. lia.
Qed.

Lemma round_b64_between q A B :
  0 <= A -> B < 2 ^ 53 ->
  (inject_Z A <= q <= inject_Z B)%Q ->
  (inject_Z A <= round_b64 q <= inject_Z B)%Q.
Proof.
  intros HA HB H. rewrite <- (Qred_correct q) in H. unfold round_b64.
  destruct (Qred q) as [n d]. cbn [Qnum Qden].
  unfold Qle in H. cbn [Qnum Qden inject_Z] in H.
  destruct n as [| n | n].
  - unfold Qle. cbn. lia.
  - apply round_pos_between; lia.
  - lia.
Qed.

Lemma round_b64_int N : 0 <= N < 2 ^ 53 -> (round_b64 (inject_Z N) == inject_Z N)%Q.
Proof.
  intros HN. apply Qle_antisym; apply (round_b64_between (inject_Z N) N N); try lia;
    split; apply Qle_refl.
Qed.

Lemma round_b64_eq q q' : (q == q')%Q -> round_b64 q = round_b64 q'.
Proof. intros E. unfold round_b64. rewrite (Qred_complete _ _ E). reflexivity. Qed.

Lemma py_int_between (q : Q) A B :
  0 <= A -> (inject_Z A <= q <= inject_Z B)%Q -> A <= py_int q <= B.
Proof.
  destruct q as [n d]. unfold Qle, py_int. cbn [Qnum Qden inject_Z]. intros HA [H1 H2].
  assert (0 <= n) by nia.
  rewrite Z.quot_div_nonneg by lia.
  split; [apply Z.div_le_lower_bound | apply Z.div_le_upper_bound]; lia.
Qed.

Lemma train_size_bounds f L :
  (0 <= f <= 1)%Q -> 0 <= L < 2 ^ 53 -> 0 <= train_size f L <= L.
Proof.
  intros Hf HL. unfold train_size, float_mul.
  pose proof (round_b64_between f 0 1 ltac:(lia) ltac:(reflexivity) Hf) as [F0 F1].
  pose proof (round_b64_int L HL) as EL.
  apply py_int_between; [lia |].
  apply round_b64_between; [lia | lia |].
  rewrite EL. split.
  - apply Qmult_le_0_compat; [exact F0 | unfold Qle; cbn; lia].
  - rewrite <- (Qmult_1_l (inject_Z L)) at 2.
    apply Qmult_le_compat_r; [exact F1 | unfold Qle; cbn; lia].
Qed.

(** Where the fraction and the product are binary64 numbers, nothing is
    rounded. *)
Lemma train_size_exact f L :
  (0 <= f)%Q -> 0 <= L < 2 ^ 53 ->
  (round_b64 f == f)%Q -> (round_b64 (f * inject_Z L) == f * inject_Z L)%Q ->
  train_size f L = Qfloor (f * inject_Z L).
Proof.
  intros Hf HL Ef Ep. unfold train_size, float_mul.
  rewrite (round_b64_eq (round_b64 f * round_b64 (inject_Z L)) (f * inject_Z L))
    by (rewrite Ef, (round_b64_int L HL); reflexivity).
  assert (Hp : (0 <= f * inject_Z L)%Q)
    by (apply Qmult_le_0_compat; [exact Hf | unfold Qle; cbn; lia]).
  rewrite <- Ep in Hp.
  rewrite <- (Qfloor_comp _ _ Ep).
  destruct (round_b64 (f * inject_Z L)) as [n d].
  unfold Qle in Hp. cbn in Hp. unfold py_int, Qfloor. cbn [Qnum Qden].
  apply Z.quot_div_nonneg; lia.
Qed.

(** What a truncated training source holds, for a fraction between 0 and 1
    and a source of fewer than 2^53 items. *)
Lemma train_subset_prefix cfg augs d :
  (0 <= percentageDataForTraining cfg)%Q ->
  (percentageDataForTraining cfg <= 1)%Q ->
  let src := alphapilot_items (train_source augs d) in
  Z.of_nat (length src) < 2 ^ 53 ->
  let k := train_size (percentageDataForTraining cfg) (Z.of_nat (length src)) in
  subset_items (train_subset cfg augs d) = Ok (firstn (Z.to_nat k) src) /\
  Z.of_nat (length (firstn (Z.to_nat k) src)) = k.
Proof.
  intros H0 H1 src HL k.
  destruct (train_size_bounds (percentageDataForTraining cfg) (Z.of_nat (length src))
                              (conj H0 H1) ltac:(lia)) as [Hk0 Hk1].
  fold k in Hk0, Hk1.
  unfold subset_items, train_subset, alphapilot_getitem, alphapilot_len.
  cbn [subset_dataset subset_indices]. fold src. fold k.
  unfold py_range. split.
  - rewrite collect_prefix by (simpl; lia). reflexivity.
  - rewrite length_firstn. lia.
Qed.

Lemma train_subsets_items cfg augs l :
  (0 <= percentageDataForTraining cfg)%Q ->
  (percentageDataForTraining cfg <= 1)%Q ->
  (forall d, In d l ->
             Z.of_nat (length (alphapilot_items (train_source augs d))) < 2 ^ 53) ->
  collect subset_items (map (train_subset cfg augs) l) =
  Ok (map (fun d =>
             let src := alphapilot_items (train_source augs d) in
             firstn (Z.to_nat (train_size (percentageDataForTraining cfg)
                                          (Z.of_nat (length src)))) src) l).
Proof.
  intros H0 H1 HL. induction l as [| d l IH]; simpl; [reflexivity |].
  destruct (train_subset_prefix cfg augs d H0 H1 (HL d (or_introl eq_refl))) as [-> _].
  rewrite IH by (intros d' Hd'; apply HL; right; exact Hd'). reflexivity.
Qed.

(** One pass over a loader that drops the last partial batch. *)
Lemma loader_pass (ld : DataLoader) e items :
  drop_last ld = true -> 0 < batch_size ld ->
  dataset_items (dl_dataset ld) = Ok items ->
  exists bs,
    loader_batches e ld = Ok bs /\
    Z.of_nat (length bs) = Z.of_nat (length items) / batch_size ld /\
    loader_len ld = Z.of_nat (length bs) /\
    (forall b, In b bs -> Z.of_nat (length b) = batch_size ld) /\
    (forall b, In b bs -> forall x, In x b -> In x items).
Proof.
  intros Hdl HB Hit. unfold loader_batches, loader_len. rewrite Hit, Hdl.
  rewrite (dataset_items_length _ _ Hit).
  set (order := if shuffle ld then permute e items else items).
  assert (Hperm : Permutation items order).
  { unfold order. destruct (shuffle ld); [apply permute_perm | apply Permutation_refl]. }
  exists (batch_sampler (batch_size ld) true [] order).
  split; [reflexivity |].
  assert (Hlen : Z.of_nat (length (batch_sampler (batch_size ld) true [] order)) =
                 Z.of_nat (length items) / batch_size ld).
  { rewrite batch_sampler_length by (simpl; lia).
    rewrite (Permutation_length Hperm). reflexivity. }
  split; [exact Hlen |]. split; [symmetry; exact Hlen |]. split.
  - apply batch_sampler_full. simpl. lia.
  - intros b Hb x Hx. apply (Permutation_in x (Permutation_sym Hperm)).
    apply (batch_sampler_In _ _ _ _ _ Hb x Hx).
Qed.

(** ** Construction and assembly *)

(** C8. A model family other than "deeplab" and "unet", or for "deeplab" a
    backbone other than "xception" and "resnet", makes the network definition
    raise NotImplementedError; the script stops there with an empty event
    log, so no data set has been opened and no loader made. *)
Theorem unsupported_selection_fails_first checkpoint_exists p cfg :
  (Model p <> "deeplab" /\ Model p <> "unet") \/
  (Model p = "deeplab" /\ backbone p <> "xception" /\ backbone p <> "resnet") ->
  network_definition p = ([], Raise NotImplementedError) /\
  main checkpoint_exists p cfg = ([], Raise NotImplementedError).
Proof.
  intros H.
  assert (Hn : network_definition p = ([], Raise NotImplementedError)).
  { unfold network_definition.
    destruct H as [[Hd Hu] | (Hd & Hx & Hr)].
    - apply String.eqb_neq in Hd, Hu. rewrite Hd, Hu. reflexivity.
    - apply String.eqb_eq in Hd. apply String.eqb_neq in Hx, Hr.
      rewrite Hd, Hx, Hr. reflexivity. }
  split; [exact Hn |].
  unfold main. rewrite (bind_raise _ _ _ _ Hn). reflexivity.
Qed.

(** C10. In every assembled setup the validation data source carries the
    training pipeline (one resize, code 0, nearest neighbour), which differs
    from the test pipeline (one resize, cubic); its loader is built with the
    training batch size; every training source carries the training pipeline
    too, and the test sources, and only they, carry the test pipeline. *)
Theorem validation_uses_training_pipeline p cfg log s :
  assemble p cfg = (log, Ok s) ->
  transform (db_validation s) = augs_train s /\
  pipeline_interpolations (transform (db_validation s)) = [Some Nearest] /\
  transform (db_validation s) <> augs_test s /\
  (forall x, In x (alphapilot_items (db_validation s)) -> sample_transform x = augs_train s) /\
  dl_dataset (validationloader s) = Folder (db_validation s) /\
  batch_size (validationloader s) = trainBatchSize p /\
  (exists subs, db_train s = ConcatDataset subs /\
     forall sub, In sub subs -> transform (subset_dataset sub) = augs_train s) /\
  transform (db_test s) = augs_test s /\
  pipeline_interpolations (transform (db_test s)) = [Some Cubic] /\
  (forall d, In d (db_test_list s) -> transform d = augs_test s) /\
  dl_dataset (testloader s) = Folder (db_test s).
Proof.
  intros H. destruct (assemble_inv _ _ _ _ H) as (fv & ev & ft & et & HB & Htr & Hv & Ht & -> & _).
  unfold assembled; cbn.
  repeat split; try reflexivity.
  - discriminate.
  - intros x Hx. unfold alphapilot_items in Hx. apply in_map_iff in Hx.
    destruct Hx as (f & <- & _). reflexivity.
  - eexists. split; [reflexivity |]. intros sub Hs. apply in_map_iff in Hs.
    destruct Hs as (d & <- & _). reflexivity.
  - intros d Hd. apply in_map_iff in Hd. destruct Hd as (d' & <- & _). reflexivity.
Qed.

(** C6. In every assembled setup the validation loader wraps the data set
    of the last "synthetic" entry and the test loader that of the last
    "real" entry: each pass yields the batches of that entry's samples alone,
    whatever entries come before it (all test sources are still collected in
    db_test_list). *)
Theorem last_entry_wins p cfg log s :
  assemble p cfg = (log, Ok s) ->
  exists frontv ev frontt et,
    datasetsSynthetic cfg = frontv ++ [ev] /\
    datasetsReal cfg = frontt ++ [et] /\
    db_validation s = train_source (augs_train s) ev /\
    dl_dataset (validationloader s) = Folder (train_source (augs_train s) ev) /\
    (forall e, loader_batches e (validationloader s) =
               Ok (batch_sampler (trainBatchSize p) true []
                                 (alphapilot_items (train_source (augs_train s) ev)))) /\
    (forall e bs b x, loader_batches e (validationloader s) = Ok bs -> In b bs -> In x b ->
                      In (sample_filename x) (listdir (images ev)) /\
                      sample_label_dir x = Some (labels ev)) /\
    db_test s = test_source (augs_test s) et /\
    dl_dataset (testloader s) = Folder (test_source (augs_test s) et) /\
    (forall e, loader_batches e (testloader s) =
               Ok (batch_sampler (trainBatchSize p) true []
                                 (alphapilot_items (test_source (augs_test s) et)))) /\
    (forall e bs b x, loader_batches e (testloader s) = Ok bs -> In b bs -> In x b ->
                      In (sample_filename x) (listdir (images et))) /\
    db_test_list s = map (test_source (augs_test s)) (datasetsReal cfg).
Proof.
  intros H. destruct (assemble_inv _ _ _ _ H) as (fv & ev & ft & et & HB & Htr & Hv & Ht & -> & _).
  exists fv, ev, ft, et. unfold assembled; cbn.
  assert (Hin : forall (d : AlphaPilotSegmentation) bs b x,
             Ok (batch_sampler (trainBatchSize p) true [] (alphapilot_items d)) = Ok bs ->
             In b bs -> In x b ->
             In (sample_filename x) (listdir (input_dir d)) /\ sample_label_dir x = label_dir d).
  { intros d bs b x Hbs Hb Hx. inversion Hbs; subst bs.
    apply (batch_sampler_In _ _ _ _ _ Hb) in Hx. simpl in Hx.
    unfold alphapilot_items in Hx. apply in_map_iff in Hx.
    destruct Hx as (f & <- & Hf). split; [exact Hf | reflexivity]. }
  split; [assumption |]. split; [assumption |].
  split; [reflexivity |]. split; [reflexivity |]. split; [reflexivity |].
  split; [intros e bs b x Hbs Hb Hx; apply (Hin _ _ _ _ Hbs Hb Hx) |].
  split; [reflexivity |]. split; [reflexivity |]. split; [reflexivity |].
  split; [intros e bs b x Hbs Hb Hx; apply (Hin _ _ _ _ Hbs Hb Hx) | reflexivity].
Qed.

(** C5. For a training fraction f between 0 and 1, each configured source
    of length L < 2^53 is truncated to its first int(f * L) items, in the
    source's order, the product being the float product of line 225: f as
    the float the configuration file gives, times L, rounded to binary64.
    That number is floor(f * L) when f and f * L are binary64 numbers, so
    that nothing is rounded.  With at least one source configured the
    training set is built, and it is the concatenation of these prefixes in
    the order of the configuration.  This is the data set the training
    loader wraps. *)
Theorem training_set_is_concatenated_prefixes cfg augs :
  (0 <= percentageDataForTraining cfg)%Q ->
  (percentageDataForTraining cfg <= 1)%Q ->
  let source d := alphapilot_items (train_source augs d) in
  (forall d, In d (train_datasets cfg) -> Z.of_nat (length (source d)) < 2 ^ 53) ->
  let f := percentageDataForTraining cfg in
  let size d := train_size f (Z.of_nat (length (source d))) in
  let prefix d := firstn (Z.to_nat (size d)) (source d) in
  let training_set := ConcatDataset (map (train_subset cfg augs) (train_datasets cfg)) in
  (forall d, In d (train_datasets cfg) ->
             subset_items (train_subset cfg augs d) = Ok (prefix d) /\
             Z.of_nat (length (prefix d)) = size d /\
             ((round_b64 f == f)%Q ->
              (round_b64 (f * inject_Z (Z.of_nat (length (source d)))) ==
               f * inject_Z (Z.of_nat (length (source d))))%Q ->
              size d = Qfloor (f * inject_Z (Z.of_nat (length (source d)))))) /\
  (train_datasets cfg <> [] ->
   exists log, assemble_train cfg augs = (log, Ok training_set)) /\
  dataset_items training_set = Ok (concat (map prefix (train_datasets cfg))) /\
  (forall p log s,
     assemble p cfg = (log, Ok s) ->
     db_train s = ConcatDataset (map (train_subset cfg (augs_train s)) (train_datasets cfg)) /\
     dl_dataset (trainloader s) = db_train s).
Proof.
  intros H0 H1 source HL. cbv zeta. split; [| split; [| split]].
  - intros d Hd.
    destruct (train_subset_prefix cfg augs d H0 H1 (HL d Hd)) as [E1 E2].
    split; [exact E1 |]. split; [exact E2 |].
    intros Ef Ep. apply train_size_exact; [exact H0 | | exact Ef | exact Ep].
    split; [apply Nat2Z.is_nonneg | exact (HL d Hd)].
  - intros Hne. unfold assemble_train.
    rewrite (bind_ok _ _ _ _ (add_train_sources _ _ _ _)). cbn [fst snd app].
    destruct (train_datasets cfg) as [| d ds]; [congruence |].
    eexists. reflexivity.
  - cbn [dataset_items]. rewrite train_subsets_items by assumption. reflexivity.
  - intros p log s H.
    destruct (assemble_inv _ _ _ _ H) as (fv & ev & ft & et & HB & Htr & Hv & Ht & -> & _).
    split; reflexivity.
Qed.

(** C7. Every loader of an assembled setup drops the trailing partial
    batch: a pass over n items with batch size B yields floor(n / B) batches
    of exactly B items, which is also the loader's length.  With batch size
    2, one training source of 10 items and fraction 1/2, the training set
    has 5 items and an epoch yields 2 batches, leaving 1 item out. *)
Theorem loaders_drop_partial_batch p cfg log s :
  assemble p cfg = (log, Ok s) ->
  (forall ld, In ld [trainloader s; validationloader s; testloader s] ->
     drop_last ld = true /\ batch_size ld = trainBatchSize p /\
     forall e items, dataset_items (dl_dataset ld) = Ok items ->
       exists bs, loader_batches e ld = Ok bs /\
                  Z.of_nat (length bs) = Z.of_nat (length items) / batch_size ld /\
                  loader_len ld = Z.of_nat (length bs) /\
                  (forall b, In b bs -> Z.of_nat (length b) = batch_size ld)) /\
  (forall d, trainBatchSize p = 2 -> train_datasets cfg = [d] ->
             length (listdir (images d)) = 10%nat ->
             (percentageDataForTraining cfg == 1 # 2)%Q ->
     exists items, dataset_items (db_train s) = Ok items /\
                   length items = 5%nat /\
                   forall e, exists bs, loader_batches e (trainloader s) = Ok bs /\
                                        length bs = 2%nat /\
                                        (length items - length (concat bs) = 1)%nat).
Proof.
  intros H.
  destruct (assemble_inv _ _ _ _ H) as (fv & ev & ft & et & HB & Htr & Hv & Ht & -> & _).
  assert (Hall : forall ld,
             In ld [trainloader (assembled p cfg ev et); validationloader (assembled p cfg ev et);
                    testloader (assembled p cfg ev et)] ->
             drop_last ld = true /\ batch_size ld = trainBatchSize p).
  { intros ld [<- | [<- | [<- | []]]]; split; reflexivity. }
  split.
  - intros ld Hld. destruct (Hall ld Hld) as [Hdl Hbs].
    split; [exact Hdl |]. split; [exact Hbs |].
    intros e items Hit.
    destruct (loader_pass ld e items Hdl ltac:(lia) Hit) as (bs & E1 & E2 & E3 & E4 & _).
    exists bs. auto.
  - intros d HB2 Hone Hten Hhalf.
    assert (H0 : (0 <= percentageDataForTraining cfg)%Q) by (rewrite Hhalf; discriminate).
    assert (H1 : (percentageDataForTraining cfg <= 1)%Q) by (rewrite Hhalf; discriminate).
    set (src := alphapilot_items (train_source [Resize (imsize p, imsize p) (InterpCode 0)] d)).
    assert (Hsrc : length src = 10%nat).
    { unfold src, alphapilot_items. rewrite length_map. exact Hten. }
    assert (Hsize : train_size (percentageDataForTraining cfg) (Z.of_nat (length src)) = 5).
    { rewrite Hsrc. unfold train_size. rewrite (round_b64_eq _ _ Hhalf).
      vm_compute. reflexivity. }
    assert (Hitems : dataset_items (db_train (assembled p cfg ev et)) = Ok (firstn 5 src ++ [])).
    { unfold assembled; cbn [db_train dataset_items]. rewrite Hone.
      rewrite train_subsets_items; [| assumption | assumption |].
      - cbn [map concat]. fold src. rewrite Hsize. reflexivity.
      - intros d' [<- | []]. fold src. rewrite Hsrc. reflexivity. }
    rewrite app_nil_r in Hitems.
    exists (firstn 5 src). split; [exact Hitems |].
    assert (Hfive : length (firstn 5 src) = 5%nat) by (rewrite length_firstn, Hsrc; reflexivity).
    split; [exact Hfive |]. intros e.
    destruct (loader_pass (trainloader (assembled p cfg ev et)) e _ eq_refl ltac:(simpl; lia) Hitems)
      as (bs & E1 & E2 & _ & E4 & _).
    exists bs. split; [exact E1 |].
    change (batch_size (trainloader (assembled p cfg ev et))) with (trainBatchSize p) in E2, E4.
    rewrite HB2, Hfive in E2. change (Z.of_nat 5 / 2) with 2 in E2.
    split; [lia |].
    pose proof (full_batches_total _ bs E4) as Ht2. rewrite HB2 in Ht2. lia.
Qed.

(** ** The training loop *)

Lemma steps_zeroed_app l1 l2 :
  steps_zeroed l1 = true -> steps_zeroed l2 = true -> steps_zeroed (l1 ++ l2) = true.
Proof.
  intros H1 H2. induction l1 as [| e l1 IH]; [exact H2 |].
  destruct e; simpl in *; auto.
  destruct l1 as [| e' l1]; [discriminate |].
  destruct e'; try discriminate. auto.
Qed.

Lemma count_steps_app l1 l2 : count_steps (l1 ++ l2) = count_steps l1 + count_steps l2.
Proof. unfold count_steps. rewrite filter_app, length_app. lia. Qed.

Lemma count_backward_app l1 l2 :
  count_backward (l1 ++ l2) = count_backward l1 + count_backward l2.
Proof. unfold count_backward. rewrite filter_app, length_app. lia. Qed.

Lemma count_train_images_app l1 l2 :
  count_train_images (l1 ++ l2) = count_train_images l1 + count_train_images l2.
Proof. unfold count_train_images. rewrite filter_app, length_app. lia. Qed.

Lemma scalars_app tag l1 l2 : scalars tag (l1 ++ l2) = scalars tag l1 ++ scalars tag l2.
Proof.
  induction l1 as [| e l1 IH]; [reflexivity |].
  destruct e as [| | | | t v k | | | | | | | | | |]; simpl; auto.
  destruct (t =? tag)%string; simpl; congruence.
Qed.

Lemma plot_period_nonzero n :
  n <> 0 ->
  (if n <? 10 then n else 10) <> 0 /\ n / (if n <? 10 then n else 10) <> 0.
Proof.
  intros Hn. destruct (n <? 10) eqn:E.
  - split; [assumption |]. rewrite Z.div_same; lia.
  - apply Z.ltb_ge in E. split; [lia |].
    assert (0 < n / 10) by (apply Z.div_str_pos; lia). lia.
Qed.

(** The criterion of the unet family refuses the call of line 289: the
    batch stops there, after the step counter was logged. *)
Lemma train_batch_unet p n epoch ii b g :
  (Model p =? "unet")%string = true ->
  train_batch p n epoch ii b g =
    ([AddScalar "Epoch Num" (inject_Z epoch) (global_step g + 1)], Raise TypeError).
Proof. intros HM. unfold train_batch. rewrite HM. reflexivity. Qed.

(** A batch of the other family: everything up to the grid happens; the
    grid of a one-item batch is refused. *)
Lemma train_batch_outcome p n epoch ii b g :
  nAveGrad p <> 0 -> n <> 0 -> (Model p =? "unet")%string = false ->
  exists g' log,
    train_batch p n epoch ii b g =
      (log, if (ii mod (n / (if n <? 10 then n else 10)) =? 0) &&
               (Z.of_nat (length b) =? 1)
            then Raise TypeError else Ok g') /\
    steps_zeroed log = true /\
    global_step g' = global_step g + 1 /\
    opt_kind (optim g') = opt_kind (optim g) /\
    opt_lr (optim g') = opt_lr (optim g) /\
    sched g' = sched g /\
    ((aveGrad g + 1) mod nAveGrad p = 0 /\
     count_steps log = 1 /\ aveGrad g' = 0 /\
     updates g' = S (updates g) /\ opt_steps (optim g') = S (opt_steps (optim g))
     \/
     (aveGrad g + 1) mod nAveGrad p <> 0 /\
     count_steps log = 0 /\ aveGrad g' = aveGrad g + 1 /\
     updates g' = updates g /\ opt_steps (optim g') = opt_steps (optim g)) /\
    count_train_images log =
      (if (ii mod (n / (if n <? 10 then n else 10)) =? 0) &&
          negb (Z.of_nat (length b) =? 1) then 1 else 0) /\
    count_backward log = 1.
Proof.
  intros HW Hn HM. destruct (plot_period_nonzero n Hn) as [Hp Hq].
  apply Z.eqb_neq in HW, Hn, Hp, Hq.
  set (g1 := set_running_loss_tr (running_loss_tr g + loss_train (updates g) b)%Q
                                 (set_global_step (global_step g + 1) g)).
  set (g2 := if ii mod n =? n - 1 then set_running_loss_tr 0%Q g1 else g1).
  set (g3 := set_aveGrad (aveGrad g + 1) g2).
  exists (if (aveGrad g + 1) mod nAveGrad p =? 0
          then set_aveGrad 0 (optimizer_step g3) else g3).
  subst g3 g2 g1.
  unfold train_batch, lift, py_mod, py_floordiv, py_truediv.
  rewrite HM, Hn, Hp, HW.
  cbn [bind tell ret fst snd app].
  rewrite Hq.
  destruct (ii mod n =? n - 1);
    cbn [bind tell ret fst snd app set_aveGrad set_running_loss_tr set_global_step
         aveGrad global_step running_loss_tr optimizer_step updates optim sched];
    destruct ((aveGrad g + 1) mod nAveGrad p =? 0) eqn:Es;
    cbn [bind tell ret fst snd app set_aveGrad set_running_loss_tr set_global_step
         aveGrad global_step running_loss_tr optimizer_step updates optim sched];
    destruct (ii mod (n / (if n <? 10 then n else 10)) =? 0);
    cbn [bind tell ret raise fst snd app andb negb];
    try (destruct (Z.of_nat (length b) =? 1); cbn [bind tell ret raise fst snd app negb]);
    (eexists; split; [reflexivity |]);
    (apply Z.eqb_eq in Es || apply Z.eqb_neq in Es);
    cbn; repeat split; auto;
    ((left; repeat split; auto; fail) || (right; repeat split; auto)).
Qed.

Lemma train_batch_facts p n epoch ii b g :
  nAveGrad p <> 0 -> n <> 0 ->
  (Model p =? "unet")%string = false -> length b <> 1%nat ->
  exists log g',
    train_batch p n epoch ii b g = (log, Ok g') /\
    steps_zeroed log = true /\
    global_step g' = global_step g + 1 /\
    opt_kind (optim g') = opt_kind (optim g) /\
    opt_lr (optim g') = opt_lr (optim g) /\
    sched g' = sched g /\
    ((aveGrad g + 1) mod nAveGrad p = 0 /\
     count_steps log = 1 /\ aveGrad g' = 0 /\
     updates g' = S (updates g) /\ opt_steps (optim g') = S (opt_steps (optim g))
     \/
     (aveGrad g + 1) mod nAveGrad p <> 0 /\
     count_steps log = 0 /\ aveGrad g' = aveGrad g + 1 /\
     updates g' = updates g /\ opt_steps (optim g') = opt_steps (optim g)) /\
    count_train_images log =
      (if ii mod (n / (if n <? 10 then n else 10)) =? 0 then 1 else 0) /\
    count_backward log = 1.
Proof.
  intros HW Hn HM Hb.
  destruct (train_batch_outcome p n epoch ii b g HW Hn HM) as (g' & log & E & H).
  assert (Hone : (Z.of_nat (length b) =? 1) = false) by (apply Z.eqb_neq; lia).
  rewrite Hone, !andb_false_r in E. cbn [negb] in H. rewrite Hone, !andb_true_r in H.
  exists log, g'. split; [exact E | exact H].
Qed.

Lemma window_step (a k W : Z) :
  0 < W -> 0 <= a < W -> 0 <= k ->
  ((a + 1) mod W = 0 ->
     (a + (k + 1)) / W = 1 + (0 + k) / W /\ (a + (k + 1)) mod W = (0 + k) mod W) /\
  ((a + 1) mod W <> 0 ->
     0 <= a + 1 < W).
Proof.
  intros HW Ha Hk. split.
  - intros Hm.
    assert (Ha1 : a + 1 = W).
    { destruct (Z.eq_dec (a + 1) W) as [E | E]; [exact E |].
      rewrite Z.mod_small in Hm by lia. lia. }
    split.
    + replace (a + (k + 1)) with (1 * W + (0 + k)) by lia.
      apply Z.div_add_l. lia.
    + replace (a + (k + 1)) with (0 + k + 1 * W) by lia.
      apply Z.mod_add. lia.
  - intros Hm. split; [lia |].
    destruct (Z.eq_dec (a + 1) W) as [E | E]; [| lia].
    rewrite E, Z.mod_same in Hm by lia. congruence.
Qed.

Lemma train_loop_facts p n epoch bs :
  0 < nAveGrad p -> n <> 0 ->
  (Model p =? "unet")%string = false ->
  (forall b, In b bs -> length b <> 1%nat) ->
  forall i g, 0 <= aveGrad g < nAveGrad p ->
  exists log g',
    for_enum (train_batch p n epoch) i bs g = (log, Ok g') /\
    steps_zeroed log = true /\
    count_steps log = (aveGrad g + Z.of_nat (length bs)) / nAveGrad p /\
    aveGrad g' = (aveGrad g + Z.of_nat (length bs)) mod nAveGrad p /\
    global_step g' = global_step g + Z.of_nat (length bs) /\
    Z.of_nat (updates g') = Z.of_nat (updates g) + count_steps log /\
    Z.of_nat (opt_steps (optim g')) = Z.of_nat (opt_steps (optim g)) + count_steps log /\
    opt_kind (optim g') = opt_kind (optim g) /\
    opt_lr (optim g') = opt_lr (optim g) /\
    sched g' = sched g /\
    count_backward log = Z.of_nat (length bs).
Proof.
  intros HW Hn HM. induction bs as [| b bs IH]; intros Hbs i g Ha.
  - exists [], g. cbn [for_enum ret length Z.of_nat].
    rewrite Z.add_0_r, Z.div_small, Z.mod_small by lia.
    repeat split; try reflexivity; cbn; lia.
  - destruct (train_batch_facts p n epoch i b g ltac:(lia) Hn HM
                                (Hbs b (or_introl eq_refl)))
      as (l1 & g1 & E1 & Hz1 & Hgs1 & Hk1 & Hlr1 & Hsc1 & Hcase & _ & Hb1).
    specialize (IH (fun b' Hb' => Hbs b' (or_intror Hb'))).
    destruct (window_step (aveGrad g) (Z.of_nat (length bs)) (nAveGrad p) HW Ha
                          (Nat2Z.is_nonneg _)) as [Wyes Wno].
    assert (Ha1 : 0 <= aveGrad g1 < nAveGrad p).
    { destruct Hcase as [(Hm & _ & -> & _) | (Hm & _ & -> & _)]; [lia | auto]. }
    destruct (IH (i + 1) g1 Ha1)
      as (l2 & g2 & E2 & Hz2 & Hc2 & Hav2 & Hgs2 & Hu2 & Ho2 & Hk2 & Hlr2 & Hsc2 & Hb2).
    exists (l1 ++ l2), g2.
    cbn [for_enum]. rewrite (bind_ok _ _ _ _ E1), E2. cbn [fst snd].
    rewrite count_steps_app, count_backward_app, Hb1, Hb2.
    rewrite Hgs2, Hgs1, Hk2, Hk1, Hlr2, Hlr1, Hsc2, Hsc1.
    cbn [length]. rewrite Nat2Z.inj_succ, <- Z.add_1_r.
    split; [reflexivity |]. split; [apply steps_zeroed_app; assumption |].
    destruct Hcase as [(Hm & Hc1 & Hav1 & Hu1 & Ho1) | (Hm & Hc1 & Hav1 & Hu1 & Ho1)].
    + destruct (Wyes Hm) as [Ed Em]. rewrite Hav1 in Hc2, Hav2.
      rewrite Ed, Em, Hc1, Hc2, Hav2, Hu2, Ho2, Hc2, Hu1, Ho1.
      repeat split; try reflexivity; lia.
    + rewrite Hav1 in Hc2, Hav2.
      replace (aveGrad g + (Z.of_nat (length bs) + 1))
        with (aveGrad g + 1 + Z.of_nat (length bs)) by lia.
      rewrite Hc1, Hc2, Hav2, Hu2, Ho2, Hc2, Hu1, Ho1.
      repeat split; try reflexivity; lia.
Qed.

(** The batches of one epoch: as many as the loader's length. *)
Lemma train_epoch_facts p cfg log0 s items epoch g :
  assemble p cfg = (log0, Ok s) ->
  dataset_items (db_train s) = Ok items ->
  (Model p =? "unet")%string = false -> 2 <= trainBatchSize p ->
  0 < nAveGrad p -> 0 <= aveGrad g < nAveGrad p ->
  let k := Z.of_nat (length items) / trainBatchSize p in
  exists log g',
    train_epoch p s epoch g = (log, Ok g') /\
    steps_zeroed log = true /\
    count_steps log = (aveGrad g + k) / nAveGrad p /\
    aveGrad g' = (aveGrad g + k) mod nAveGrad p /\
    global_step g' = global_step g + k /\
    Z.of_nat (updates g') = Z.of_nat (updates g) + count_steps log /\
    Z.of_nat (opt_steps (optim g')) = Z.of_nat (opt_steps (optim g)) + count_steps log /\
    opt_kind (optim g') = opt_kind (optim g) /\
    opt_lr (optim g') = opt_lr (optim g) /\
    sched g' = sched g /\
    count_backward log = k.
Proof.
  intros H Hit HM HB2 HW Ha k.
  destruct (assemble_inv _ _ _ _ H) as (fv & ev & ft & et & HB & Htr & Hv & Ht & -> & _).
  destruct (loader_pass (trainloader (assembled p cfg ev et)) epoch items eq_refl HB Hit)
    as (bs & E1 & E2 & E3 & E4 & _).
  change (batch_size (trainloader (assembled p cfg ev et))) with (trainBatchSize p) in E2, E4.
  assert (Hfull : forall b, In b bs -> length b <> 1%nat)
    by (intros b0 Hb0; specialize (E4 b0 Hb0); lia).
  fold k in E2. unfold train_epoch. rewrite E1.
  change (num_img_tr (assembled p cfg ev et))
    with (loader_len (trainloader (assembled p cfg ev et))).
  rewrite E3. unfold lift. cbn [bind]. rewrite <- E2.
  destruct bs as [| b bs].
  - exists [], g. cbn [for_enum ret length Z.of_nat].
    rewrite Z.add_0_r, Z.div_small, Z.mod_small by lia.
    repeat split; try reflexivity; cbn; lia.
  - destruct (train_loop_facts p (Z.of_nat (length (b :: bs))) epoch (b :: bs) HW
                               ltac:(simpl; lia) HM Hfull 0 g Ha) as (log & g' & E & Hrest).
    exists log, g'. rewrite E. split; [reflexivity | exact Hrest].
Qed.

(** ** The accumulation discipline over the whole script *)

Lemma quiet_app l1 l2 : quiet (l1 ++ l2) = quiet l1 && quiet l2.
Proof. apply forallb_app. Qed.

Lemma quiet_facts l :
  quiet l = true ->
  steps_zeroed l = true /\ count_steps l = 0 /\ count_backward l = 0.
Proof.
  unfold count_steps, count_backward.
  induction l as [| e l IH]; [auto |].
  destruct e; cbn; try discriminate; exact IH.
Qed.

Lemma window_split (a x y W : Z) :
  0 < W ->
  (a + x) / W + ((a + x) mod W + y) / W = (a + (x + y)) / W /\
  ((a + x) mod W + y) mod W = (a + (x + y)) mod W.
Proof.
  intros HW.
  assert (E : a + (x + y) = (a + x) mod W + y + (a + x) / W * W).
  { pose proof (Z.div_mod (a + x) W ltac:(lia)). lia. }
  rewrite E. split.
  - rewrite Z.div_add by lia. lia.
  - rewrite Z.mod_add by lia. reflexivity.
Qed.

Lemma tracks_quiet {A : Type} W (proj : A -> Z) a (m : M A) :
  0 <= a < W -> quiet (fst m) = true ->
  (forall x, snd m = Ok x -> proj x = a) ->
  tracks W proj a m.
Proof.
  intros Ha Hq Hp. destruct (quiet_facts _ Hq) as (Hz & Hc & Hb).
  unfold tracks. rewrite Hz, Hc, Hb, Z.add_0_r, Z.div_small, Z.mod_small by lia.
  auto.
Qed.

Lemma tracks_ret {A : Type} W (proj : A -> Z) (x : A) :
  0 <= proj x < W -> tracks W proj (proj x) (ret x).
Proof.
  intros Hx. apply tracks_quiet; [exact Hx | reflexivity |].
  intros y Hy. inversion Hy. reflexivity.
Qed.

Lemma tracks_bind {A B : Type} W (pa : A -> Z) (pb : B -> Z) a (m : M A) (f : A -> M B) :
  0 < W ->
  tracks W pa a m ->
  (forall x, snd m = Ok x -> 0 <= pa x < W -> tracks W pb (pa x) (f x)) ->
  tracks W pb a (bind m f).
Proof.
  intros HW (Hz & Hc & Hp) Hf. destruct m as [l1 [x | e]]; cbn [fst snd] in *.
  - specialize (Hp x eq_refl).
    assert (Hr : 0 <= pa x < W) by (rewrite Hp; apply Z.mod_pos_bound; exact HW).
    destruct (Hf x eq_refl Hr) as (Hz2 & Hc2 & Hp2).
    cbn [bind]. destruct (f x) as [l2 r2]. cbn [fst snd] in *.
    destruct (window_split a (count_backward l1) (count_backward l2) W HW) as [Ed Em].
    unfold tracks. cbn [fst snd].
    rewrite count_steps_app, count_backward_app, Hc, Hc2, Hp, Ed.
    split; [apply steps_zeroed_app; assumption |]. split; [reflexivity |].
    intros y Hy. rewrite (Hp2 y Hy), Hp, Em. reflexivity.
  - cbn [bind]. unfold tracks. cbn [fst snd].
    split; [exact Hz |]. split; [exact Hc |]. discriminate.
Qed.

Lemma tracks_bind_quiet {A B : Type} W (pb : B -> Z) a (m : M A) (f : A -> M B) :
  0 < W -> 0 <= a < W -> quiet (fst m) = true ->
  (forall x, snd m = Ok x -> tracks W pb a (f x)) ->
  tracks W pb a (bind m f).
Proof.
  intros HW Ha Hq Hf.
  apply (tracks_bind W (fun _ => a) pb a m f HW).
  - apply tracks_quiet; auto.
  - intros x Hx _. apply Hf. exact Hx.
Qed.

Lemma tracks_for_enum {A S : Type} W (proj : S -> Z) (body : Z -> A -> S -> M S) :
  0 < W ->
  (forall i x s, 0 <= proj s < W -> tracks W proj (proj s) (body i x s)) ->
  forall l i s, 0 <= proj s < W -> tracks W proj (proj s) (for_enum body i l s).
Proof.
  intros HW Hbody. induction l as [| x l IH]; intros i s Hs; cbn [for_enum].
  - apply tracks_ret. exact Hs.
  - apply (tracks_bind W proj proj); auto.
Qed.

Lemma tracks_for_each {A S : Type} W (proj : S -> Z) (body : A -> S -> M S) :
  0 < W ->
  (forall x s, 0 <= proj s < W -> tracks W proj (proj s) (body x s)) ->
  forall l s, 0 <= proj s < W -> tracks W proj (proj s) (for_each body l s).
Proof.
  intros HW Hbody. induction l as [| x l IH]; intros s Hs; cbn [for_each].
  - apply tracks_ret. exact Hs.
  - apply (tracks_bind W proj proj); auto.
Qed.

Lemma quiet_bind {A B : Type} (m : M A) (f : A -> M B) :
  quiet (fst m) = true -> (forall x, quiet (fst (f x)) = true) ->
  quiet (fst (bind m f)) = true.
Proof.
  intros Hm Hf. rewrite fst_bind, quiet_app, Hm.
  destruct (snd m); [apply Hf | reflexivity].
Qed.

Lemma quiet_for_each {A S : Type} (body : A -> S -> M S) l :
  (forall x s, quiet (fst (body x s)) = true) ->
  forall s, quiet (fst (for_each body l s)) = true.
Proof.
  intros Hb. induction l as [| x l IH]; intros s; cbn [for_each]; [reflexivity |].
  apply quiet_bind; auto.
Qed.

Lemma network_definition_quiet p : quiet (fst (network_definition p)) = true.
Proof.
  unfold network_definition.
  destruct (Model p =? "deeplab")%string.
  - destruct (backbone p =? "xception")%string; [reflexivity |].
    destruct (backbone p =? "resnet")%string; reflexivity.
  - destruct (Model p =? "unet")%string; reflexivity.
Qed.

Lemma make_loader_quiet name d bs sh dl : quiet (fst (make_loader name d bs sh dl)) = true.
Proof. unfold make_loader. destruct (bs <=? 0); reflexivity. Qed.

Lemma lookup_quiet {A : Type} name (v : option A) : quiet (fst (lookup name v)) = true.
Proof. destruct v; reflexivity. Qed.

Lemma load_checkpoint_quiet checkpoint_exists p :
  quiet (fst (load_checkpoint checkpoint_exists p)) = true.
Proof.
  unfold load_checkpoint. destruct (resume_epoch p =? 0); [reflexivity |].
  destruct (checkpoint_exists (resume_epoch p - 1)); reflexivity.
Qed.

Lemma assemble_quiet p cfg : quiet (fst (assemble p cfg)) = true.
Proof.
  unfold assemble, assemble_train, assemble_validation, assemble_test.
  repeat (apply quiet_bind; [| intros ?]);
    try apply make_loader_quiet; try apply lookup_quiet; try reflexivity;
    try (apply quiet_for_each; intros; reflexivity).
  destruct x; reflexivity.
Qed.

Lemma train_batch_tracks p n epoch ii b g :
  0 < nAveGrad p -> 0 <= aveGrad g < nAveGrad p ->
  tracks (nAveGrad p) aveGrad (aveGrad g) (train_batch p n epoch ii b g).
Proof.
  intros HW Ha. destruct (Model p =? "unet")%string eqn:HM.
  { rewrite (train_batch_unet p n epoch ii b g HM).
    apply tracks_quiet; [exact Ha | reflexivity | discriminate]. }
  destruct (Z.eq_dec n 0) as [-> | Hn].
  - unfold train_batch. rewrite HM.
    apply tracks_quiet; [exact Ha | reflexivity | discriminate].
  - destruct (train_batch_outcome p n epoch ii b g ltac:(lia) Hn HM)
      as (g' & log & E & Hz & _ & _ & _ & _ & Hcase & _ & Hb).
    destruct (window_step (aveGrad g) 0 (nAveGrad p) HW Ha ltac:(lia)) as [_ Wno].
    unfold tracks. rewrite E. cbn [fst snd]. rewrite Hb.
    split; [exact Hz |].
    destruct Hcase as [(Hm & Hc & Hav & _) | (Hm & Hc & Hav & _)].
    + assert (Ea : aveGrad g + 1 = nAveGrad p).
      { destruct (Z.eq_dec (aveGrad g + 1) (nAveGrad p)) as [E' | E']; [exact E' |].
        rewrite Z.mod_small in Hm by lia. lia. }
      rewrite Ea, Z.div_same, Z.mod_same by lia.
      split; [exact Hc |]. intros x Hx.
      destruct (_ && _); [discriminate |]. inversion Hx; subst x. exact Hav.
    + specialize (Wno Hm).
      rewrite (Z.div_small (aveGrad g + 1)), (Z.mod_small (aveGrad g + 1)) by lia.
      split; [exact Hc |]. intros x Hx.
      destruct (_ && _); [discriminate |]. inversion Hx; subst x. exact Hav.
Qed.

Lemma train_epoch_tracks p s epoch g :
  0 < nAveGrad p -> 0 <= aveGrad g < nAveGrad p ->
  tracks (nAveGrad p) aveGrad (aveGrad g) (train_epoch p s epoch g).
Proof.
  intros HW Ha. unfold train_epoch.
  apply tracks_bind_quiet; [exact HW | exact Ha | reflexivity |].
  intros bs _. apply tracks_for_enum; [exact HW | | exact Ha].
  intros i x g' Hg'. apply train_batch_tracks; assumption.
Qed.

Lemma adjust_learning_rate_tracks p epoch g :
  0 < nAveGrad p -> 0 <= aveGrad g < nAveGrad p ->
  tracks (nAveGrad p) aveGrad (aveGrad g) (adjust_learning_rate p epoch g).
Proof.
  intros HW Ha. unfold adjust_learning_rate, lift, py_mod.
  destruct (Model p =? "unet")%string.
  - destruct (sched g) as [sc |]; cbn [lookup bind ret raise tell fst snd app];
      (apply tracks_quiet; [exact Ha | reflexivity |]);
      intros x Hx; inversion Hx; reflexivity.
  - destruct (epoch_size p =? 0); cbn [bind fst snd app];
      [apply tracks_quiet; [exact Ha | reflexivity | discriminate] |].
    destruct (epoch mod epoch_size p =? epoch_size p - 1); cbn [bind tell ret fst snd app];
      (apply tracks_quiet; [exact Ha | reflexivity |]);
      intros x Hx; inversion Hx; reflexivity.
Qed.

Lemma eval_batch_tracks p s epoch split ii b st :
  0 <= aveGrad (globals st) < nAveGrad p ->
  tracks (nAveGrad p) (fun st => aveGrad (globals st)) (aveGrad (globals st))
         (eval_batch p s epoch split ii b st).
Proof.
  intros Ha.
  destruct split; unfold eval_batch, validation_batch, test_batch, lift, py_mod, py_truediv;
    repeat (match goal with
            | |- context [if ?c then _ else _] => destruct c
            end; cbn [bind tell ret raise fst snd app]);
    (apply tracks_quiet; [exact Ha | reflexivity |]);
    intros x Hx; inversion Hx; reflexivity.
Qed.

Lemma evaluate_tracks p s epoch g :
  0 < nAveGrad p -> 0 <= aveGrad g < nAveGrad p ->
  tracks (nAveGrad p) aveGrad (aveGrad g) (evaluate p s epoch g).
Proof.
  intros HW Ha. unfold evaluate.
  apply (tracks_bind _ (fun st => aveGrad (globals st)) aveGrad
                     (aveGrad (globals (mkEvalState 0 0 g)))); [exact HW | |].
  - apply (tracks_for_each _ (fun st => aveGrad (globals st))); [exact HW | | exact Ha].
    intros split st Hst. unfold eval_pass.
    apply tracks_bind_quiet; [exact HW | exact Hst | reflexivity |].
    intros bs _.
    apply (tracks_for_enum _ (fun st => aveGrad (globals st))
                           (eval_batch p s epoch split) HW
                           (fun i x st' H => eval_batch_tracks p s epoch split i x st' H)
                           bs 0 (mkEvalState 0 (images_list st) (globals st)) Hst).
  - intros st _ Hst. apply (tracks_ret _ aveGrad (globals st)). exact Hst.
Qed.

Lemma run_epoch_tracks p s epoch g :
  0 < nAveGrad p -> 0 <= aveGrad g < nAveGrad p ->
  tracks (nAveGrad p) aveGrad (aveGrad g) (run_epoch p s epoch g).
Proof.
  intros HW Ha. unfold run_epoch.
  apply (tracks_bind _ aveGrad aveGrad); [exact HW | apply adjust_learning_rate_tracks; assumption |].
  intros g1 _ H1.
  apply (tracks_bind _ aveGrad aveGrad); [exact HW | apply train_epoch_tracks; assumption |].
  intros g2 _ H2.
  apply tracks_bind_quiet; [exact HW | exact H2 | reflexivity |]. intros r _.
  apply tracks_bind_quiet; [exact HW | exact H2 | destruct (r =? snapshot p - 1); reflexivity |].
  intros _ _.
  destruct (useTest p); [| apply tracks_ret; exact H2].
  apply tracks_bind_quiet; [exact HW | exact H2 | reflexivity |]. intros r' _.
  destruct (r' =? nTestInterval p - 1); [| apply tracks_ret; exact H2].
  apply evaluate_tracks; assumption.
Qed.

(** The whole script: whatever its outcome, the log holds one optimizer
    step, directly followed by zero_grad, per [nAveGrad] backward passes. *)
Lemma main_tracks checkpoint_exists p cfg :
  0 < nAveGrad p -> tracks (nAveGrad p) aveGrad 0 (main checkpoint_exists p cfg).
Proof.
  intros HW. assert (H0 : 0 <= 0 < nAveGrad p) by lia. unfold main.
  apply tracks_bind_quiet; [exact HW | exact H0 | apply network_definition_quiet |].
  intros nw _.
  apply tracks_bind_quiet; [exact HW | exact H0 | apply load_checkpoint_quiet |].
  intros _ _.
  apply tracks_bind_quiet; [exact HW | exact H0 | |].
  { destruct (negb (resume_epoch p =? nEpochs p)); [| reflexivity].
    apply quiet_bind; [apply assemble_quiet | reflexivity]. }
  intros s _. cbv zeta.
  apply (tracks_bind _ aveGrad aveGrad); [exact HW | |].
  - apply (tracks_for_each _ aveGrad
             (fun epoch g => s' <- lookup "trainloader" s ;; run_epoch p s' epoch g) HW);
      [| exact H0].
    intros epoch g Hg.
    apply tracks_bind_quiet; [exact HW | exact Hg | apply lookup_quiet |].
    intros s' _. apply run_epoch_tracks; assumption.
  - intros g _ Hg.
    apply tracks_bind_quiet; [exact HW | exact Hg | apply lookup_quiet |]. intros _ _.
    apply tracks_bind_quiet; [exact HW | exact Hg | reflexivity |]. intros _ _.
    apply tracks_ret. exact Hg.
Qed.

(** ** Gradient accumulation and the learning rate *)

(** C1. With an accumulation window W = nAveGrad >= 1 and the counter
    below W: a batch that is processed (the loss call is accepted, which
    excludes the unet family, and the batch does not hold exactly one item)
    performs the optimizer step exactly when its increment brings the
    counter to W, the step is directly followed by zero_grad and the counter
    is 0 afterwards; otherwise no step is taken and the counter is one
    higher.  Hence a run of k such batches that starts with the counter at a
    performs (a + k) div W steps, one per W batches, and leaves the counter
    at (a + k) mod W.  Whatever the batches and whatever the outcome, of a
    loop or of the whole script, the steps logged number the backward passes
    div W (counted from a), each directly followed by zero_grad. *)
Theorem optimizer_steps_once_per_window p :
  0 < nAveGrad p ->
  (forall n epoch ii b g,
     n <> 0 -> 0 <= aveGrad g < nAveGrad p ->
     (Model p =? "unet")%string = false -> length b <> 1%nat ->
     exists log g',
       train_batch p n epoch ii b g = (log, Ok g') /\
       steps_zeroed log = true /\ count_backward log = 1 /\
       (aveGrad g + 1 = nAveGrad p /\ count_steps log = 1 /\
        aveGrad g' = 0 /\ updates g' = S (updates g)
        \/
        aveGrad g + 1 < nAveGrad p /\ count_steps log = 0 /\
        aveGrad g' = aveGrad g + 1 /\ updates g' = updates g)) /\
  (forall n epoch bs i g,
     n <> 0 -> 0 <= aveGrad g < nAveGrad p ->
     (Model p =? "unet")%string = false ->
     (forall b, In b bs -> length b <> 1%nat) ->
     exists log g',
       for_enum (train_batch p n epoch) i bs g = (log, Ok g') /\
       steps_zeroed log = true /\
       count_backward log = Z.of_nat (length bs) /\
       count_steps log = (aveGrad g + Z.of_nat (length bs)) / nAveGrad p /\
       aveGrad g' = (aveGrad g + Z.of_nat (length bs)) mod nAveGrad p /\
       Z.of_nat (updates g') = Z.of_nat (updates g) + count_steps log) /\
  (forall n epoch bs i g,
     0 <= aveGrad g < nAveGrad p ->
     let log := fst (for_enum (train_batch p n epoch) i bs g) in
     steps_zeroed log = true /\
     count_steps log = (aveGrad g + count_backward log) / nAveGrad p /\
     forall g', snd (for_enum (train_batch p n epoch) i bs g) = Ok g' ->
                aveGrad g' = (aveGrad g + count_backward log) mod nAveGrad p) /\
  (forall checkpoint_exists cfg,
     let log := fst (main checkpoint_exists p cfg) in
     steps_zeroed log = true /\
     count_steps log = count_backward log / nAveGrad p /\
     forall g, snd (main checkpoint_exists p cfg) = Ok g -> aveGrad g = count_backward log mod nAveGrad p).
Proof.
  intros HW. split; [| split; [| split]].
  - intros n epoch ii b g Hn Ha HM Hone.
    destruct (train_batch_facts p n epoch ii b g ltac:(lia) Hn HM Hone)
      as (log & g' & E & Hz & _ & _ & _ & _ & Hcase & _ & Hb).
    exists log, g'. split; [exact E |]. split; [exact Hz |]. split; [exact Hb |].
    destruct (window_step (aveGrad g) 0 (nAveGrad p) HW Ha ltac:(lia)) as [_ Wno].
    destruct Hcase as [(Hm & Hc & Hav & Hu & _) | (Hm & Hc & Hav & Hu & _)].
    + left. repeat split; try assumption.
      destruct (Z.eq_dec (aveGrad g + 1) (nAveGrad p)) as [E' | E']; [exact E' |].
      rewrite Z.mod_small in Hm by lia. lia.
    + right. specialize (Wno Hm). repeat split; try assumption.
      destruct (Z.eq_dec (aveGrad g + 1) (nAveGrad p)) as [E' | E']; [| lia].
      rewrite E', Z.mod_same in Hm by lia. congruence.
  - intros n epoch bs i g Hn Ha HM Hbs.
    destruct (train_loop_facts p n epoch bs HW Hn HM Hbs i g Ha)
      as (log & g' & E & Hz & Hc & Hav & _ & Hu & _ & _ & _ & _ & Hb).
    exists log, g'. auto 10.
  - intros n epoch bs i g Ha log.
    exact (tracks_for_enum (nAveGrad p) aveGrad (train_batch p n epoch) HW
             (fun i' b' g' H' => train_batch_tracks p n epoch i' b' g' HW H')
             bs i g Ha).
  - intros checkpoint_exists cfg log. destruct (main_tracks checkpoint_exists p cfg HW) as (Hz & Hc & Hg).
    fold log in Hz, Hc, Hg. rewrite Z.add_0_l in Hc.
    split; [exact Hz |]. split; [exact Hc |].
    intros g E. rewrite (Hg g E). reflexivity.
Qed.

(** C2. For the deeplab family and a non-zero epoch size: at an epoch e
    with e mod epoch_size = epoch_size - 1 the learning-rate adjustment
    builds a new SGD optimizer with rate lr * (1 - e / nEpochs) ^ 0.9 and
    empty state and makes it the current optimizer; at any other epoch it
    leaves the optimizer as it is.  With a batch size of at least 2, after
    the batches of such an epoch the optimizer still has that rate and its
    state holds this epoch's steps only. *)
Theorem poly_policy_rebuilds_optimizer p epoch g :
  Model p = "deeplab" -> epoch_size p <> 0 ->
  let lr_ := (lr p * Rpower (1 - IZR epoch / IZR (nEpochs p)) (9 / 10))%R in
  let fresh := {| opt_kind := SGD (momentum p); opt_lr := lr_;
                  opt_weight_decay := wd p; opt_steps := 0 |} in
  (epoch mod epoch_size p = epoch_size p - 1 ->
     adjust_learning_rate p epoch g = ([NewOptimizer fresh], Ok (set_optim fresh g))) /\
  (epoch mod epoch_size p <> epoch_size p - 1 ->
     adjust_learning_rate p epoch g = ([], Ok g)) /\
  (forall cfg log0 s items,
     epoch mod epoch_size p = epoch_size p - 1 ->
     assemble p cfg = (log0, Ok s) ->
     dataset_items (db_train s) = Ok items ->
     2 <= trainBatchSize p ->
     0 <= aveGrad g < nAveGrad p ->
     exists log g',
       (g1 <- adjust_learning_rate p epoch g ;; train_epoch p s epoch g1) =
       (NewOptimizer fresh :: log, Ok g') /\
       opt_kind (optim g') = SGD (momentum p) /\
       opt_lr (optim g') = lr_ /\
       Z.of_nat (opt_steps (optim g')) = count_steps log).
Proof.
  intros HM Hs lr_ fresh.
  assert (Hyes : epoch mod epoch_size p = epoch_size p - 1 ->
                 adjust_learning_rate p epoch g =
                 ([NewOptimizer fresh], Ok (set_optim fresh g))).
  { intros He. unfold adjust_learning_rate, lift, py_mod. rewrite HM.
    apply Z.eqb_neq in Hs. rewrite Hs. cbn [String.eqb Ascii.eqb Bool.eqb bind fst snd app].
    apply Z.eqb_eq in He. rewrite He. reflexivity. }
  split; [exact Hyes |]. split.
  - intros He. unfold adjust_learning_rate, lift, py_mod. rewrite HM.
    apply Z.eqb_neq in Hs. rewrite Hs. cbn [String.eqb Ascii.eqb Bool.eqb bind fst snd app].
    apply Z.eqb_neq in He. rewrite He. reflexivity.
  - intros cfg log0 s items He H Hit HB2 Ha.
    destruct (train_epoch_facts p cfg log0 s items epoch (set_optim fresh g) H Hit
                                ltac:(rewrite HM; reflexivity) HB2
                                ltac:(simpl in *; lia) Ha)
      as (log & g' & E & _ & _ & _ & _ & _ & Ho & Hk & Hlr & _).
    exists log, g'. rewrite (bind_ok _ _ _ _ (Hyes He)), E. cbn [fst snd app].
    split; [reflexivity |]. split; [exact Hk |]. split; [exact Hlr |].
    rewrite Ho. cbn. reflexivity.
Qed.

(** ** The evaluation loop *)

Lemma denominator_positive p ii (b : list Sample) :
  0 <= ii -> 0 < trainBatchSize p -> b <> [] ->
  0 < miou_denominator p ii (Z.of_nat (length b)) /\ 1 <= Z.of_nat (length b).
Proof.
  intros Hi HB Hb. unfold miou_denominator.
  destruct b as [| x b]; [congruence |]. cbn [length]. nia.
Qed.

(** A batch at the reporting boundary of its pass. *)
Lemma eval_batch_boundary p s epoch split ii b st :
  num_img s split <> 0 -> 0 <= ii -> 0 < trainBatchSize p -> b <> [] ->
  ii mod num_img s split = num_img s split - 1 ->
  let total := (total_iou st + get_iou (updates (globals st)) b)%Q in
  let shape0 := Z.of_nat (length b) in
  scalars (miou_tag split) (fst (eval_batch p s epoch split ii b st)) =
    [(total / inject_Z (miou_denominator p ii shape0))%Q] /\
  (split = Test ->
   In (PrintNumImages "Test" epoch (test_printed_numImages p ii shape0))
      (fst (eval_batch p s epoch split ii b st))).
Proof.
  intros Hn Hi HB Hb Hm total shape0.
  destruct (denominator_positive p ii b Hi HB Hb) as [Hd H1]. fold shape0 in Hd, H1.
  assert (Ed : (miou_denominator p ii shape0 =? 0) = false) by (apply Z.eqb_neq; lia).
  apply Z.eqb_neq in Hn. apply Z.eqb_eq in Hm.
  destruct split; unfold eval_batch, validation_batch, test_batch, lift, py_mod, py_truediv;
    fold shape0; fold total; cbn [num_img] in Hn, Hm.
  - rewrite Hn. cbn [bind fst snd app]. rewrite Hm, Ed. cbn [bind tell fst snd app].
    destruct (shape0 <? 2); (split; [reflexivity | discriminate]).
  - replace (shape0 <? 1) with false by (symmetry; apply Z.ltb_ge; lia).
    rewrite Hn. cbn [bind tell fst snd app]. rewrite Hm, Ed.
    cbn [bind tell ret fst snd app].
    split; [reflexivity |]. intros _. cbn. auto.
Qed.

(** A batch before the reporting boundary. *)
Lemma eval_batch_inner p s epoch split ii b st :
  num_img s split <> 0 -> b <> [] ->
  ii mod num_img s split <> num_img s split - 1 ->
  exists log st',
    eval_batch p s epoch split ii b st = (log, Ok st') /\
    scalars (miou_tag split) log = [] /\
    total_iou st' = (total_iou st + get_iou (updates (globals st)) b)%Q /\
    updates (globals st') = updates (globals st).
Proof.
  intros Hn Hb Hm.
  assert (H1 : (Z.of_nat (length b) <? 1) = false).
  { apply Z.ltb_ge. destruct b; [congruence | cbn [length]; lia]. }
  apply Z.eqb_neq in Hn, Hm.
  destruct split; unfold eval_batch, validation_batch, test_batch, lift, py_mod;
    cbn [num_img] in Hn, Hm; rewrite Hn, ?H1;
    cbn [bind tell fst snd app]; rewrite Hm;
    eexists; eexists; (split; [reflexivity |]); cbn; auto.
Qed.

(** The mean IoU values one pass logs: a single value, at the last batch. *)
Lemma eval_loop_reports p s epoch split bs :
  0 < trainBatchSize p ->
  (forall b, In b bs -> b <> []) ->
  forall i st,
    0 <= i -> i + Z.of_nat (length bs) = num_img s split ->
    scalars (miou_tag split) (fst (for_enum (eval_batch p s epoch split) i bs st)) =
    match bs with
    | [] => []
    | _ =>
        [(fold_left (fun t b => t + get_iou (updates (globals st)) b)%Q bs (total_iou st) /
          inject_Z (miou_denominator p (num_img s split - 1)
                                     (Z.of_nat (length (last bs [])))))%Q]
    end.
Proof.
  intros HB. induction bs as [| b bs IH]; intros Hne i st Hi Hlen; [reflexivity |].
  assert (Hb : b <> []) by (apply Hne; simpl; auto).
  assert (Hn : num_img s split <> 0) by (cbn [length] in Hlen; lia).
  cbn [for_enum]. rewrite fst_bind, scalars_app.
  destruct bs as [| b' bs].
  - assert (Ei : i = num_img s split - 1) by (cbn [length] in Hlen; lia).
    assert (Hm : i mod num_img s split = num_img s split - 1)
      by (rewrite Z.mod_small; lia).
    destruct (eval_batch_boundary p s epoch split i b st Hn Hi HB Hb Hm) as [-> _].
    destruct (snd (eval_batch p s epoch split i b st)); cbn [for_enum ret fst scalars app];
      rewrite Ei; reflexivity.
  - assert (Hm : i mod num_img s split <> num_img s split - 1).
    { rewrite Z.mod_small; cbn [length] in Hlen; lia. }
    destruct (eval_batch_inner p s epoch split i b st Hn Hb Hm)
      as (l & st' & E & Hsc & Htot & Hup).
    rewrite E. cbn [fst snd]. rewrite Hsc. cbn [app].
    rewrite IH; [| intros x Hx; apply Hne; simpl; auto | lia | cbn [length] in *; lia].
    rewrite Htot, Hup. reflexivity.
Qed.

(** The batches an evaluation pass iterates over. *)
Lemma eval_pass_batches p cfg log0 s split epoch :
  assemble p cfg = (log0, Ok s) ->
  let bs := batch_sampler (trainBatchSize p) true [] (alphapilot_items (source_of s split)) in
  0 < trainBatchSize p /\
  loader_batches epoch (loader_of s split) = Ok bs /\
  num_img s split = Z.of_nat (length bs) /\
  (forall b, In b bs -> Z.of_nat (length b) = trainBatchSize p).
Proof.
  intros H bs.
  destruct (assemble_inv _ _ _ _ H) as (fv & ev & ft & et & HB & Htr & Hv & Ht & -> & _).
  split; [exact HB |].
  assert (Hl : Z.of_nat (length bs) =
               Z.of_nat (length (alphapilot_items (source_of (assembled p cfg ev et) split))) /
               trainBatchSize p).
  { unfold bs. rewrite batch_sampler_length by (simpl; lia). reflexivity. }
  split; [destruct split; reflexivity |].
  split; [rewrite Hl; destruct split; reflexivity |].
  apply batch_sampler_full. simpl. lia.
Qed.

(** ** The mean IoU and the image counts *)

(** C3. In the validation pass and in the test pass alike, a batch at the
    reporting boundary (ii mod pass-length = pass-length - 1) logs as mean
    IoU the IoU total accumulated in the pass, this batch included, divided
    by ii * trainBatchSize + inputs.shape[0]; a batch elsewhere logs none.
    Over a whole pass this is one value, logged at the last batch. *)
Theorem miou_uses_current_batch_count p cfg log0 s :
  assemble p cfg = (log0, Ok s) ->
  (forall split epoch ii b st,
     num_img s split <> 0 -> 0 <= ii -> b <> [] ->
     ii mod num_img s split = num_img s split - 1 ->
     scalars (miou_tag split) (fst (eval_batch p s epoch split ii b st)) =
     [((total_iou st + get_iou (updates (globals st)) b) /
       inject_Z (ii * trainBatchSize p + Z.of_nat (length b)))%Q]) /\
  (forall split epoch ii b st,
     num_img s split <> 0 -> b <> [] ->
     ii mod num_img s split <> num_img s split - 1 ->
     scalars (miou_tag split) (fst (eval_batch p s epoch split ii b st)) = []) /\
  (forall split epoch st,
     let bs := batch_sampler (trainBatchSize p) true []
                             (alphapilot_items (source_of s split)) in
     let ii := Z.of_nat (length bs) - 1 in
     scalars (miou_tag split) (fst (eval_pass p s epoch split st)) =
     match bs with
     | [] => []
     | _ =>
         [(fold_left (fun t b => t + get_iou (updates (globals st)) b)%Q bs 0%Q /
           inject_Z (ii * trainBatchSize p + Z.of_nat (length (last bs []))))%Q]
     end).
Proof.
  intros H.
  assert (HB : 0 < trainBatchSize p).
  { destruct (eval_pass_batches p cfg log0 s Validation 0 H) as [HB _]. exact HB. }
  split; [| split].
  - intros split epoch ii b st Hn Hi Hb Hm.
    destruct (eval_batch_boundary p s epoch split ii b st Hn Hi HB Hb Hm) as [E _].
    exact E.
  - intros split epoch ii b st Hn Hb Hm.
    destruct (eval_batch_inner p s epoch split ii b st Hn Hb Hm) as (l & st' & E & Hsc & _).
    rewrite E. exact Hsc.
  - intros split epoch st bs ii.
    destruct (eval_pass_batches p cfg log0 s split epoch H) as (_ & Eb & En & Hfull).
    fold bs in Eb, En, Hfull.
    unfold eval_pass, lift. rewrite Eb. cbn [bind app].
    destruct (for_enum (eval_batch p s epoch split) 0 bs
                       {| total_iou := 0; images_list := images_list st; globals := globals st |})
      as [l r] eqn:E.
    cbn [fst].
    assert (El : l = fst (for_enum (eval_batch p s epoch split) 0 bs
                       {| total_iou := 0; images_list := images_list st; globals := globals st |}))
      by (rewrite E; reflexivity).
    rewrite El, eval_loop_reports; [| exact HB | | lia | lia].
    + cbn [total_iou globals]. unfold miou_denominator, ii. rewrite En. reflexivity.
    + intros b Hb Hnil. specialize (Hfull b Hb). subst b. simpl in Hfull. lia.
Qed.

(** C9, as amended: the test loader is built with the training batch size
    (testBatchSize plays no part) and its batches have that size; at the
    reporting boundary of the test pass the mean IoU is divided by
    ii * trainBatchSize + inputs.shape[0] while the printed count is
    ii * testBatchSize + inputs.shape[0]; with testBatchSize = 1 the two
    differ exactly when the training batch size is not 1 and the reporting
    batch is not the first of the pass (ii <> 0). *)
Theorem test_counts_differ_past_first_batch p cfg log0 s :
  assemble p cfg = (log0, Ok s) ->
  batch_size (testloader s) = trainBatchSize p /\
  In (MakeLoader "test" (trainBatchSize p) false true) log0 /\
  (forall e bs b, loader_batches e (testloader s) = Ok bs -> In b bs ->
                  Z.of_nat (length b) = trainBatchSize p) /\
  (forall epoch ii b st,
     num_img_ts s <> 0 -> 0 <= ii -> b <> [] ->
     ii mod num_img_ts s = num_img_ts s - 1 ->
     let shape0 := Z.of_nat (length b) in
     let log := fst (eval_batch p s epoch Test ii b st) in
     scalars "data/test_miour" log =
       [((total_iou st + get_iou (updates (globals st)) b) /
         inject_Z (miou_denominator p ii shape0))%Q] /\
     In (PrintNumImages "Test" epoch (test_printed_numImages p ii shape0)) log /\
     (testBatchSize p = 1 ->
      (test_printed_numImages p ii shape0 <> miou_denominator p ii shape0 <->
       trainBatchSize p <> 1 /\ ii <> 0))).
Proof.
  intros H.
  destruct (eval_pass_batches p cfg log0 s Test 0 H) as (HB & _ & _ & _).
  split; [| split; [| split]].
  - destruct (assemble_inv _ _ _ _ H) as (fv & ev & ft & et & _ & _ & _ & _ & -> & _).
    reflexivity.
  - destruct (assemble_inv _ _ _ _ H) as (fv & ev & ft & et & _ & _ & _ & _ & _ & ->).
    unfold assembly_events. rewrite !in_app_iff. simpl. tauto.
  - intros e bs b Hbs Hb.
    destruct (eval_pass_batches p cfg log0 s Test e H) as (_ & Eb & _ & Hfull).
    cbn [loader_of] in Eb. rewrite Eb in Hbs. inversion Hbs; subst bs.
    apply Hfull. exact Hb.
  - intros epoch ii b st Hn Hi Hb Hm shape0 log.
    destruct (eval_batch_boundary p s epoch Test ii b st Hn Hi HB Hb Hm) as [E Hp].
    split; [exact E |]. split; [exact (Hp eq_refl) |].
    intros Ht. unfold test_printed_numImages, miou_denominator. rewrite Ht. nia.
Qed.

(** * Further properties of the script *)

(** ** Reasoning about stages *)

Lemma snd_bind {A B : Type} (m : M A) (f : A -> M B) :
  snd (bind m f) = match snd m with Ok a => snd (f a) | Raise e => Raise e end.
Proof.
  destruct m as [l [a | e]]; simpl; [| reflexivity].
  destruct (f a); reflexivity.
Qed.

Lemma keeps_ret {A : Type} ok (R : A -> Prop) (x : A) : R x -> keeps ok R (ret x).
Proof. intros Hx. split; [reflexivity |]. intros y Hy. inversion Hy; subst. exact Hx. Qed.

Lemma keeps_bind {A B : Type} ok (RA : A -> Prop) (RB : B -> Prop) (m : M A) (f : A -> M B) :
  keeps ok RA m ->
  (forall x, snd m = Ok x -> RA x -> keeps ok RB (f x)) ->
  keeps ok RB (bind m f).
Proof.
  intros [Hl Hr] Hf. unfold keeps. rewrite fst_bind, snd_bind, forallb_app, Hl.
  destruct (snd m) as [x | e] eqn:E.
  - destruct (Hf x eq_refl (Hr x eq_refl)) as [Hl2 Hr2]. split; assumption.
  - split; [reflexivity | discriminate].
Qed.

Lemma keeps_tell {A B : Type} ok (RB : B -> Prop) (m : M A) (f : A -> M B) :
  forallb ok (fst m) = true ->
  (forall x, snd m = Ok x -> keeps ok RB (f x)) ->
  keeps ok RB (bind m f).
Proof.
  intros Hl Hf. apply (keeps_bind ok (fun _ => True) RB).
  - split; [exact Hl | auto].
  - intros x Hx _. apply Hf. exact Hx.
Qed.

Lemma keeps_for_enum {A S : Type} ok (R : S -> Prop) (body : Z -> A -> S -> M S) :
  (forall i x s, R s -> keeps ok R (body i x s)) ->
  forall l i s, R s -> keeps ok R (for_enum body i l s).
Proof.
  intros Hb. induction l as [| x l IH]; intros i s Hs; cbn [for_enum].
  - apply keeps_ret. exact Hs.
  - apply (keeps_bind ok R R); auto.
Qed.

Lemma keeps_for_each {A S : Type} ok (R : S -> Prop) (body : A -> S -> M S) :
  (forall x s, R s -> keeps ok R (body x s)) ->
  forall l s, R s -> keeps ok R (for_each body l s).
Proof.
  intros Hb. induction l as [| x l IH]; intros s Hs; cbn [for_each].
  - apply keeps_ret. exact Hs.
  - apply (keeps_bind ok R R); auto.
Qed.

(** ** Evaluation leaves training alone *)

Lemma eval_batch_keeps p s epoch split ii b g st :
  same_training_state g (globals st) ->
  keeps (fun e => negb (is_training_event e))
        (fun st' => same_training_state g (globals st'))
        (eval_batch p s epoch split ii b st).
Proof.
  intros H. unfold same_training_state in *.
  destruct split; unfold eval_batch, validation_batch, test_batch, lift, py_mod, py_truediv;
    repeat (match goal with
            | |- context [if ?c then _ else _] => destruct c
            end; cbn [bind tell ret raise fst snd app]);
    (split; [reflexivity |]); intros x Hx; inversion Hx; subst x; cbn; exact H.
Qed.

Lemma evaluate_keeps p s epoch g :
  keeps (fun e => negb (is_training_event e)) (same_training_state g)
        (evaluate p s epoch g).
Proof.
  assert (H0 : same_training_state g g) by (unfold same_training_state; auto 10).
  unfold evaluate.
  apply (keeps_bind _ (fun st => same_training_state g (globals st))).
  - apply keeps_for_each; [| exact H0].
    intros split st Hst. unfold eval_pass.
    apply keeps_tell; [reflexivity |]. intros bs _.
    apply (keeps_for_enum _ (fun st => same_training_state g (globals st))); [| exact Hst].
    intros i x st' Hst'. apply eval_batch_keeps. exact Hst'.
  - intros st _ Hst. apply keeps_ret. exact Hst.
Qed.

(** X1. An evaluation, whatever its outcome, logs no backward pass, no
    optimizer step, no zero_grad, no new optimizer, no scheduler step and no
    checkpoint; when it returns, the optimizer and scheduler, the weights,
    the accumulation counter, the global step and the running training loss
    are what they were. *)
Theorem evaluation_never_trains p s epoch g :
  forallb (fun e => negb (is_training_event e)) (fst (evaluate p s epoch g)) = true /\
  forall g', snd (evaluate p s epoch g) = Ok g' ->
             optim g' = optim g /\ sched g' = sched g /\ updates g' = updates g /\
             aveGrad g' = aveGrad g /\ global_step g' = global_step g /\
             running_loss_tr g' = running_loss_tr g.
Proof.
  destruct (evaluate_keeps p s epoch g) as [Hlog Hres].
  split; [exact Hlog |]. intros g' E. exact (Hres g' E).
Qed.

(** ** Outcomes of the assembly *)

Lemma rebind_unbound {A B : Type} (f : A -> B) (l : list A) :
  fold_left (fun _ d => Some (f d)) l None = None -> l = [].
Proof.
  destruct l as [| x l _] using rev_ind; [reflexivity |].
  rewrite rebind_last. discriminate.
Qed.

(** X2. What the assembly block does with an incomplete configuration.
    Without a training source nothing is opened and ConcatDataset fails its
    assertion.  Otherwise every configured data set is opened first; then a
    missing "synthetic" entry raises NameError for db_validation before any
    loader is made, a non-positive batch size raises ValueError at the first
    loader, and, the training set having items, a missing "real" entry
    raises NameError for db_test after the training and validation loaders
    have been made.  The block succeeds only if there is at least one entry
    of each kind and the batch size is positive, and it does succeed then
    when the training set has items.  (A training set without items is left
    aside: whether a shuffling loader accepts it depends on the library
    version.) *)
Theorem assembly_outcomes p cfg :
  let augs_train := [Resize (imsize p, imsize p) (InterpCode 0)] in
  let augs_test := [Resize (imsize p, imsize p) (InterpName "cubic")] in
  let opened :=
    map (fun d => OpenDataset (images d) (Some (labels d)) augs_train) (train_datasets cfg) ++
    map (fun d => OpenDataset (images d) (Some (labels d)) augs_train) (datasetsSynthetic cfg) ++
    map (fun d => OpenDataset (images d) None augs_test) (datasetsReal cfg) in
  let n_train :=
    dataset_len (ConcatDataset (map (train_subset cfg augs_train) (train_datasets cfg))) in
  (train_datasets cfg = [] -> assemble p cfg = ([], Raise AssertionError)) /\
  (train_datasets cfg <> [] -> datasetsSynthetic cfg = [] ->
   assemble p cfg = (opened, Raise (NameError "db_validation"))) /\
  (train_datasets cfg <> [] -> datasetsSynthetic cfg <> [] -> trainBatchSize p <= 0 ->
   assemble p cfg = (opened, Raise ValueError)) /\
  (train_datasets cfg <> [] -> datasetsSynthetic cfg <> [] -> 0 < trainBatchSize p ->
   0 < n_train -> datasetsReal cfg = [] ->
   assemble p cfg =
   (opened ++ [MakeLoader "train" (trainBatchSize p) true true;
               MakeLoader "validation" (trainBatchSize p) false true],
    Raise (NameError "db_test"))) /\
  (forall log s, assemble p cfg = (log, Ok s) ->
   train_datasets cfg <> [] /\ datasetsSynthetic cfg <> [] /\
   datasetsReal cfg <> [] /\ 0 < trainBatchSize p) /\
  (train_datasets cfg <> [] -> datasetsSynthetic cfg <> [] -> datasetsReal cfg <> [] ->
   0 < trainBatchSize p -> 0 < n_train ->
   exists log s, assemble p cfg = (log, Ok s)).
Proof.
  cbv zeta.
  assert (Hlast : forall (l : list DatasetEntry), l <> [] -> exists front x, l = front ++ [x]).
  { intros l Hl. destruct (exists_last Hl) as (front & x & ->). eauto. }
  split; [| split; [| split; [| split; [| split]]]].
  - intros E. unfold assemble, assemble_train.
    rewrite (bind_ok _ _ _ _ (add_train_sources _ _ _ _)). rewrite E. reflexivity.
  - intros Htr Hv.
    unfold assemble, assemble_train, assemble_validation, assemble_test.
    rewrite (bind_ok _ _ _ _ (add_train_sources _ _ _ _)).
    destruct (train_datasets cfg) as [| d ds] eqn:E; [congruence |].
    cbn [app map fst snd bind ret].
    rewrite (bind_ok _ _ _ _ (bind_validations _ _ _)). cbn [fst snd].
    rewrite (bind_ok _ _ _ _ (add_test_sources _ _ _)). cbn [fst snd app].
    rewrite Hv. simpl. rewrite !app_nil_r. reflexivity.
  - intros Htr Hv HB.
    unfold assemble, assemble_train, assemble_validation, assemble_test.
    rewrite (bind_ok _ _ _ _ (add_train_sources _ _ _ _)).
    destruct (train_datasets cfg) as [| d ds] eqn:E; [congruence |].
    cbn [app map fst snd bind ret].
    rewrite (bind_ok _ _ _ _ (bind_validations _ _ _)). cbn [fst snd].
    rewrite (bind_ok _ _ _ _ (add_test_sources _ _ _)). cbn [fst snd app].
    destruct (fold_left _ (datasetsSynthetic cfg) None) as [dbv |] eqn:F;
      [| apply rebind_unbound in F; congruence].
    unfold make_loader.
    replace (trainBatchSize p <=? 0) with true by (symmetry; apply Z.leb_le; lia).
    simpl. rewrite !app_nil_r. reflexivity.
  - intros Htr Hv HB _ Ht.
    unfold assemble, assemble_train, assemble_validation, assemble_test.
    rewrite (bind_ok _ _ _ _ (add_train_sources _ _ _ _)).
    destruct (train_datasets cfg) as [| d ds] eqn:E; [congruence |].
    cbn [app map fst snd bind ret].
    rewrite (bind_ok _ _ _ _ (bind_validations _ _ _)). cbn [fst snd].
    rewrite (bind_ok _ _ _ _ (add_test_sources _ _ _)). cbn [fst snd app].
    destruct (fold_left _ (datasetsSynthetic cfg) None) as [dbv |] eqn:F;
      [| apply rebind_unbound in F; congruence].
    rewrite Ht. unfold make_loader.
    replace (trainBatchSize p <=? 0) with false by (symmetry; apply Z.leb_gt; lia).
    simpl. rewrite !app_nil_r, <- !app_assoc. reflexivity.
  - intros log st H.
    destruct (assemble_inv _ _ _ _ H) as (fv & ev & ft & et & HB & Htr & Hv & Ht & _).
    repeat split; auto.
    + rewrite Hv. destruct fv; discriminate.
    + rewrite Ht. destruct ft; discriminate.
  - intros Htr Hv Ht HB _.
    destruct (Hlast _ Hv) as (fv & ev & Ev). destruct (Hlast _ Ht) as (ft & et & Et).
    destruct (assemble_ok p cfg fv ev ft et HB Htr Ev Et) as (log & H). eauto.
Qed.

(** ** The edges of the epoch range *)

Lemma py_range2_empty a b : b <= a -> py_range2 a b = [].
Proof.
  intros H. unfold py_range2, py_range.
  replace (Z.to_nat (b - a)) with 0%nat by lia. reflexivity.
Qed.

(** X3. Resuming (resume_epoch <> 0) without the checkpoint of epoch
    resume_epoch - 1 ends the script with FileNotFoundError once the network
    is built, before any data set is opened.  Otherwise (a fresh start, or
    the checkpoint is there and is loaded): when resume_epoch equals nEpochs
    the assembly block is skipped and no epoch runs, so the closing
    writer.close() finds no writer and the script ends with NameError
    without having opened a data set; when resume_epoch is beyond nEpochs
    and the data is assembled (the training set having items), no epoch runs
    and the script ends normally with its counters at zero. *)
Theorem resume_at_or_past_last_epoch checkpoint_exists p cfg l nw :
  network_definition p = (l, Ok nw) ->
  let loaded := if resume_epoch p =? 0 then [] else [LoadModel (resume_epoch p - 1)] in
  (resume_epoch p <> 0 -> checkpoint_exists (resume_epoch p - 1) = false ->
   main checkpoint_exists p cfg = (l, Raise FileNotFoundError)) /\
  (resume_epoch p = 0 \/ checkpoint_exists (resume_epoch p - 1) = true ->
   (resume_epoch p = nEpochs p ->
    main checkpoint_exists p cfg = (l ++ loaded, Raise (NameError "writer"))) /\
   (nEpochs p < resume_epoch p ->
    forall log s, assemble p cfg = (log, Ok s) -> 0 < dataset_len (db_train s) ->
    exists g, main checkpoint_exists p cfg = (l ++ loaded ++ log ++ [CloseWriter], Ok g) /\
              global_step g = 0 /\ aveGrad g = 0 /\ updates g = 0%nat /\
              optim g = optimizer nw)).
Proof.
  intros Hn loaded. split.
  - intros Hr Hc. unfold main, load_checkpoint. rewrite (bind_ok _ _ _ _ Hn).
    apply Z.eqb_neq in Hr. rewrite Hr, Hc. cbn [bind raise fst snd].
    rewrite app_nil_r. reflexivity.
  - intros Hload.
    assert (Hl : load_checkpoint checkpoint_exists p = (loaded, Ok tt)).
    { unfold load_checkpoint, loaded. destruct (resume_epoch p =? 0) eqn:E0; [reflexivity |].
      destruct Hload as [H0 | ->]; [| reflexivity].
      apply Z.eqb_neq in E0. contradiction. }
    split.
    + intros E. unfold main. rewrite (bind_ok _ _ _ _ Hn). cbn [fst snd].
      rewrite (bind_ok _ _ _ _ Hl). cbn [fst snd].
      rewrite E, Z.eqb_refl. cbn [negb]. rewrite py_range2_empty by lia.
      cbn. rewrite app_nil_r. reflexivity.
    + intros Hlt log s Ha _. unfold main. rewrite (bind_ok _ _ _ _ Hn). cbn [fst snd].
      rewrite (bind_ok _ _ _ _ Hl). cbn [fst snd].
      replace (resume_epoch p =? nEpochs p) with false by (symmetry; apply Z.eqb_neq; lia).
      cbn [negb]. rewrite py_range2_empty by lia. rewrite Ha.
      eexists. split; [cbn; rewrite ?app_nil_r; reflexivity |].
      cbn. auto.
Qed.

(** ** Batches as slices of the data *)

Lemma batch_sampler_split {A : Type} (B : Z) (l cur : list A) :
  0 < B -> Z.of_nat (length cur) < B ->
  exists rest,
    cur ++ l = concat (batch_sampler B true cur l) ++ rest /\
    Z.of_nat (length rest) = (Z.of_nat (length cur) + Z.of_nat (length l)) mod B.
Proof.
  intros HB. revert cur. induction l as [| x l IH]; intros cur Hcur.
  - exists cur. cbn [batch_sampler negb andb concat app length Z.of_nat].
    rewrite app_nil_r, Z.add_0_r, Z.mod_small by lia. auto.
  - cbn [batch_sampler].
    destruct (Z.of_nat (length (cur ++ [x])) =? B) eqn:E.
    + apply Z.eqb_eq in E. destruct (IH [] ltac:(simpl; lia)) as (rest & Hsplit & Hlen).
      exists rest. cbn [concat]. split.
      * rewrite <- app_assoc, <- Hsplit. cbn [app]. rewrite <- app_assoc. reflexivity.
      * rewrite Hlen. rewrite length_app in E. cbn [length] in *.
        replace (Z.of_nat (length cur) + Z.of_nat (S (length l)))
          with (Z.of_nat 0 + Z.of_nat (length l) + 1 * B) by lia.
        rewrite Z.mod_add by lia. reflexivity.
    + apply Z.eqb_neq in E. rewrite length_app in E. cbn [length] in E.
      destruct (IH (cur ++ [x]) ltac:(rewrite length_app; simpl; lia))
        as (rest & Hsplit & Hlen).
      exists rest. split.
      * rewrite <- Hsplit, <- app_assoc. reflexivity.
      * rewrite Hlen, length_app. cbn [length]. f_equal. lia.
Qed.

(** X4. The validation and the test loader do not shuffle: the batches of a
    pass, laid end to end, are the leading part of the data set in its own
    order, and the n mod B items that follow are in no batch; being the same
    in every epoch, they are never evaluated. *)
Theorem evaluation_batches_are_leading_slices p cfg log0 s :
  assemble p cfg = (log0, Ok s) ->
  forall split epoch,
  exists bs dropped,
    loader_batches epoch (loader_of s split) = Ok bs /\
    alphapilot_items (source_of s split) = concat bs ++ dropped /\
    Z.of_nat (length dropped) =
      Z.of_nat (length (alphapilot_items (source_of s split))) mod trainBatchSize p.
Proof.
  intros H split epoch.
  destruct (eval_pass_batches p cfg log0 s split epoch H) as (HB & Eb & _ & _).
  destruct (batch_sampler_split (trainBatchSize p)
                                (alphapilot_items (source_of s split)) [] HB ltac:(simpl; lia))
    as (rest & Hsplit & Hlen).
  eexists. exists rest. split; [exact Eb |]. split; [exact Hsplit |].
  exact Hlen.
Qed.

(** ** Evaluation passes, batch by batch *)

Lemma eval_batch_inner_eq p s epoch split ii b st :
  num_img s split <> 0 -> b <> [] ->
  ii mod num_img s split <> num_img s split - 1 ->
  eval_batch p s epoch split ii b st =
  (match split with Validation => [] | Test => [SaveTestImg ii] end,
   Ok (mkEvalState (total_iou st + get_iou (updates (globals st)) b)%Q
                   (images_list st)
                   (add_eval_loss split (loss_eval (updates (globals st)) b) (globals st)))).
Proof.
  intros Hn Hb Hm.
  assert (H1 : (Z.of_nat (length b) <? 1) = false).
  { apply Z.ltb_ge. destruct b; [congruence | cbn [length]; lia]. }
  apply Z.eqb_neq in Hn, Hm.
  destruct split; unfold eval_batch, validation_batch, test_batch, lift, py_mod;
    cbn [num_img] in Hn, Hm; rewrite Hn, ?H1;
    cbn [bind tell fst snd app]; rewrite Hm; reflexivity.
Qed.

Lemma test_batch_boundary_eq p s epoch ii b st :
  num_img_ts s <> 0 -> 0 <= ii -> 0 < trainBatchSize p -> b <> [] ->
  ii mod num_img_ts s = num_img_ts s - 1 ->
  let g := add_eval_loss Test (loss_eval (updates (globals st)) b) (globals st) in
  let total := (total_iou st + get_iou (updates (globals st)) b)%Q in
  let shape0 := Z.of_nat (length b) in
  eval_batch p s epoch Test ii b st =
  ([SaveTestImg ii;
    PrintNumImages "Test" epoch (test_printed_numImages p ii shape0);
    AddScalar "data/test_loss_epoch" (running_loss_ts g / inject_Z (num_img_ts s))
              (global_step g);
    AddScalar "data/test_miour" (total / inject_Z (miou_denominator p ii shape0))
              (global_step g);
    AddImage "Test" (images_list st + 1) (global_step g)],
   Ok (mkEvalState total (images_list st + 1) (clear_eval_loss Test g))).
Proof.
  intros Hn Hi HB Hb Hm g total shape0.
  destruct (denominator_positive p ii b Hi HB Hb) as [Hd H1]. fold shape0 in Hd, H1.
  assert (Ed : (miou_denominator p ii shape0 =? 0) = false) by (apply Z.eqb_neq; lia).
  apply Z.eqb_neq in Hn. apply Z.eqb_eq in Hm.
  unfold eval_batch, test_batch, lift, py_mod, py_truediv. fold shape0.
  replace (shape0 <? 1) with false by (symmetry; apply Z.ltb_ge; lia).
  rewrite Hn. cbn [bind tell fst snd app]. rewrite Hm, Ed. reflexivity.
Qed.

Lemma validation_batch_boundary_eq p s epoch ii b st :
  num_img_val s <> 0 -> 0 <= ii -> 0 < trainBatchSize p -> b <> [] ->
  ii mod num_img_val s = num_img_val s - 1 ->
  let g := add_eval_loss Validation (loss_eval (updates (globals st)) b) (globals st) in
  let total := (total_iou st + get_iou (updates (globals st)) b)%Q in
  let shape0 := Z.of_nat (length b) in
  let reported :=
    [PrintNumImages "Validation" epoch (ii * trainBatchSize p + shape0);
     AddScalar "data/val_loss_epoch" (running_loss_val g / inject_Z (num_img_val s))
               (global_step g);
     AddScalar "data/val_miour" (total / inject_Z (miou_denominator p ii shape0))
               (global_step g)] in
  eval_batch p s epoch Validation ii b st =
  if shape0 <? 2 then (reported, Raise IndexError)
  else (reported ++ [AddImage "Validation" 2 (global_step g)],
        Ok (mkEvalState total 2 (clear_eval_loss Validation g))).
Proof.
  intros Hn Hi HB Hb Hm g total shape0 reported.
  destruct (denominator_positive p ii b Hi HB Hb) as [Hd H1]. fold shape0 in Hd, H1.
  assert (Ed : (miou_denominator p ii shape0 =? 0) = false) by (apply Z.eqb_neq; lia).
  apply Z.eqb_neq in Hn. apply Z.eqb_eq in Hm.
  unfold eval_batch, validation_batch, lift, py_mod, py_truediv. fold shape0.
  rewrite Hn. cbn [bind tell fst snd app]. rewrite Hm, Ed.
  cbn [bind tell fst snd app].
  destruct (shape0 <? 2); reflexivity.
Qed.

Lemma saved_test_images_app l1 l2 :
  saved_test_images (l1 ++ l2) = saved_test_images l1 ++ saved_test_images l2.
Proof.
  induction l1 as [| e l1 IH]; [reflexivity |].
  destruct e; simpl; congruence.
Qed.

Lemma grids_app tag l1 l2 : grids tag (l1 ++ l2) = grids tag l1 ++ grids tag l2.
Proof.
  induction l1 as [| e l1 IH]; [reflexivity |].
  destruct e as [| | | | | t n k | | | | | | | | |]; simpl; auto.
  destruct (t =? tag)%string; simpl; congruence.
Qed.

Lemma indices_from (i : Z) (n : nat) :
  map (fun j => i + Z.of_nat j) (seq 0 (S n)) =
  i :: map (fun j => i + 1 + Z.of_nat j) (seq 0 n).
Proof.
  cbn [seq map]. rewrite Z.add_0_r. f_equal.
  rewrite <- seq_shift, map_map. apply map_ext. intros j. lia.
Qed.

(** A pass that reaches its last batch without an exception: the test pass
    always, the validation pass when a batch holds at least two items. *)
Lemma eval_loop_ok p s epoch split bs :
  0 < trainBatchSize p ->
  (split = Validation -> 2 <= trainBatchSize p) ->
  (forall b, In b bs -> Z.of_nat (length b) = trainBatchSize p) ->
  forall i st,
    0 <= i -> i + Z.of_nat (length bs) = num_img s split ->
    exists log st',
      for_enum (eval_batch p s epoch split) i bs st = (log, Ok st') /\
      saved_test_images log =
        match split with
        | Test => map (fun j => i + Z.of_nat j) (seq 0 (length bs))
        | Validation => []
        end /\
      grids (grid_tag split) log =
        match bs with
        | [] => []
        | _ => [match split with Validation => 2 | Test => images_list st + 1 end]
        end /\
      (forall tag, tag <> grid_tag split -> grids tag log = []) /\
      images_list st' =
        match bs with
        | [] => images_list st
        | _ => match split with Validation => 2 | Test => images_list st + 1 end
        end /\
      (bs <> [] -> eval_loss split (globals st') = 0%Q) /\
      same_training_state (globals st) (globals st').
Proof.
  intros HB H2 . induction bs as [| b bs IH]; intros Hfull i st Hi Hlen.
  - exists [], st. cbn [for_enum ret]. destruct split; repeat split; auto; congruence.
  - assert (Hb : Z.of_nat (length b) = trainBatchSize p) by (apply Hfull; simpl; auto).
    assert (Hne : b <> []) by (intros ->; simpl in Hb; lia).
    assert (Hn : num_img s split <> 0) by (cbn [length] in Hlen; lia).
    cbn [for_enum]. destruct bs as [| b' bs].
    + assert (Hm : i mod num_img s split = num_img s split - 1).
      { cbn [length] in Hlen. rewrite Z.mod_small; lia. }
      destruct split.
      * rewrite (validation_batch_boundary_eq p s epoch i b st Hn Hi HB Hne Hm).
        rewrite Hb. replace (trainBatchSize p <? 2) with false
          by (symmetry; apply Z.ltb_ge; apply H2; reflexivity).
        eexists. eexists. cbn [bind for_enum ret fst snd app]. split; [reflexivity |].
        split; [reflexivity |]. split; [reflexivity |].
        split; [| split; [reflexivity | split; [reflexivity |]]].
        -- intros tag Ht. cbn [grid_tag] in Ht. cbn [grids app].
           destruct (String.eqb_spec "Validation" tag) as [E | E];
             [congruence | reflexivity].
        -- unfold same_training_state. cbn. auto 10.
      * rewrite (test_batch_boundary_eq p s epoch i b st Hn Hi HB Hne Hm).
        eexists. eexists. cbn [bind for_enum ret fst snd app]. split; [reflexivity |].
        split; [cbn; rewrite Z.add_0_r; reflexivity |]. split; [reflexivity |].
        split; [| split; [reflexivity | split; [reflexivity |]]].
        -- intros tag Ht. cbn [grid_tag] in Ht. cbn [grids app].
           destruct (String.eqb_spec "Test" tag) as [E | E];
             [congruence | reflexivity].
        -- unfold same_training_state. cbn. auto 10.
    + assert (Hm : i mod num_img s split <> num_img s split - 1).
      { cbn [length] in Hlen. rewrite Z.mod_small; lia. }
      rewrite (eval_batch_inner_eq p s epoch split i b st Hn Hne Hm).
      cbn [bind].
      destruct (IH ltac:(intros x Hx; apply Hfull; simpl; auto) (i + 1)
                   (mkEvalState (total_iou st + get_iou (updates (globals st)) b)%Q
                                (images_list st)
                                (add_eval_loss split (loss_eval (updates (globals st)) b)
                                               (globals st)))
                   ltac:(lia) ltac:(cbn [length] in *; lia))
        as (log & st' & E & Hs & Hg & Hg' & Hi' & Hl & Hsame).
      rewrite E. eexists. eexists. split; [reflexivity |].
      rewrite saved_test_images_app, grids_app, Hs, Hg.
      cbn [images_list] in *.
      split; [| split; [| split; [| split; [| split]]]].
      * destruct split; [reflexivity |].
        exact (eq_sym (indices_from i (length (b' :: bs)))).
      * destruct split; reflexivity.
      * intros tag Ht. rewrite grids_app, (Hg' tag Ht). destruct split; reflexivity.
      * exact Hi'.
      * intros _. apply Hl. discriminate.
      * unfold same_training_state in *. destruct split; cbn in Hsame |- *; exact Hsame.
Qed.

Lemma validation_loop_fails p s epoch bs :
  trainBatchSize p = 1 ->
  (forall b, In b bs -> Z.of_nat (length b) = 1) ->
  bs <> [] ->
  forall i st,
    0 <= i -> i + Z.of_nat (length bs) = num_img_val s ->
    exists log,
      for_enum (eval_batch p s epoch Validation) i bs st = (log, Raise IndexError) /\
      length (scalars "data/val_miour" log) = 1%nat /\
      saved_test_images log = [] /\
      grids "Validation" log = [].
Proof.
  intros HB. induction bs as [| b bs IH]; intros Hfull Hne i st Hi Hlen; [congruence |].
  assert (Hb : Z.of_nat (length b) = 1) by (apply Hfull; simpl; auto).
  assert (Hbne : b <> []) by (intros ->; simpl in Hb; lia).
  assert (Hn : num_img s Validation <> 0) by (cbn [length num_img] in *; lia).
  cbn [for_enum]. destruct bs as [| b' bs].
  - assert (Hm : i mod num_img_val s = num_img_val s - 1).
    { cbn [length] in Hlen. rewrite Z.mod_small; lia. }
    rewrite (validation_batch_boundary_eq p s epoch i b st Hn Hi ltac:(lia) Hbne Hm).
    rewrite Hb. cbn [Z.ltb Z.compare Pos.compare Pos.compare_cont].
    eexists. cbn [bind]. split; [reflexivity |]. cbn. auto.
  - assert (Hm : i mod num_img s Validation <> num_img s Validation - 1).
    { cbn [length num_img] in *. rewrite Z.mod_small; lia. }
    rewrite (eval_batch_inner_eq p s epoch Validation i b st Hn Hbne Hm). cbn [bind].
    destruct (IH ltac:(intros x Hx; apply Hfull; simpl; auto) ltac:(discriminate) (i + 1)
                 (mkEvalState (total_iou st + get_iou (updates (globals st)) b)%Q
                              (images_list st)
                              (add_eval_loss Validation (loss_eval (updates (globals st)) b)
                                             (globals st)))
                 ltac:(lia) ltac:(cbn [length] in *; lia))
      as (log & E & Hs & Hsv & Hg).
    rewrite E. eexists. split; [reflexivity |]. cbn [app]. auto.
Qed.

(** X5. With a batch size of 1 and a validation set that is not empty,
    every evaluation stops with IndexError at the reporting boundary of the
    validation pass: the two-item grid reads item 1 of a one-item batch.
    The validation scalars have been logged by then; no grid is sent and the
    test pass does not start. *)
Theorem batch_size_one_breaks_validation p cfg log0 s :
  assemble p cfg = (log0, Ok s) ->
  trainBatchSize p = 1 ->
  listdir (input_dir (db_validation s)) <> [] ->
  forall epoch g,
  exists log,
    evaluate p s epoch g = (log, Raise IndexError) /\
    length (scalars "data/val_miour" log) = 1%nat /\
    saved_test_images log = [] /\
    grids "Validation" log = [].
Proof.
  intros H HB Hne epoch g.
  destruct (eval_pass_batches p cfg log0 s Validation epoch H) as (_ & Eb & En & Hfull).
  set (bs := batch_sampler (trainBatchSize p) true []
                           (alphapilot_items (source_of s Validation))) in *.
  assert (Hbs : bs <> []).
  { intros E. rewrite E in En. cbn [length Z.of_nat num_img] in En.
    pose proof (batch_sampler_length (trainBatchSize p)
                  (alphapilot_items (source_of s Validation)) [] ltac:(lia) ltac:(simpl; lia))
      as Hl.
    fold bs in Hl. rewrite E, HB, Z.div_1_r in Hl. cbn [length Z.of_nat source_of] in Hl.
    unfold alphapilot_items in Hl. rewrite length_map in Hl.
    destruct (listdir (input_dir (db_validation s))); [congruence | simpl in Hl; lia]. }
  destruct (validation_loop_fails p s epoch bs HB
              ltac:(intros b Hb; rewrite (Hfull b Hb); exact HB) Hbs 0
              (mkEvalState 0 0 g) ltac:(lia) ltac:(cbn [num_img] in En; lia))
    as (log & E & Hs & Hsv & Hg).
  exists log. unfold evaluate. cbn [for_each]. unfold eval_pass at 1.
  rewrite Eb. unfold lift. cbn [bind app images_list globals].
  rewrite E. cbn [bind]. auto.
Qed.

(** X6. With a batch size of at least 2 an evaluation always returns and
    leaves the training state as it was.  The test pass calls save_test_img
    once for every batch, in order, not only at its end.  The validation
    pass sends one grid of two items; the grid of the test pass is built on
    the same list, which is not emptied in between, so it carries three
    items (one when the validation pass had no batch). *)
Theorem evaluation_completes p cfg log0 s :
  assemble p cfg = (log0, Ok s) ->
  2 <= trainBatchSize p ->
  forall epoch g,
  exists log g',
    evaluate p s epoch g = (log, Ok g') /\
    same_training_state g g' /\
    saved_test_images log = py_range (num_img_ts s) /\
    grids "Validation" log = (if num_img_val s =? 0 then [] else [2]) /\
    grids "Test" log =
      (if num_img_ts s =? 0 then [] else [if num_img_val s =? 0 then 1 else 3]).
Proof.
  intros H HB epoch g.
  destruct (eval_pass_batches p cfg log0 s Validation epoch H) as (_ & Ebv & Env & Hfv).
  destruct (eval_pass_batches p cfg log0 s Test epoch H) as (_ & Ebt & Ent & Hft).
  set (bv := batch_sampler (trainBatchSize p) true []
                           (alphapilot_items (source_of s Validation))) in *.
  set (bt := batch_sampler (trainBatchSize p) true []
                           (alphapilot_items (source_of s Test))) in *.
  destruct (eval_loop_ok p s epoch Validation bv ltac:(lia) ltac:(intros _; exact HB) Hfv 0
                         (mkEvalState 0 0 g) ltac:(lia) ltac:(lia))
    as (l1 & st1 & E1 & Hs1 & Hg1 & Ho1 & Hi1 & _ & Hsame1).
  destruct (eval_loop_ok p s epoch Test bt ltac:(lia) ltac:(discriminate) Hft 0
                         (mkEvalState 0 (images_list st1) (globals st1)) ltac:(lia) ltac:(lia))
    as (l2 & st2 & E2 & Hs2 & Hg2 & Ho2 & Hi2 & _ & Hsame2).
  exists (l1 ++ l2), (globals st2).
  unfold evaluate. cbn [for_each]. unfold eval_pass.
  rewrite Ebv, Ebt. unfold lift.
  cbn [bind app images_list globals]. rewrite E1. cbn [bind app images_list globals].
  rewrite E2. cbn [bind ret fst snd app]. rewrite !app_nil_r.
  split; [reflexivity |].
  cbn [globals images_list grid_tag] in *.
  split; [| split; [| split]].
  - unfold same_training_state in *. intuition congruence.
  - rewrite saved_test_images_app, Hs1, Hs2. cbn [app num_img] in *.
    unfold py_range. rewrite Ent, Nat2Z.id. apply map_ext. intros j. lia.
  - rewrite grids_app, Hg1, (Ho2 "Validation" ltac:(discriminate)), app_nil_r.
    cbn [num_img] in Env. rewrite Env.
    destruct bv; reflexivity.
  - rewrite grids_app, (Ho1 "Test" ltac:(discriminate)), Hg2. cbn [app num_img] in *.
    rewrite Ent, Env, Hi1. destruct bt; [reflexivity |]. destruct bv; reflexivity.
Qed.

(** ** A data set smaller than a batch *)

(** X7. When the training set holds fewer items than the batch size, the
    loader's length is 0 and an epoch's training loop processes no batch:
    it logs nothing, changes nothing and raises nothing, although the loop
    body would divide by that length. *)
Theorem small_training_set_trains_nothing p cfg log0 s items :
  assemble p cfg = (log0, Ok s) ->
  dataset_items (db_train s) = Ok items ->
  Z.of_nat (length items) < trainBatchSize p ->
  num_img_tr s = 0 /\
  forall epoch g, train_epoch p s epoch g = ([], Ok g).
Proof.
  intros H Hit Hsmall.
  destruct (assemble_inv _ _ _ _ H) as (fv & ev & ft & et & HB & Htr & Hv & Ht & -> & _).
  assert (Hpass : forall epoch,
             loader_batches epoch (trainloader (assembled p cfg ev et)) = Ok [] /\
             loader_len (trainloader (assembled p cfg ev et)) = 0).
  { intros epoch.
    destruct (loader_pass (trainloader (assembled p cfg ev et)) epoch items eq_refl HB Hit)
      as (bs & E1 & E2 & E3 & _).
    change (batch_size (trainloader (assembled p cfg ev et))) with (trainBatchSize p) in E2.
    rewrite Z.div_small in E2 by lia.
    destruct bs; [| simpl in E2; lia]. split; [exact E1 | rewrite E3; reflexivity]. }
  split.
  - exact (proj2 (Hpass 0)).
  - intros epoch g. unfold train_epoch. rewrite (proj1 (Hpass epoch)). reflexivity.
Qed.

(** ** Counting batches and updates over the whole script *)

Lemma advances_ret {A : Type} w (proj : A -> Z) (x : A) : advances w proj (proj x) (ret x).
Proof. intros y Hy. inversion Hy; subst. cbn. lia. Qed.

Lemma count_app w l1 l2 : count w (l1 ++ l2) = count w l1 + count w l2.
Proof. unfold count. rewrite filter_app, length_app. lia. Qed.

Lemma advances_bind {A B : Type} w (pa : A -> Z) (pb : B -> Z) a (m : M A) (f : A -> M B) :
  advances w pa a m ->
  (forall x, snd m = Ok x -> advances w pb (pa x) (f x)) ->
  advances w pb a (bind m f).
Proof.
  intros Hm Hf y. rewrite snd_bind, fst_bind, count_app.
  destruct m as [l1 [x | e]]; cbn [fst snd] in *; [| discriminate].
  intros Hy. pose proof (Hf x eq_refl y Hy) as H1. pose proof (Hm x eq_refl) as H2.
  cbn [fst snd] in *. lia.
Qed.

Lemma advances_silent {A B : Type} w (pb : B -> Z) a (m : M A) (f : A -> M B) :
  count w (fst m) = 0 ->
  (forall x, snd m = Ok x -> advances w pb a (f x)) ->
  advances w pb a (bind m f).
Proof.
  intros Hq Hf. apply (advances_bind w (fun _ => a) pb a).
  - intros x _. rewrite Hq. lia.
  - exact Hf.
Qed.

Lemma advances_for_enum {A S : Type} w (proj : S -> Z) (body : Z -> A -> S -> M S) :
  (forall i x s, advances w proj (proj s) (body i x s)) ->
  forall l i s, advances w proj (proj s) (for_enum body i l s).
Proof.
  intros Hb. induction l as [| x l IH]; intros i s; cbn [for_enum].
  - apply advances_ret.
  - apply (advances_bind w proj proj); auto.
Qed.

Lemma advances_for_each {A S : Type} w (proj : S -> Z) (body : A -> S -> M S) :
  (forall x s, advances w proj (proj s) (body x s)) ->
  forall l s, advances w proj (proj s) (for_each body l s).
Proof.
  intros Hb. induction l as [| x l IH]; intros s; cbn [for_each].
  - apply advances_ret.
  - apply (advances_bind w proj proj); auto.
Qed.

Lemma quiet_count w l :
  (forall e, w e = true -> (is_step e || is_backward e) = true) ->
  quiet l = true -> count w l = 0.
Proof.
  intros Hw. unfold count. induction l as [| e l IH]; [reflexivity |].
  cbn [quiet forallb filter]. intros H. apply andb_prop in H as [He Hl].
  destruct (w e) eqn:E.
  - rewrite (Hw e E) in He. discriminate.
  - apply IH. exact Hl.
Qed.

Lemma untrained_quiet l :
  forallb (fun e => negb (is_training_event e)) l = true -> quiet l = true.
Proof.
  unfold quiet. induction l as [| e l IH]; [reflexivity |].
  cbn [forallb]. intros H. apply andb_prop in H as [He Hl].
  rewrite (IH Hl), andb_true_r. destruct e; try reflexivity; discriminate.
Qed.

Section Counting.

(** A kind of training event and a counter of the loop state that only a
    training batch moves. *)
Variable w : Event -> bool.
Variable proj : Globals -> Z.
Hypothesis w_training : forall e, w e = true -> (is_step e || is_backward e) = true.
Hypothesis proj_steady : forall g g', same_training_state g g' -> proj g' = proj g.
Hypothesis proj_optim : forall o g, proj (set_optim o g) = proj g.
Hypothesis proj_sched : forall sc g, proj (scheduler_step sc g) = proj g.
Hypothesis proj_init : forall o sc, proj (mkGlobals o sc 0 0 0 0 0 0) = 0.
Hypothesis batch_advances :
  forall p n epoch ii b g,
    0 < nAveGrad p -> advances w proj (proj g) (train_batch p n epoch ii b g).

Lemma advances_leaf l (r : Result Globals) a :
  quiet l = true -> (forall x, r = Ok x -> proj x = a) -> advances w proj a (l, r).
Proof.
  intros Hq Hr x Hx. cbn [fst snd] in *.
  rewrite (quiet_count w l w_training Hq), (Hr x Hx). lia.
Qed.

Lemma adjust_learning_rate_advances p epoch g :
  advances w proj (proj g) (adjust_learning_rate p epoch g).
Proof.
  unfold adjust_learning_rate, lift, py_mod.
  destruct (Model p =? "unet")%string.
  - destruct (sched g) as [sc |]; cbn [lookup bind ret raise tell fst snd app];
      (apply advances_leaf; [reflexivity |]); intros x Hx; inversion Hx; subst x.
    apply proj_sched.
  - destruct (epoch_size p =? 0); cbn [bind fst snd app];
      [apply advances_leaf; [reflexivity | discriminate] |].
    destruct (epoch mod epoch_size p =? epoch_size p - 1); cbn [bind tell ret fst snd app];
      (apply advances_leaf; [reflexivity |]); intros x Hx; inversion Hx; subst x;
      [apply proj_optim | reflexivity].
Qed.

Lemma train_epoch_advances p s epoch g :
  0 < nAveGrad p -> advances w proj (proj g) (train_epoch p s epoch g).
Proof.
  intros HW. unfold train_epoch. apply advances_silent; [reflexivity |].
  intros bs _. apply advances_for_enum. intros i x g'. apply batch_advances. exact HW.
Qed.

Lemma evaluate_advances p s epoch g :
  advances w proj (proj g) (evaluate p s epoch g).
Proof.
  destruct (evaluate_keeps p s epoch g) as [Hlog Hres].
  intros g' E. rewrite (proj_steady g g' (Hres g' E)).
  rewrite (quiet_count w _ w_training (untrained_quiet _ Hlog)). lia.
Qed.

Lemma run_epoch_advances p s epoch g :
  0 < nAveGrad p -> advances w proj (proj g) (run_epoch p s epoch g).
Proof.
  intros HW. unfold run_epoch.
  apply (advances_bind w proj proj); [apply adjust_learning_rate_advances |].
  intros g1 _.
  apply (advances_bind w proj proj); [apply train_epoch_advances; exact HW |].
  intros g2 _.
  apply advances_silent; [reflexivity |]. intros r _.
  apply advances_silent.
  { apply quiet_count; [exact w_training |]. destruct (r =? snapshot p - 1); reflexivity. }
  intros _ _.
  destruct (useTest p); [| apply advances_ret].
  apply advances_silent; [reflexivity |]. intros r' _.
  destruct (r' =? nTestInterval p - 1); [apply evaluate_advances | apply advances_ret].
Qed.

Lemma main_advances checkpoint_exists p cfg :
  0 < nAveGrad p -> advances w proj 0 (main checkpoint_exists p cfg).
Proof.
  intros HW. unfold main.
  apply advances_silent;
    [apply quiet_count; [exact w_training | apply network_definition_quiet] |].
  intros nw _.
  apply advances_silent;
    [apply quiet_count; [exact w_training | apply load_checkpoint_quiet] |].
  intros _ _.
  apply advances_silent.
  { apply quiet_count; [exact w_training |].
    destruct (negb (resume_epoch p =? nEpochs p)); [| reflexivity].
    apply quiet_bind; [apply assemble_quiet | reflexivity]. }
  intros s _. cbv zeta.
  apply (advances_bind w proj proj).
  - pose proof (advances_for_each w proj
                  (fun epoch g => s' <- lookup "trainloader" s ;; run_epoch p s' epoch g))
      as Hloop.
    specialize (Hloop
                  (fun epoch g =>
                     advances_silent w proj (proj g) (lookup "trainloader" s)
                       (fun s' => run_epoch p s' epoch g)
                       (quiet_count w _ w_training (lookup_quiet "trainloader" s))
                       (fun s' _ => run_epoch_advances p s' epoch g HW))
                  (py_range2 (resume_epoch p) (nEpochs p))
                  (mkGlobals (optimizer nw) (exp_lr_scheduler nw) 0 0 0 0 0 0)).
    rewrite proj_init in Hloop. exact Hloop.
  - intros g _.
    apply advances_silent;
      [apply quiet_count; [exact w_training | apply lookup_quiet] |]. intros _ _.
    apply advances_silent; [apply quiet_count; [exact w_training | reflexivity] |].
    intros _ _. apply advances_ret.
Qed.

End Counting.

(** What a training batch has done when it returns. *)
Lemma train_batch_returns p n epoch ii b g x :
  0 < nAveGrad p ->
  snd (train_batch p n epoch ii b g) = Ok x ->
  global_step x = global_step g + 1 /\
  count_backward (fst (train_batch p n epoch ii b g)) = 1 /\
  Z.of_nat (updates x) =
    Z.of_nat (updates g) + count_steps (fst (train_batch p n epoch ii b g)).
Proof.
  intros HW Hx. destruct (Model p =? "unet")%string eqn:HM.
  { rewrite (train_batch_unet p n epoch ii b g HM) in Hx. discriminate. }
  destruct (Z.eq_dec n 0) as [-> | Hn].
  { unfold train_batch in Hx. rewrite HM in Hx. discriminate. }
  destruct (train_batch_outcome p n epoch ii b g ltac:(lia) Hn HM)
    as (g' & log & E & _ & Hg & _ & _ & _ & Hcase & _ & Hb).
  rewrite E in Hx |- *. cbn [fst snd] in *.
  destruct (_ && _); [discriminate |]. inversion Hx; subst x.
  split; [exact Hg |]. split; [exact Hb |].
  destruct Hcase as [(_ & Hc & _ & Hu & _) | (_ & Hc & _ & Hu & _)]; rewrite Hc, Hu; lia.
Qed.

(** X8. When the script ends normally, the global step equals the number
    of backward passes in its log: it is incremented once per processed
    training batch, over all epochs, and nothing resets it.  The number of
    parameter updates equals the number of optimizer steps logged, which is
    the global step div nAveGrad. *)
Theorem global_step_counts_batches checkpoint_exists p cfg g :
  0 < nAveGrad p ->
  snd (main checkpoint_exists p cfg) = Ok g ->
  global_step g = count_backward (fst (main checkpoint_exists p cfg)) /\
  Z.of_nat (updates g) = count_steps (fst (main checkpoint_exists p cfg)) /\
  Z.of_nat (updates g) = global_step g / nAveGrad p.
Proof.
  intros HW E.
  assert (Hgs : global_step g = 0 + count is_backward (fst (main checkpoint_exists p cfg))).
  { apply (main_advances is_backward global_step); try assumption; try reflexivity.
    - intros e He. rewrite He. apply orb_true_r.
    - intros g0 g1 H. apply H.
    - intros p' n epoch ii b g0 HW' x Hx.
      destruct (train_batch_returns p' n epoch ii b g0 x HW' Hx) as (Hg & Hb & _).
      change (count is_backward (fst (train_batch p' n epoch ii b g0)))
        with (count_backward (fst (train_batch p' n epoch ii b g0))). lia. }
  assert (Hup : Z.of_nat (updates g) = 0 + count is_step (fst (main checkpoint_exists p cfg))).
  { apply (main_advances is_step (fun g => Z.of_nat (updates g))); try assumption;
      try reflexivity.
    - intros e He. rewrite He. reflexivity.
    - intros g0 g1 H. f_equal. apply H.
    - intros p' n epoch ii b g0 HW' x Hx.
      destruct (train_batch_returns p' n epoch ii b g0 x HW' Hx) as (_ & _ & Hu).
      change (count is_step (fst (train_batch p' n epoch ii b g0)))
        with (count_steps (fst (train_batch p' n epoch ii b g0))). lia. }
  change (count is_backward (fst (main checkpoint_exists p cfg))) with (count_backward (fst (main checkpoint_exists p cfg))) in Hgs.
  change (count is_step (fst (main checkpoint_exists p cfg))) with (count_steps (fst (main checkpoint_exists p cfg))) in Hup.
  destruct (main_tracks checkpoint_exists p cfg HW) as (_ & Hc & _). rewrite Z.add_0_l in Hc.
  split; [lia |]. split; [lia |]. rewrite Hgs, Z.add_0_l, <- Hc. lia.
Qed.

(** ** The loss reported for an epoch *)

Lemma train_batch_loss_facts p n epoch ii b g :
  nAveGrad p <> 0 -> n <> 0 ->
  (Model p =? "unet")%string = false -> length b <> 1%nat ->
  exists log g',
    train_batch p n epoch ii b g = (log, Ok g') /\
    (if ii mod n =? n - 1
     then scalars "data/total_loss_epoch" log =
            [((running_loss_tr g + loss_train (updates g) b) / inject_Z n)%Q] /\
          running_loss_tr g' = 0%Q
     else scalars "data/total_loss_epoch" log = [] /\
          running_loss_tr g' = (running_loss_tr g + loss_train (updates g) b)%Q) /\
    (if (aveGrad g + 1) mod nAveGrad p =? 0
     then aveGrad g' = 0 /\ updates g' = S (updates g)
     else aveGrad g' = aveGrad g + 1 /\ updates g' = updates g).
Proof.
  intros HW Hn HM Hone. destruct (plot_period_nonzero n Hn) as [Hp Hq].
  assert (H1 : (Z.of_nat (length b) =? 1) = false) by (apply Z.eqb_neq; lia).
  apply Z.eqb_neq in HW, Hn, Hp, Hq.
  unfold train_batch, lift, py_mod, py_floordiv, py_truediv.
  rewrite HM, H1, Hn, Hp, HW.
  cbn [bind tell ret fst snd app].
  rewrite Hq.
  destruct (ii mod n =? n - 1);
    cbn [bind tell ret fst snd app set_aveGrad set_running_loss_tr set_global_step
         aveGrad global_step running_loss_tr optimizer_step updates optim sched];
    destruct ((aveGrad g + 1) mod nAveGrad p =? 0);
    cbn [bind tell ret fst snd app set_aveGrad set_running_loss_tr set_global_step
         aveGrad global_step running_loss_tr optimizer_step updates optim sched];
    destruct (ii mod (n / (if n <? 10 then n else 10)) =? 0);
    cbn [bind tell ret fst snd app];
    (eexists; eexists; split; [reflexivity |]);
    split; split; reflexivity.
Qed.

Lemma train_loop_loss p n epoch bs :
  0 < nAveGrad p -> (Model p =? "unet")%string = false ->
  (forall b, In b bs -> length b <> 1%nat) ->
  forall i g,
    0 <= i -> i + Z.of_nat (length bs) = n -> bs <> [] ->
    0 <= aveGrad g < nAveGrad p ->
    exists log g',
      for_enum (train_batch p n epoch) i bs g = (log, Ok g') /\
      scalars "data/total_loss_epoch" log =
        [(fold_left Qplus (batch_losses (nAveGrad p) (aveGrad g) (updates g) bs)
                    (running_loss_tr g) / inject_Z n)%Q] /\
      running_loss_tr g' = 0%Q.
Proof.
  intros HW HM. induction bs as [| b bs IH]; intros Hbs i g Hi Hlen Hne Ha; [congruence |].
  assert (Hn : n <> 0) by (cbn [length] in Hlen; lia).
  destruct (train_batch_loss_facts p n epoch i b g ltac:(lia) Hn HM
                                   (Hbs b (or_introl eq_refl)))
    as (l1 & g1 & E1 & Hloss & Hacc).
  specialize (IH (fun b0 Hb0 => Hbs b0 (or_intror Hb0))).
  cbn [for_enum batch_losses fold_left]. rewrite (bind_ok _ _ _ _ E1). cbn [fst snd].
  destruct bs as [| b' bs].
  - assert (Hm : (i mod n =? n - 1) = true).
    { apply Z.eqb_eq. cbn [length] in Hlen. rewrite Z.mod_small; lia. }
    rewrite Hm in Hloss. destruct Hloss as [Hs Hr].
    exists (l1 ++ []), g1. cbn [for_enum ret fst snd]. split; [reflexivity |].
    rewrite app_nil_r, Hs.
    destruct ((aveGrad g + 1) mod nAveGrad p =? 0); cbn [batch_losses fold_left]; auto.
  - assert (Hm : (i mod n =? n - 1) = false).
    { apply Z.eqb_neq. cbn [length] in Hlen. rewrite Z.mod_small; lia. }
    rewrite Hm in Hloss. destruct Hloss as [Hs Hr].
    assert (Ha1 : 0 <= aveGrad g1 < nAveGrad p).
    { destruct ((aveGrad g + 1) mod nAveGrad p =? 0) eqn:Em; destruct Hacc as [-> _];
        [lia |].
      apply Z.eqb_neq in Em.
      destruct (window_step (aveGrad g) 0 (nAveGrad p) HW Ha ltac:(lia)) as [_ Wno].
      exact (Wno Em). }
    destruct (IH (i + 1) g1 ltac:(lia) ltac:(cbn [length] in *; lia) ltac:(discriminate) Ha1)
      as (l2 & g2 & E2 & Hs2 & Hr2).
    exists (l1 ++ l2), g2. rewrite E2. cbn [fst snd]. split; [reflexivity |].
    rewrite scalars_app, Hs, Hs2, Hr. cbn [app].
    split; [| exact Hr2].
    destruct ((aveGrad g + 1) mod nAveGrad p =? 0); destruct Hacc as [-> ->]; reflexivity.
Qed.

(** X9. For a family whose loss call is accepted (not unet) and batches
    that do not hold exactly one item: in an epoch of n >= 1 batches that
    starts with the accumulation counter below the window, exactly one epoch
    loss is logged, at the last batch: the running loss at the start of the
    epoch plus the losses of the n batches, divided by n.  The running loss
    is zero afterwards, so from the second epoch on the value logged is the
    mean batch loss of its epoch. *)
Theorem epoch_loss_is_mean_batch_loss p epoch bs g :
  0 < nAveGrad p -> bs <> [] -> 0 <= aveGrad g < nAveGrad p ->
  (Model p =? "unet")%string = false ->
  (forall b, In b bs -> length b <> 1%nat) ->
  let n := Z.of_nat (length bs) in
  exists log g',
    for_enum (train_batch p n epoch) 0 bs g = (log, Ok g') /\
    scalars "data/total_loss_epoch" log =
      [(fold_left Qplus (batch_losses (nAveGrad p) (aveGrad g) (updates g) bs)
                  (running_loss_tr g) / inject_Z n)%Q] /\
    running_loss_tr g' = 0%Q /\
    length (batch_losses (nAveGrad p) (aveGrad g) (updates g) bs) = length bs.
Proof.
  intros HW Hne Ha HM Hbs n.
  destruct (train_loop_loss p n epoch bs HW HM Hbs 0 g ltac:(lia) ltac:(unfold n; lia)
                            Hne Ha)
    as (log & g' & E & Hs & Hr).
  exists log, g'. split; [exact E |]. split; [exact Hs |]. split; [exact Hr |].
  clear. generalize (aveGrad g) (updates g).
  induction bs as [| b bs IH]; intros a u; [reflexivity |].
  cbn [batch_losses length]. destruct ((a + 1) mod nAveGrad p =? 0); rewrite IH; reflexivity.
Qed.

(** ** A complete run *)

Lemma saved_models_app l1 l2 : saved_models (l1 ++ l2) = saved_models l1 ++ saved_models l2.
Proof.
  induction l1 as [| e l1 IH]; [reflexivity |].
  destruct e; simpl; congruence.
Qed.

Lemma untrained_saved_models l :
  forallb (fun e => negb (is_training_event e)) l = true -> saved_models l = [].
Proof.
  induction l as [| e l IH]; [reflexivity |].
  cbn [forallb]. intros H. apply andb_prop in H as [He Hl].
  destruct e; try discriminate; cbn [saved_models]; auto.
Qed.

Lemma train_batch_saves_nothing p n epoch ii b g :
  saved_models (fst (train_batch p n epoch ii b g)) = [].
Proof.
  unfold train_batch, lift, py_mod, py_floordiv, py_truediv.
  repeat (match goal with
          | |- context [if ?c then _ else _] => destruct c
          end; cbn [bind tell ret raise fst snd app]);
    reflexivity.
Qed.

Lemma train_loop_saves_nothing p n epoch bs :
  forall i g, saved_models (fst (for_enum (train_batch p n epoch) i bs g)) = [].
Proof.
  induction bs as [| b bs IH]; intros i g; [reflexivity |].
  cbn [for_enum]. rewrite fst_bind, saved_models_app, train_batch_saves_nothing.
  destruct (snd (train_batch p n epoch i b g)); [apply IH | reflexivity].
Qed.

Lemma adjust_learning_rate_ok p epoch g :
  epoch_size p <> 0 ->
  ((Model p =? "unet")%string = true -> sched g <> None) ->
  exists log g',
    adjust_learning_rate p epoch g = (log, Ok g') /\
    aveGrad g' = aveGrad g /\ global_step g' = global_step g /\
    ((Model p =? "unet")%string = true -> sched g' <> None) /\
    saved_models log = [].
Proof.
  intros Hs Hsc. unfold adjust_learning_rate, lift, py_mod.
  destruct (Model p =? "unet")%string.
  - destruct (sched g) as [sc |]; [| exfalso; apply Hsc; reflexivity].
    cbn [lookup bind ret tell fst snd app]. eexists. eexists. split; [reflexivity |].
    cbn. repeat split; auto. discriminate.
  - apply Z.eqb_neq in Hs. rewrite Hs. cbn [bind fst snd app].
    destruct (epoch mod epoch_size p =? epoch_size p - 1); cbn [bind tell ret fst snd app];
      eexists; eexists; (split; [reflexivity |]); cbn; repeat split; auto; discriminate.
Qed.

Lemma evaluate_ok p cfg log0 s epoch g :
  assemble p cfg = (log0, Ok s) -> 2 <= trainBatchSize p ->
  exists log g',
    evaluate p s epoch g = (log, Ok g') /\ same_training_state g g' /\
    saved_models log = [].
Proof.
  intros H HB.
  destruct (eval_pass_batches p cfg log0 s Validation epoch H) as (_ & Ebv & Env & Hfv).
  destruct (eval_pass_batches p cfg log0 s Test epoch H) as (_ & Ebt & Ent & Hft).
  destruct (eval_loop_ok p s epoch Validation _ ltac:(lia) ltac:(intros _; exact HB) Hfv 0
                         (mkEvalState 0 0 g) ltac:(lia) ltac:(lia))
    as (l1 & st1 & E1 & _).
  destruct (eval_loop_ok p s epoch Test _ ltac:(lia) ltac:(discriminate) Hft 0
                         (mkEvalState 0 (images_list st1) (globals st1)) ltac:(lia) ltac:(lia))
    as (l2 & st2 & E2 & _).
  assert (E : evaluate p s epoch g = (l1 ++ l2, Ok (globals st2))).
  { unfold evaluate. cbn [for_each]. unfold eval_pass. rewrite Ebv, Ebt. unfold lift.
    cbn [bind app images_list globals]. rewrite E1. cbn [bind app images_list globals].
    rewrite E2. cbn [bind ret fst snd app]. rewrite !app_nil_r. reflexivity. }
  destruct (evaluate_keeps p s epoch g) as [Hlog Hres]. rewrite E in Hlog, Hres.
  exists (l1 ++ l2), (globals st2). split; [exact E |].
  split; [apply Hres; reflexivity | apply untrained_saved_models; exact Hlog].
Qed.

Lemma run_epoch_ok p cfg log0 s items epoch g :
  assemble p cfg = (log0, Ok s) ->
  dataset_items (db_train s) = Ok items ->
  (Model p =? "unet")%string = false ->
  2 <= trainBatchSize p -> 0 < nAveGrad p ->
  epoch_size p <> 0 -> snapshot p <> 0 -> nTestInterval p <> 0 ->
  0 <= aveGrad g < nAveGrad p ->
  exists log g',
    run_epoch p s epoch g = (log, Ok g') /\
    0 <= aveGrad g' < nAveGrad p /\
    global_step g' = global_step g + Z.of_nat (length items) / trainBatchSize p /\
    saved_models log = (if epoch mod snapshot p =? snapshot p - 1 then [epoch] else []).
Proof.
  intros H Hit HM HB HW Hes Hsn Hti Ha.
  destruct (adjust_learning_rate_ok p epoch g Hes ltac:(congruence))
    as (l1 & g1 & E1 & Ha1 & Hg1 & Hsc1 & Hs1).
  destruct (train_epoch_facts p cfg log0 s items epoch g1 H Hit HM HB HW ltac:(lia))
    as (l2 & g2 & E2 & _ & _ & Ha2 & Hg2 & _ & _ & _ & _ & Hsc2 & _).
  assert (Hs2 : saved_models l2 = []).
  { pose proof (train_loop_saves_nothing p (num_img_tr s) epoch) as T.
    unfold train_epoch in E2.
    destruct (loader_batches epoch (trainloader s)) as [bs | e]; cbn [lift bind] in E2.
    - specialize (T bs 0 g1). destruct (for_enum _ 0 bs g1) as [l r].
      inversion E2; subst. exact T.
    - inversion E2. }
  assert (Ha2' : 0 <= aveGrad g2 < nAveGrad p)
    by (rewrite Ha2; apply Z.mod_pos_bound; exact HW).
  assert (Hid : same_training_state g2 g2) by (unfold same_training_state; auto 10).
  assert (Hrest : exists l4 g4,
             (if useTest p
              then if epoch mod nTestInterval p =? nTestInterval p - 1
                   then evaluate p s epoch g2 else ret g2
              else ret g2) = (l4, Ok g4) /\
             same_training_state g2 g4 /\ saved_models l4 = []).
  { destruct (useTest p); [| exists [], g2; auto].
    destruct (epoch mod nTestInterval p =? nTestInterval p - 1); [| exists [], g2; auto].
    apply (evaluate_ok p cfg log0 s epoch g2 H HB). }
  destruct Hrest as (l4 & g4 & E4 & Hsame & Hs4).
  unfold same_training_state in Hsame. destruct Hsame as (_ & Hsd & _ & Had & Hgd & _).
  apply Z.eqb_neq in Hsn, Hti.
  exists (l1 ++ l2 ++ (if epoch mod snapshot p =? snapshot p - 1
                       then [SaveModel epoch] else []) ++ l4), g4.
  split.
  - unfold run_epoch, lift, py_mod. rewrite (bind_ok _ _ _ _ E1). cbn [fst snd].
    rewrite (bind_ok _ _ _ _ E2). cbn [fst snd]. rewrite Hsn, Hti.
    cbn [bind fst snd app].
    destruct (epoch mod snapshot p =? snapshot p - 1); cbn [bind tell ret fst snd app];
      destruct (useTest p); cbn [bind tell ret fst snd app];
      try (destruct (epoch mod nTestInterval p =? nTestInterval p - 1));
      try rewrite E4; cbn [bind tell ret fst snd app];
      try (inversion E4; subst l4 g4); rewrite ?app_nil_r; reflexivity.
  - rewrite Had, Hgd, Hg2, Hg1, !saved_models_app, Hs1, Hs2, Hs4, app_nil_r.
    split; [exact Ha2' |]. split; [lia |].
    destruct (epoch mod snapshot p =? snapshot p - 1); reflexivity.
Qed.

Lemma epochs_ok p cfg log0 s items :
  assemble p cfg = (log0, Ok s) ->
  dataset_items (db_train s) = Ok items ->
  (Model p =? "unet")%string = false ->
  2 <= trainBatchSize p -> 0 < nAveGrad p ->
  epoch_size p <> 0 -> snapshot p <> 0 -> nTestInterval p <> 0 ->
  forall epochs g,
    0 <= aveGrad g < nAveGrad p ->
    exists log g',
      for_each (fun epoch g => s' <- lookup "trainloader" (Some s) ;; run_epoch p s' epoch g)
               epochs g = (log, Ok g') /\
      global_step g' =
        global_step g + Z.of_nat (length epochs) * (Z.of_nat (length items) / trainBatchSize p) /\
      saved_models log = filter (fun e => e mod snapshot p =? snapshot p - 1) epochs.
Proof.
  intros H Hit HM HB HW Hes Hsn Hti.
  induction epochs as [| e epochs IH]; intros g Ha.
  - exists [], g. cbn [for_each ret length Z.of_nat filter saved_models]. split; [reflexivity |].
    split; [lia | reflexivity].
  - destruct (run_epoch_ok p cfg log0 s items e g H Hit HM HB HW Hes Hsn Hti Ha)
      as (l1 & g1 & E1 & Ha1 & Hg1 & Hs1).
    destruct (IH g1 Ha1) as (l2 & g2 & E2 & Hg2 & Hs2).
    exists (l1 ++ l2), g2. split.
    { change (for_each ?f (e :: epochs) g) with (bind (f e g) (for_each f epochs)).
      assert (E1' : (s' <- lookup "trainloader" (Some s) ;; run_epoch p s' e g) = (l1, Ok g1))
        by (rewrite (bind_ok (lookup "trainloader" (Some s)) _ [] s eq_refl), E1; reflexivity).
      rewrite (bind_ok _ _ _ _ E1'), E2. reflexivity. }
    rewrite saved_models_app, Hs1, Hs2, Hg2, Hg1. cbn [length filter].
    split; [lia |]. destruct (e mod snapshot p =? snapshot p - 1); reflexivity.
Qed.

Lemma network_definition_saves_nothing p :
  saved_models (fst (network_definition p)) = [].
Proof.
  unfold network_definition.
  destruct (Model p =? "deeplab")%string.
  - destruct (backbone p =? "xception")%string; [reflexivity |].
    destruct (backbone p =? "resnet")%string; reflexivity.
  - destruct (Model p =? "unet")%string; reflexivity.
Qed.

Lemma assembly_saves_nothing p cfg : saved_models (assembly_events p cfg) = [].
Proof.
  unfold assembly_events. rewrite !saved_models_app.
  assert (Hmap : forall (f : DatasetEntry -> option string) t l,
             saved_models (map (fun d => OpenDataset (images d) (f d) t) l) = []).
  { intros f t l. induction l; simpl; auto. }
  rewrite (Hmap (fun d => Some (labels d))), (Hmap (fun d => Some (labels d))),
    (Hmap (fun _ => None)).
  reflexivity.
Qed.

(** X10. With a supported network of a family whose loss call is accepted
    (not unet), a fresh start or a resume whose checkpoint is there, an
    assembled setup whose training set has items that can all be fetched, a
    batch size of at least 2, a positive accumulation window and non-zero
    epoch size, snapshot and test interval, the script runs every epoch from
    resume_epoch to nEpochs - 1 and ends normally with writer.close().  The
    global step is then the number of epochs times floor(n / B), and the
    epochs checkpointed are exactly those with
    epoch mod snapshot = snapshot - 1, in order. *)
Theorem script_runs_to_completion checkpoint_exists p cfg l nw log0 s items :
  network_definition p = (l, Ok nw) ->
  (Model p =? "unet")%string = false ->
  resume_epoch p = 0 \/ checkpoint_exists (resume_epoch p - 1) = true ->
  resume_epoch p <> nEpochs p ->
  assemble p cfg = (log0, Ok s) ->
  dataset_items (db_train s) = Ok items -> items <> [] ->
  2 <= trainBatchSize p -> 0 < nAveGrad p ->
  epoch_size p <> 0 -> snapshot p <> 0 -> nTestInterval p <> 0 ->
  let epochs := py_range2 (resume_epoch p) (nEpochs p) in
  exists log g,
    main checkpoint_exists p cfg = (log ++ [CloseWriter], Ok g) /\
    global_step g =
      Z.of_nat (length epochs) * (Z.of_nat (length items) / trainBatchSize p) /\
    saved_models log = filter (fun e => e mod snapshot p =? snapshot p - 1) epochs.
Proof.
  intros Hn HM Hload Hres H Hit _ HB HW Hes Hsn Hti epochs.
  pose proof (network_definition_saves_nothing p) as Hsl. rewrite Hn in Hsl.
  cbn [fst] in Hsl.
  destruct (epochs_ok p cfg log0 s items H Hit HM HB HW Hes Hsn Hti epochs
                      (mkGlobals (optimizer nw) (exp_lr_scheduler nw) 0 0 0 0 0 0)
                      ltac:(cbn; lia))
    as (lr & g & E & Hg & Hs).
  set (loaded := if resume_epoch p =? 0 then [] else [LoadModel (resume_epoch p - 1)]).
  assert (Hl : load_checkpoint checkpoint_exists p = (loaded, Ok tt)).
  { unfold load_checkpoint, loaded. destruct (resume_epoch p =? 0) eqn:E0; [reflexivity |].
    destruct Hload as [H0 | ->]; [| reflexivity].
    apply Z.eqb_neq in E0. contradiction. }
  exists (l ++ loaded ++ log0 ++ lr), g.
  split; [| split].
  - unfold main. rewrite (bind_ok _ _ _ _ Hn). cbn [fst snd].
    rewrite (bind_ok _ _ _ _ Hl). cbn [fst snd].
    replace (resume_epoch p =? nEpochs p) with false by (symmetry; apply Z.eqb_neq; lia).
    cbn [negb]. rewrite H. fold epochs.
    cbn [bind tell ret fst snd app].
    rewrite E; cbn [bind tell ret lookup fst snd app].
    rewrite ?app_nil_r, <- ?app_assoc. reflexivity.
  - rewrite Hg. cbn. lia.
  - destruct (assemble_inv _ _ _ _ H) as (_ & _ & _ & _ & _ & _ & _ & _ & _ & ->).
    rewrite !saved_models_app, Hsl, assembly_saves_nothing, Hs.
    unfold loaded. destruct (resume_epoch p =? 0); reflexivity.
Qed.

End Script.

(** * The run directory *)

(** ** The order of strings *)

Lemma string_leb_refl a : String.leb a a = true.
Proof.
  unfold String.leb.
  pose proof (proj2 (OrderedTypeEx.String_as_OT.cmp_eq a a) eq_refl) as H.
  unfold OrderedTypeEx.String_as_OT.cmp in H. rewrite H. reflexivity.
Qed.

Lemma string_leb_trans a b c :
  String.leb a b = true -> String.leb b c = true -> String.leb a c = true.
Proof.
  unfold String.leb.
  destruct (String.compare a b) eqn:Eab; try discriminate; intros _;
    destruct (String.compare b c) eqn:Ebc; try discriminate; intros _.
  - apply String.compare_eq_iff in Eab. subst b. rewrite Ebc. reflexivity.
  - apply String.compare_eq_iff in Eab. subst b. rewrite Ebc. reflexivity.
  - apply String.compare_eq_iff in Ebc. subst c. rewrite Eab. reflexivity.
  - apply OrderedTypeEx.String_as_OT.cmp_lt in Eab, Ebc.
    pose proof (OrderedTypeEx.String_as_OT.lt_trans _ _ _ Eab Ebc) as Hac.
    apply OrderedTypeEx.String_as_OT.cmp_lt in Hac.
    unfold OrderedTypeEx.String_as_OT.cmp in Hac. rewrite Hac. reflexivity.
Qed.

Lemma compare_prefix p a b :
  String.compare (p ++ a) (p ++ b) = String.compare a b.
Proof.
  induction p as [| c p IH]; [reflexivity |].
  cbn [String.append String.compare]. unfold Ascii.compare. rewrite N.compare_refl.
  exact IH.
Qed.

Lemma append_assoc (a b c : string) : ((a ++ b) ++ c = a ++ (b ++ c))%string.
Proof. induction a as [| x a IH]; [reflexivity |]. cbn [String.append]. now rewrite IH. Qed.

(** ** sorted and [-1] *)

Lemma insert_sorted_In x l z : In z (insert_sorted x l) <-> z = x \/ In z l.
Proof.
  induction l as [| y r IH]; cbn [insert_sorted].
  - simpl. intuition.
  - destruct (String.leb x y); simpl; [intuition |]. rewrite IH. intuition.
Qed.

Lemma py_sorted_In l z : In z (py_sorted l) <-> In z l.
Proof.
  induction l as [| x l IH]; [reflexivity |].
  cbn [py_sorted fold_right]. fold (py_sorted l).
  rewrite insert_sorted_In, IH. simpl. intuition.
Qed.

Lemma insert_sorted_sorted x l :
  StronglySorted (fun a b => String.leb a b = true) l ->
  StronglySorted (fun a b => String.leb a b = true) (insert_sorted x l).
Proof.
  induction 1 as [| y r Hr IH Hy]; cbn [insert_sorted].
  - constructor; constructor.
  - destruct (String.leb x y) eqn:E.
    + constructor; [constructor; assumption |].
      constructor; [exact E |].
      rewrite Forall_forall in *. intros z Hz.
      exact (string_leb_trans _ _ _ E (Hy z Hz)).
    + constructor; [exact IH |].
      rewrite Forall_forall in *. intros z Hz.
      apply insert_sorted_In in Hz as [-> | Hz]; [| exact (Hy z Hz)].
      destruct (String.leb_total x y) as [H | H]; [congruence | exact H].
Qed.

Lemma py_sorted_sorted l :
  StronglySorted (fun a b => String.leb a b = true) (py_sorted l).
Proof.
  induction l as [| x l IH]; [constructor |].
  cbn [py_sorted fold_right]. apply insert_sorted_sorted. exact IH.
Qed.

Lemma py_last_In {A : Type} (l : list A) m : py_last l = Ok m -> In m l.
Proof.
  induction l as [| x r IH]; [discriminate |].
  cbn [py_last]. destruct r as [| y r'].
  - intros E. inversion E. left. reflexivity.
  - intros E. right. exact (IH E).
Qed.

Lemma py_last_nonempty {A : Type} (l : list A) : l <> [] -> exists m, py_last l = Ok m.
Proof.
  induction l as [| x r IH]; [congruence |]. intros _.
  cbn [py_last]. destruct r as [| y r']; [eexists; reflexivity |].
  apply IH. discriminate.
Qed.

Lemma py_last_app {A : Type} (i l : list A) : l <> [] -> py_last (i ++ l) = py_last l.
Proof.
  intros Hl. induction i as [| x i IH]; [reflexivity |].
  cbn [app py_last]. destruct (i ++ l) eqn:E; [| exact IH].
  apply app_eq_nil in E as [_ E]. contradiction.
Qed.

Lemma py_last_dominates l :
  StronglySorted (fun a b => String.leb a b = true) l ->
  forall m, py_last l = Ok m -> forall y, In y l -> String.leb y m = true.
Proof.
  induction 1 as [| a r Hr IH Ha]; [discriminate |].
  intros m E y Hy. cbn [py_last] in E. destruct r as [| b r'].
  - inversion E. subst m. destruct Hy as [<- | []]. apply string_leb_refl.
  - destruct Hy as [<- | Hy]; [| exact (IH m E y Hy)].
    rewrite Forall_forall in Ha. apply Ha. exact (py_last_In _ _ E).
Qed.

(** The last path of the sorted list is the greatest one. *)
Lemma py_sorted_last l x :
  In x l -> (forall y, In y l -> String.leb y x = true) ->
  py_last (py_sorted l) = Ok x.
Proof.
  intros Hx Hmax.
  destruct (py_last_nonempty (py_sorted l)) as [m E].
  { intros En. apply py_sorted_In in Hx. rewrite En in Hx. exact Hx. }
  rewrite E. f_equal. apply String.leb_antisym.
  - apply Hmax. apply py_sorted_In. exact (py_last_In _ _ E).
  - apply (py_last_dominates _ (py_sorted_sorted l) m E). apply py_sorted_In. exact Hx.
Qed.

(** ** Paths of the run directories *)

Lemma join_after_run pre :
  ((pre ++ "run" =? "")%string || ends_with_sep (pre ++ "run")) = false.
Proof.
  induction pre as [| c pre IH]; [reflexivity |].
  cbn [String.append]. apply orb_false_iff in IH as [_ IH].
  cbn [String.eqb ends_with_sep orb]. destruct (pre ++ "run")%string eqn:E; [| exact IH].
  destruct pre; discriminate.
Qed.

Lemma run_paths root :
  exists d, forall b, starts_with_sep b = false ->
                      os_path_join root ["run"; b] = (d ++ "/" ++ b)%string.
Proof.
  unfold os_path_join. cbn [fold_left starts_with_sep Ascii.eqb Bool.eqb].
  destruct ((root =? "")%string || ends_with_sep root).
  - exists (root ++ "run")%string. intros b Hb. rewrite Hb, join_after_run. reflexivity.
  - exists ((root ++ "/") ++ "run")%string. intros b Hb.
    rewrite <- (append_assoc root "/" "run"). rewrite Hb, join_after_run. reflexivity.
Qed.

Lemma py_split_app sep a t :
  exists i, i <> [] /\ py_split sep (a ++ String sep t) = i ++ py_split sep t.
Proof.
  induction a as [| c a (i & Hi & E)]; cbn [String.append py_split].
  - rewrite Ascii.eqb_refl. exists [EmptyString]. split; [discriminate | reflexivity].
  - rewrite E. destruct (Ascii.eqb c sep).
    + exists (EmptyString :: i). split; [discriminate | reflexivity].
    + destruct i as [| h i']; [congruence |].
      exists (String c h :: i'). split; [discriminate | reflexivity].
Qed.

Lemma py_split_nonempty sep s : py_split sep s <> [].
Proof.
  destruct s as [| c r]; cbn [py_split]; [discriminate |].
  destruct (Ascii.eqb c sep); [discriminate |].
  destruct (py_split sep r); discriminate.
Qed.

Lemma run_path_suffix d t :
  py_last (py_split "_" (d ++ "/" ++ String.append "run_" t)) = py_last (py_split "_" t).
Proof.
  change (d ++ "/" ++ String.append "run_" t)%string
    with (d ++ ("/run" ++ String "_" t))%string.
  rewrite <- append_assoc.
  destruct (py_split_app "_" (d ++ "/run") t) as (i & Hi & ->).
  apply py_last_app. apply py_split_nonempty.
Qed.

Lemma run_path_leb d a b :
  String.leb (d ++ "/" ++ String.append "run_" a) (d ++ "/" ++ String.append "run_" b)
  = String.leb a b.
Proof.
  unfold String.leb. rewrite compare_prefix.
  change ("/" ++ String.append "run_" a)%string with ("/run_" ++ a)%string.
  change ("/" ++ String.append "run_" b)%string with ("/run_" ++ b)%string.
  rewrite compare_prefix. reflexivity.
Qed.

(** ** Numbers below a bound, checked one by one *)

Lemma below_forallb (P : Z -> bool) n :
  forallb P (py_range n) = true -> forall k, 0 <= k < n -> P k = true.
Proof.
  intros H k Hk. rewrite forallb_forall in H. apply H.
  unfold py_range. apply in_map_iff. exists (Z.to_nat k). split; [lia |].
  apply in_seq. lia.
Qed.

Lemma format_02d_order j k :
  0 <= j -> j <= k -> k < 100 ->
  String.leb (format_02d j) (format_02d k) = true.
Proof.
  intros Hj Hjk Hk.
  assert (T : forallb (fun j => forallb (fun k => implb (j <=? k)
                         (String.leb (format_02d j) (format_02d k))) (py_range 100))
                      (py_range 100) = true) by (vm_compute; reflexivity).
  pose proof (below_forallb _ _ (below_forallb _ _ T j ltac:(lia)) k ltac:(lia)) as H.
  cbv beta in H. replace (j <=? k) with true in H by (symmetry; apply Z.leb_le; lia).
  exact H.
Qed.

Lemma format_02d_below_99 k :
  0 <= k < 990 -> String.leb (format_02d k) (format_02d 99) = true.
Proof.
  intros Hk.
  assert (T : forallb (fun k => String.leb (format_02d k) (format_02d 99)) (py_range 990)
              = true) by (vm_compute; reflexivity).
  exact (below_forallb _ _ T k Hk).
Qed.

Lemma format_02d_reads_back k :
  0 <= k < 100 ->
  exists t, py_last (py_split "_" (format_02d k)) = Ok t /\ py_int_str t = Ok k.
Proof.
  intros Hk.
  assert (T : forallb (fun k => match py_last (py_split "_" (format_02d k)) with
                                | Ok t => match py_int_str t with
                                          | Ok v => v =? k
                                          | Raise _ => false
                                          end
                                | Raise _ => false
                                end) (py_range 100) = true) by (vm_compute; reflexivity).
  pose proof (below_forallb _ _ T k Hk) as H. cbv beta in H.
  destruct (py_last (py_split "_" (format_02d k))) as [t |]; [| discriminate].
  exists t. split; [reflexivity |].
  destruct (py_int_str t) as [v |]; [| discriminate].
  apply Z.eqb_eq in H. now subst v.
Qed.

Lemma greatest_id (ids : list Z) :
  ids <> [] -> exists m, In m ids /\ forall k, In k ids -> k <= m.
Proof.
  induction ids as [| a r IH]; [congruence |]. intros _.
  destruct r as [| b r'].
  - exists a. split; [left; reflexivity |]. intros k [<- | []]. lia.
  - destruct (IH ltac:(discriminate)) as (m & Hm & Hmax).
    destruct (Z_le_gt_dec a m) as [Ham | Ham].
    + exists m. split; [right; exact Hm |]. intros k [<- | Hk]; [exact Ham | exact (Hmax k Hk)].
    + exists a. split; [left; reflexivity |]. intros k [<- | Hk]; [lia |].
      specialize (Hmax k Hk). lia.
Qed.

(** The number the script reads when the greatest path is that of run [m]. *)
Lemma run_id_of_greatest glob root (ids : list Z) resume_epoch m v :
  glob (os_path_join root ["run"; "run_*"]) = map (save_dir_of root) ids ->
  In m ids ->
  (forall k, In k ids -> String.leb (format_02d k) (format_02d m) = true) ->
  (exists t, py_last (py_split "_" (format_02d m)) = Ok t /\ py_int_str t = Ok v) ->
  run_id glob root resume_epoch = ([], Ok (if resume_epoch =? 0 then v + 1 else v)).
Proof.
  intros Hglob Hm Hmax (t & Ht & Hv).
  destruct (run_paths root) as (d & Hd).
  assert (Hlast : py_last (py_sorted (map (save_dir_of root) ids))
                  = Ok (save_dir_of root m)).
  { apply py_sorted_last; [apply in_map; exact Hm |].
    intros y Hy. apply in_map_iff in Hy as (k & <- & Hk).
    unfold save_dir_of. rewrite !Hd by reflexivity. rewrite run_path_leb.
    exact (Hmax k Hk). }
  assert (Hnum : latest_run_number (py_sorted (map (save_dir_of root) ids)) = ([], Ok v)).
  { unfold latest_run_number. rewrite Hlast. unfold save_dir_of at 1.
    rewrite Hd by reflexivity. cbn [lift bind fst snd app].
    rewrite run_path_suffix, Ht. cbn [lift bind fst snd app]. rewrite Hv. reflexivity. }
  unfold run_id. rewrite Hglob.
  destruct (py_sorted (map (save_dir_of root) ids)) as [| r0 rs] eqn:Es;
    [discriminate |].
  destruct (resume_epoch =? 0); cbn [negb]; rewrite Hnum; reflexivity.
Qed.

(** X11. While the run directory holds only directories the script made
    for run numbers below 100, at least one, a fresh start gets the greatest
    number present plus one, which no directory there carries, and a resumed
    run gets the greatest number present. *)
Theorem run_id_follows_latest_run glob root (ids : list Z) resume_epoch :
  ids <> [] ->
  (forall k, In k ids -> 0 <= k < 100) ->
  glob (os_path_join root ["run"; "run_*"]) = map (save_dir_of root) ids ->
  exists m,
    In m ids /\ (forall k, In k ids -> k <= m) /\
    run_id glob root resume_epoch = ([], Ok (if resume_epoch =? 0 then m + 1 else m)).
Proof.
  intros Hne Hids Hglob.
  destruct (greatest_id ids Hne) as (m & Hm & Hmax).
  exists m. split; [exact Hm |]. split; [exact Hmax |].
  apply (run_id_of_greatest glob root ids resume_epoch m m Hglob Hm).
  - intros k Hk. apply format_02d_order; [apply (Hids k Hk) | exact (Hmax k Hk) |].
    apply (Hids m Hm).
  - apply format_02d_reads_back. exact (Hids m Hm).
Qed.

(** X12. Once run 99 exists, the numbering stops: as long as every run
    number present is below 990, the path of run 99 sorts last, so a fresh
    start gets number 100 whether or not run 100 already exists, and a
    resumed run gets 99 whatever later runs there are. *)
Theorem run_id_stops_at_100 glob root (ids : list Z) resume_epoch :
  In 99 ids ->
  (forall k, In k ids -> 0 <= k < 990) ->
  glob (os_path_join root ["run"; "run_*"]) = map (save_dir_of root) ids ->
  run_id glob root resume_epoch = ([], Ok (if resume_epoch =? 0 then 100 else 99)) /\
  (resume_epoch = 0 -> In 100 ids ->
   exists log dir, save_dir glob root resume_epoch = (log, Ok dir) /\
                   In dir (glob (os_path_join root ["run"; "run_*"]))).
Proof.
  intros H99 Hids Hglob.
  assert (E : run_id glob root resume_epoch
              = ([], Ok (if resume_epoch =? 0 then 99 + 1 else 99))).
  { apply (run_id_of_greatest glob root ids resume_epoch 99 99 Hglob H99).
    - intros k Hk. apply format_02d_below_99. exact (Hids k Hk).
    - apply format_02d_reads_back. lia. }
  split; [exact E |].
  intros -> H100. exists [], (save_dir_of root 100).
  unfold save_dir. rewrite E. split; [reflexivity |].
  rewrite Hglob. apply in_map. exact H100.
Qed.

(** * The statements on the example installation *)

Lemma example_permute_perm : forall e l, Permutation l (example_permute e l).
Proof. intros e l. apply Permutation_rev. Qed.

(** C4. The cadence test "ii mod (num_img_tr div plot_per_iter) = 0" does
    not keep the grids of an epoch to ten: with 30 training items and batch
    size 2 the epoch has 15 batches, the period is 15 div 10 = 1, and a grid
    is sent for each of the 15 batches. *)
Theorem train_grids_exceed_ten :
  exists log0 s,
    assemble example_listdir (script_params 2) example_big_config = (log0, Ok s) /\
    num_img_tr s = 15 /\
    count_train_images
      (fst (train_epoch example_listdir example_permute example_loss
                        (script_params 2) s 0 example_globals)) = 15.
Proof.
  eexists. eexists. split; [vm_compute; reflexivity |].
  split; vm_compute; reflexivity.
Qed.

Lemma unsupported_selection_fails_first_witness :
  main example_listdir example_permute example_loss example_loss example_iou
       example_checkpoint_exists (example_selection "segnet" "xception") example_config
  = ([], Raise NotImplementedError) /\
  main example_listdir example_permute example_loss example_loss example_iou
       example_checkpoint_exists (example_selection "deeplab" "vgg") example_config
  = ([], Raise NotImplementedError).
Proof.
  split.
  - apply (unsupported_selection_fails_first
             example_listdir example_permute example_loss example_loss example_iou
             example_checkpoint_exists (example_selection "segnet" "xception") example_config).
    left. split; simpl; discriminate.
  - apply (unsupported_selection_fails_first
             example_listdir example_permute example_loss example_loss example_iou
             example_checkpoint_exists (example_selection "deeplab" "vgg") example_config).
    right. split; [reflexivity |]. split; simpl; discriminate.
Defined.

Lemma validation_uses_training_pipeline_witness :
  exists log s,
    assemble example_listdir (script_params 2) example_config = (log, Ok s) /\
    pipeline_interpolations (transform (db_validation s)) = [Some Nearest] /\
    pipeline_interpolations (transform (db_test s)) = [Some Cubic] /\
    batch_size (validationloader s) = 2.
Proof.
  eexists. eexists. split; [vm_compute; reflexivity |].
  match goal with
  | |- context [db_validation ?s] =>
      destruct (validation_uses_training_pipeline
                  example_listdir (script_params 2) example_config _ s
                  ltac:(vm_compute; reflexivity))
        as (_ & Hn & _ & _ & _ & Hb & _ & _ & Hc & _)
  end.
  split; [exact Hn |]. split; [exact Hc | exact Hb].
Defined.

Lemma last_entry_wins_witness :
  exists log s,
    assemble example_listdir (script_params 2) example_config = (log, Ok s) /\
    db_validation s = train_source (augs_train s) (mkEntry "syn_b/images" "syn_b/labels") /\
    db_test s = test_source (augs_test s) (mkEntry "real_b/images" "").
Proof.
  eexists. eexists. split; [vm_compute; reflexivity |].
  match goal with
  | |- context [db_validation ?s] =>
      destruct (last_entry_wins
                  example_listdir example_permute (script_params 2) example_config _ s
                  ltac:(vm_compute; reflexivity))
        as (fv & ev & ft & et & Hv & Ht & Hdv & _ & _ & _ & Hdt & _)
  end.
  change (datasetsSynthetic example_config)
    with ([mkEntry "syn_a/images" "syn_a/labels"] ++ [mkEntry "syn_b/images" "syn_b/labels"])
    in Hv.
  change (datasetsReal example_config)
    with ([mkEntry "real_a/images" ""] ++ [mkEntry "real_b/images" ""]) in Ht.
  apply app_inj_tail in Hv as [_ <-]. apply app_inj_tail in Ht as [_ <-].
  split; [exact Hdv | exact Hdt].
Defined.

Lemma training_set_is_concatenated_prefixes_witness :
  (0 <= percentageDataForTraining example_config_29)%Q /\
  (percentageDataForTraining example_config_29 <= 1)%Q /\
  dataset_items example_listdir_100
    (ConcatDataset (map (train_subset example_listdir_100 example_config_29
                                      [Resize (512, 512) (InterpCode 0)])
                        (train_datasets example_config_29)))
  = Ok (firstn 28 (alphapilot_items example_listdir_100
                     (train_source [Resize (512, 512) (InterpCode 0)]
                                   (mkEntry "hundred/images" "hundred/labels")))).
Proof.
  assert (H0 : (0 <= percentageDataForTraining example_config_29)%Q)
    by (unfold Qle; simpl; lia).
  assert (H1 : (percentageDataForTraining example_config_29 <= 1)%Q)
    by (unfold Qle; simpl; lia).
  split; [exact H0 |]. split; [exact H1 |].
  pose proof (training_set_is_concatenated_prefixes
                example_listdir_100 example_config_29 [Resize (512, 512) (InterpCode 0)]
                H0 H1 ltac:(intros d [<- | []]; vm_compute; reflexivity)) as T.
  cbv zeta in T. destruct T as (_ & _ & T & _). rewrite T. vm_compute. reflexivity.
Defined.

(** C5 as first stated, with floor(f * L) of the exact product, fails for
    f = 0.29 and a source of 100 items: the float product is
    28.999999999999996, so the subset holds 28 items, not 29. *)
Lemma floor_of_exact_product_is_not_the_size :
  ~ (forall (cfg : Config) (augs : Sequential) (d : DatasetEntry),
        (0 <= percentageDataForTraining cfg)%Q ->
        (percentageDataForTraining cfg <= 1)%Q ->
        In d (train_datasets cfg) ->
        let src := alphapilot_items example_listdir_100 (train_source augs d) in
        let k := Qfloor (percentageDataForTraining cfg * inject_Z (Z.of_nat (length src))) in
        subset_items example_listdir_100 (train_subset example_listdir_100 cfg augs d)
        = Ok (firstn (Z.to_nat k) src)).
Proof.
  intros H.
  specialize (H example_config_29 [] (mkEntry "hundred/images" "hundred/labels")
                ltac:(unfold Qle; simpl; lia) ltac:(unfold Qle; simpl; lia)
                ltac:(left; reflexivity)).
  cbv zeta in H.
  apply (f_equal (fun r => match r with Ok l => length l | Raise _ => 0%nat end)) in H.
  vm_compute in H. discriminate.
Qed.

Lemma loaders_drop_partial_batch_witness :
  exists log s,
    assemble example_listdir (script_params 2) example_config = (log, Ok s) /\
    exists items bs,
      dataset_items example_listdir (db_train s) = Ok items /\
      length items = 5%nat /\
      loader_batches example_listdir example_permute 0 (trainloader s) = Ok bs /\
      length bs = 2%nat.
Proof.
  eexists. eexists. split; [vm_compute; reflexivity |].
  match goal with
  | |- context [db_train ?s] =>
      destruct (loaders_drop_partial_batch
                  example_listdir example_permute example_permute_perm
                  (script_params 2) example_config _ s
                  ltac:(vm_compute; reflexivity))
        as [_ T]
  end.
  destruct (T (mkEntry "train/images" "train/labels") eq_refl eq_refl eq_refl
              ltac:(reflexivity))
    as (items & Hit & Hfive & Hb).
  destruct (Hb 0) as (bs & Hbs & Htwo & _).
  exists items, bs. auto.
Defined.

Lemma optimizer_steps_once_per_window_witness :
  0 < nAveGrad (example_params 2 3) /\
  exists log g',
    for_enum (train_batch example_loss (example_params 2 3) 5 0) 0
             [example_batch 2; example_batch 2; example_batch 2;
              example_batch 2; example_batch 2] example_globals
    = (log, Ok g') /\
    count_steps log = 1 /\ aveGrad g' = 2.
Proof.
  split; [reflexivity |].
  destruct (optimizer_steps_once_per_window
              example_listdir example_permute example_loss example_loss example_iou
              (example_params 2 3) eq_refl) as (_ & Hloop & _).
  destruct (Hloop 5 0 [example_batch 2; example_batch 2; example_batch 2;
                       example_batch 2; example_batch 2] 0 example_globals
                  ltac:(discriminate) ltac:(simpl; lia) ltac:(reflexivity)
                  ltac:(intros b Hb; simpl in Hb;
                        repeat (destruct Hb as [<- | Hb]; [vm_compute; discriminate |]);
                        destruct Hb))
    as (log & g' & E & _ & _ & Hc & Ha & _).
  exists log, g'. split; [exact E |].
  split; [rewrite Hc | rewrite Ha]; reflexivity.
Defined.

Lemma poly_policy_rebuilds_optimizer_witness :
  Model (script_params 2) = "deeplab" /\ epoch_size (script_params 2) <> 0 /\
  exists g',
    snd (adjust_learning_rate (script_params 2) 7 example_globals) = Ok g' /\
    opt_lr (optim g') = (lr (script_params 2) * Rpower (1 - IZR 7 / IZR 100) (9 / 10))%R /\
    opt_steps (optim g') = 0%nat.
Proof.
  split; [reflexivity |]. split; [discriminate |].
  pose proof (poly_policy_rebuilds_optimizer
                example_listdir example_permute example_permute_perm example_loss
                (script_params 2) 7 example_globals eq_refl ltac:(discriminate)) as T.
  cbv zeta in T. destruct T as (Hyes & _ & _).
  rewrite (Hyes eq_refl). eexists. split; [reflexivity |]. split; reflexivity.
Defined.

Lemma miou_uses_current_batch_count_witness :
  exists log0 s,
    assemble example_listdir (script_params 2) example_config = (log0, Ok s) /\
    map Qred
        (scalars "data/val_miour"
           (fst (eval_pass example_listdir example_permute example_loss example_iou
                           (script_params 2) s 0 Validation
                           (mkEvalState 0 0 example_globals))))
    = [3 # 4].
Proof.
  eexists. eexists. split; [vm_compute; reflexivity |].
  match goal with
  | |- context [eval_pass _ _ _ _ _ ?s] =>
      destruct (miou_uses_current_batch_count
                  example_listdir example_permute example_loss example_iou
                  (script_params 2) example_config _ s
                  ltac:(vm_compute; reflexivity))
        as (_ & _ & T)
  end.
  specialize (T Validation 0 (mkEvalState 0 0 example_globals)).
  cbv zeta in T. change (miou_tag Validation) with "data/val_miour" in T.
  rewrite T. vm_compute. reflexivity.
Defined.

Lemma test_counts_differ_past_first_batch_witness :
  exists log0 s,
    assemble example_listdir (script_params 2) example_config = (log0, Ok s) /\
    batch_size (testloader s) = 2 /\
    num_img_ts s = 2 /\
    test_printed_numImages (script_params 2) 1 2 <> miou_denominator (script_params 2) 1 2.
Proof.
  eexists. eexists. split; [vm_compute; reflexivity |].
  match goal with
  | |- context [testloader ?s] =>
      destruct (test_counts_differ_past_first_batch
                  example_listdir example_permute example_loss example_iou
                  (script_params 2) example_config _ s
                  ltac:(vm_compute; reflexivity))
        as (Hb & _ & _ & T)
  end.
  split; [exact Hb |]. split; [vm_compute; reflexivity |].
  specialize (T 0 1 (example_batch 2) (mkEvalState 0 0 example_globals)
                ltac:(vm_compute; discriminate) ltac:(lia) ltac:(discriminate)
                ltac:(vm_compute; reflexivity)).
  cbv zeta in T. destruct T as (_ & _ & T).
  apply (T eq_refl). split; [vm_compute; discriminate | discriminate].
Defined.

(** C9 as first stated fails on a test pass of a single batch: with batch
    size 2 and two test images the reporting batch is the one at index 0,
    and the printed count 0 * 1 + 2 equals the denominator 0 * 2 + 2. *)
Lemma test_counts_agree_on_one_batch_pass :
  ~ (forall (p : Params) (cfg : Config) (log0 : list Event) (s : Setup)
            (epoch ii : Z) (bs : list (list Sample)) (b : list Sample)
            (st : EvalState) (n : Z),
        testBatchSize p = 1 ->
        trainBatchSize p <> 1 ->
        assemble example_listdir p cfg = (log0, Ok s) ->
        loader_batches example_listdir example_permute epoch (testloader s) = Ok bs ->
        0 <= ii ->
        nth_error bs (Z.to_nat ii) = Some b ->
        ii mod num_img_ts s = num_img_ts s - 1 ->
        In (PrintNumImages "Test" epoch n)
           (fst (eval_batch example_loss example_iou p s epoch Test ii b st)) ->
        n <> miou_denominator p ii (Z.of_nat (length b))).
Proof.
  intros H.
  eapply (H (script_params 2) example_big_config _ _ 0 0 _ _
            (mkEvalState 0 0 example_globals) 2).
  - reflexivity.
  - vm_compute. discriminate.
  - vm_compute. reflexivity.
  - vm_compute. reflexivity.
  - lia.
  - reflexivity.
  - vm_compute. reflexivity.
  - vm_compute. auto.
  - vm_compute. reflexivity.
Qed.

(** ** Witnesses of the further properties *)

Lemma evaluation_never_trains_witness :
  exists log0 s,
    assemble example_listdir (script_params 2) example_config = (log0, Ok s) /\
    exists g',
      snd (evaluate example_listdir example_permute example_loss example_iou
                    (script_params 2) s 0 example_globals) = Ok g' /\
      optim g' = optim example_globals /\ global_step g' = 0.
Proof.
  eexists. eexists. split; [vm_compute; reflexivity |].
  eexists. split; [vm_compute; reflexivity |].
  match goal with
  | |- optim ?g' = _ /\ _ =>
      destruct (evaluation_never_trains
                  example_listdir example_permute example_loss example_iou
                  (script_params 2)
                  (assembled example_listdir (script_params 2) example_config
                             (mkEntry "syn_b/images" "syn_b/labels")
                             (mkEntry "real_b/images" ""))
                  0 example_globals) as [_ T];
      destruct (T g' ltac:(vm_compute; reflexivity)) as (Ho & _ & _ & _ & Hg & _)
  end.
  split; [exact Ho | exact Hg].
Defined.

Lemma assembly_outcomes_witness :
  (exists log s, assemble example_listdir (script_params 2) example_config = (log, Ok s)) /\
  assemble example_listdir (script_params 2)
           (mkConfig [mkEntry "train/images" "train/labels"] 1 []
                     [mkEntry "real_a/images" ""])
  = ([OpenDataset "train/images" (Some "train/labels") [Resize (512, 512) (InterpCode 0)];
      OpenDataset "real_a/images" None [Resize (512, 512) (InterpName "cubic")]],
     Raise (NameError "db_validation")).
Proof.
  split.
  - apply (assembly_outcomes example_listdir (script_params 2) example_config);
      try discriminate; reflexivity.
  - apply (assembly_outcomes example_listdir (script_params 2)
             (mkConfig [mkEntry "train/images" "train/labels"] 1 []
                       [mkEntry "real_a/images" ""])).
    + discriminate.
    + reflexivity.
Defined.

Lemma resume_at_or_past_last_epoch_witness :
  (exists l,
     main example_listdir example_permute example_loss example_loss example_iou
          example_checkpoint_exists (example_run 2 2 2) example_config
     = (l ++ [LoadModel 1], Raise (NameError "writer"))) /\
  (exists l,
     main example_listdir example_permute example_loss example_loss example_iou
          example_checkpoint_exists (example_run 3 3 2) example_config
     = (l, Raise FileNotFoundError)).
Proof.
  split; eexists.
  - apply (proj1 (proj2 (resume_at_or_past_last_epoch
                           example_listdir example_permute example_loss example_loss
                           example_iou example_checkpoint_exists
                           (example_run 2 2 2) example_config _ _ eq_refl)
                        (or_intror eq_refl))).
    reflexivity.
  - apply (proj1 (resume_at_or_past_last_epoch
                    example_listdir example_permute example_loss example_loss
                    example_iou example_checkpoint_exists
                    (example_run 3 3 2) example_config _ _ eq_refl)).
    + discriminate.
    + reflexivity.
Defined.

Lemma evaluation_batches_are_leading_slices_witness :
  exists log0 s,
    assemble example_listdir (script_params 2) example_config = (log0, Ok s) /\
    exists bs dropped,
      loader_batches example_listdir example_permute 0 (testloader s) = Ok bs /\
      alphapilot_items example_listdir (db_test s) = concat bs ++ dropped /\
      Z.of_nat (length dropped) = 1.
Proof.
  eexists. eexists. split; [vm_compute; reflexivity |].
  match goal with
  | |- context [testloader ?s] =>
      destruct (evaluation_batches_are_leading_slices
                  example_listdir example_permute
                  (script_params 2) example_config _ s
                  ltac:(vm_compute; reflexivity) Test 0)
        as (bs & dropped & Hb & Hi & Hd)
  end.
  exists bs, dropped. split; [exact Hb |]. split; [exact Hi |].
  rewrite Hd. vm_compute. reflexivity.
Defined.

Lemma batch_size_one_breaks_validation_witness :
  exists log0 s,
    assemble example_listdir (script_params 1) example_config = (log0, Ok s) /\
    example_listdir (input_dir (db_validation s)) <> [] /\
    exists log,
      evaluate example_listdir example_permute example_loss example_iou
               (script_params 1) s 0 example_globals = (log, Raise IndexError) /\
      saved_test_images log = [] /\
      grids "Validation" log = [].
Proof.
  eexists. eexists. split; [vm_compute; reflexivity |].
  split; [vm_compute; discriminate |].
  match goal with
  | |- context [evaluate _ _ _ _ _ ?s] =>
      destruct (batch_size_one_breaks_validation
                  example_listdir example_permute example_loss example_iou
                  (script_params 1) example_config _ s
                  ltac:(vm_compute; reflexivity) eq_refl
                  ltac:(vm_compute; discriminate) 0 example_globals)
        as (log & E & _ & Hs & Hg)
  end.
  exists log. split; [exact E |]. split; [exact Hs | exact Hg].
Defined.

Lemma evaluation_completes_witness :
  exists log0 s,
    assemble example_listdir (script_params 2) example_config = (log0, Ok s) /\
    exists log g',
      evaluate example_listdir example_permute example_loss example_iou
               (script_params 2) s 0 example_globals = (log, Ok g') /\
      saved_test_images log = [0; 1] /\
      grids "Validation" log = [2] /\
      grids "Test" log = [3].
Proof.
  eexists. eexists. split; [vm_compute; reflexivity |].
  match goal with
  | |- context [evaluate _ _ _ _ _ ?s] =>
      destruct (evaluation_completes
                  example_listdir example_permute example_loss example_iou
                  (script_params 2) example_config _ s
                  ltac:(vm_compute; reflexivity) ltac:(vm_compute; discriminate)
                  0 example_globals)
        as (log & g' & E & _ & Hs & Hv & Ht)
  end.
  exists log, g'. split; [exact E |].
  split; [rewrite Hs | split; [rewrite Hv | rewrite Ht]]; vm_compute; reflexivity.
Defined.

Lemma small_training_set_trains_nothing_witness :
  exists log0 s,
    assemble example_listdir (script_params 8) example_config = (log0, Ok s) /\
    exists items,
      dataset_items example_listdir (db_train s) = Ok items /\
      Z.of_nat (length items) < 8 /\
      num_img_tr s = 0 /\
      train_epoch example_listdir example_permute example_loss
                  (script_params 8) s 0 example_globals = ([], Ok example_globals).
Proof.
  eexists. eexists. split; [vm_compute; reflexivity |].
  eexists. split; [vm_compute; reflexivity |].
  split; [vm_compute; reflexivity |].
  match goal with
  | |- context [num_img_tr ?s] =>
      destruct (small_training_set_trains_nothing
                  example_listdir example_permute example_permute_perm example_loss
                  (script_params 8) example_config _ s _
                  ltac:(vm_compute; reflexivity) ltac:(vm_compute; reflexivity)
                  ltac:(vm_compute; reflexivity))
        as [Hn T]
  end.
  split; [exact Hn | exact (T 0 example_globals)].
Defined.

Lemma global_step_counts_batches_witness :
  0 < nAveGrad (example_run 0 3 2) /\
  exists g,
    snd (main example_listdir example_permute example_loss example_loss example_iou
              example_checkpoint_exists (example_run 0 3 2) example_config) = Ok g /\
    global_step g = 6 /\ updates g = 6%nat.
Proof.
  split; [reflexivity |].
  eexists. split; [vm_compute; reflexivity |].
  match goal with
  | |- global_step ?g = _ /\ _ =>
      destruct (global_step_counts_batches
                  example_listdir example_permute example_loss example_loss example_iou
                  example_checkpoint_exists (example_run 0 3 2) example_config g
                  eq_refl ltac:(vm_compute; reflexivity))
        as (Hg & Hu & _)
  end.
  split.
  - rewrite Hg. vm_compute. reflexivity.
  - apply Nat2Z.inj. rewrite Hu. vm_compute. reflexivity.
Defined.

Lemma epoch_loss_is_mean_batch_loss_witness :
  0 < nAveGrad (example_params 2 3) /\
  exists log g',
    for_enum (train_batch example_loss (example_params 2 3) 5 0) 0
             [example_batch 2; example_batch 2; example_batch 2;
              example_batch 2; example_batch 2] example_globals
    = (log, Ok g') /\
    map Qred (scalars "data/total_loss_epoch" log) = [1 # 2] /\
    running_loss_tr g' = 0%Q.
Proof.
  split; [reflexivity |].
  destruct (epoch_loss_is_mean_batch_loss
              example_loss (example_params 2 3) 0
              [example_batch 2; example_batch 2; example_batch 2;
               example_batch 2; example_batch 2] example_globals
              eq_refl ltac:(discriminate) ltac:(simpl; lia) ltac:(reflexivity)
              ltac:(intros b Hb; simpl in Hb;
                    repeat (destruct Hb as [<- | Hb]; [vm_compute; discriminate |]);
                    destruct Hb))
    as (log & g' & E & Hs & Hr & _).
  exists log, g'. split; [exact E |]. split; [| exact Hr].
  rewrite Hs. vm_compute. reflexivity.
Defined.

Lemma script_runs_to_completion_witness :
  exists log g,
    main example_listdir example_permute example_loss example_loss example_iou
         example_checkpoint_exists (example_run 0 3 2) example_config = (log ++ [CloseWriter], Ok g) /\
    global_step g = 6 /\
    saved_models log = [1].
Proof.
  edestruct (script_runs_to_completion
               example_listdir example_permute example_permute_perm
               example_loss example_loss example_iou example_checkpoint_exists
               (example_run 0 3 2) example_config)
    as (log & g & E & Hg & Hs);
    [ vm_compute; reflexivity | reflexivity | left; reflexivity
    | vm_compute; discriminate
    | vm_compute; reflexivity | vm_compute; reflexivity | discriminate
    | vm_compute; discriminate | reflexivity
    | vm_compute; discriminate | vm_compute; discriminate | vm_compute; discriminate | ].
  exists log, g. split; [exact E |]. split.
  - rewrite Hg. vm_compute. reflexivity.
  - rewrite Hs. vm_compute. reflexivity.
Defined.

Lemma run_id_follows_latest_run_witness :
  run_id example_glob "/home/repo" 0 = ([], Ok 3) /\
  run_id example_glob "/home/repo" 5 = ([], Ok 2).
Proof.
  assert (Hids : forall k, In k [1; 0; 2] -> 0 <= k < 100)
    by (intros k Hk; simpl in Hk; lia).
  split.
  - destruct (run_id_follows_latest_run example_glob "/home/repo" [1; 0; 2] 0
                ltac:(discriminate) Hids ltac:(vm_compute; reflexivity))
      as (m & Hm & Hmax & E).
    assert (Em : m = 2)
      by (pose proof (Hmax 2 ltac:(simpl; auto)); simpl in Hm; lia).
    rewrite E, Em. reflexivity.
  - destruct (run_id_follows_latest_run example_glob "/home/repo" [1; 0; 2] 5
                ltac:(discriminate) Hids ltac:(vm_compute; reflexivity))
      as (m & Hm & Hmax & E).
    assert (Em : m = 2)
      by (pose proof (Hmax 2 ltac:(simpl; auto)); simpl in Hm; lia).
    rewrite E, Em. reflexivity.
Defined.

Lemma run_id_stops_at_100_witness :
  run_id example_glob "/srv/repo" 0 = ([], Ok 100) /\
  exists log dir,
    save_dir example_glob "/srv/repo" 0 = (log, Ok dir) /\
    In dir (example_glob "/srv/repo/run/run_*").
Proof.
  destruct (run_id_stops_at_100 example_glob "/srv/repo" [100; 98; 99] 0
              ltac:(simpl; auto)
              ltac:(intros k Hk; simpl in Hk; lia)
              ltac:(vm_compute; reflexivity))
    as [E T].
  split; [exact E |].
  exact (T eq_refl ltac:(simpl; auto)).
Defined.
